(** * Online update orchestration of the iRMC Redfish provider

    A shallow embedding of the update-orchestration code of the provider
    (package [provider]: the selection reconciler, the execute payload
    builder, the collection fetch with its retry wrapper, the cache
    validity check and the [Create] operation of the online update
    resource), together with the properties the specification states
    about them.

    Go strings are byte strings: they are modelled by [string], one
    [ascii] per byte.  Go maps used as sets ([map[string]struct{}]) are
    [gset string]; the execute payload ([map[string]interface{}] holding
    strings only) is a [gmap string string]. *)

From Stdlib Require Import ZArith Ascii String List Lia.
From Stdlib Require Import Numbers.DecimalString.
From stdpp Require Import base decidable option list gmap strings.

Local Open Scope string_scope.
Local Open Scope Z_scope.
Local Open Scope list_scope.

(** ** The Go standard library functions the code relies on *)

Module gostrings.

Definition byte_code (c : ascii) : N := N_of_ascii c.

(** The [asciiSpace] table of package [strings]:
    tab, line feed, vertical tab, form feed, carriage return, space. *)
Definition asciiSpace (c : ascii) : bool :=
  match byte_code c with
  | 9%N | 10%N | 11%N | 12%N | 13%N | 32%N => true
  | _ => false
  end.

(** Two-byte UTF-8 encodings of white space: U+0085 and U+00A0. *)
Definition space2 (c1 c2 : ascii) : bool :=
  match byte_code c1, byte_code c2 with
  | 194%N, 133%N | 194%N, 160%N => true
  | _, _ => false
  end.

(** Three-byte UTF-8 encodings of white space: U+1680, U+2000..U+200A,
    U+2028, U+2029, U+202F, U+205F and U+3000. *)
Definition space3 (c1 c2 c3 : ascii) : bool :=
  match byte_code c1, byte_code c2 with
  | 225%N, 154%N => N.eqb (byte_code c3) 128
  | 226%N, 128%N =>
      (N.leb 128 (byte_code c3) && N.leb (byte_code c3) 138)
      || N.eqb (byte_code c3) 168 || N.eqb (byte_code c3) 169
      || N.eqb (byte_code c3) 175
  | 226%N, 129%N => N.eqb (byte_code c3) 159
  | 227%N, 128%N => N.eqb (byte_code c3) 128
  | _, _ => false
  end.

(** [TrimLeftFunc s unicode.IsSpace]: drop the white-space runes that
    [utf8.DecodeRuneInString] reads at the head of [s]. *)
Fixpoint TrimLeftSpace (s : string) : string :=
  match s with
  | EmptyString => EmptyString
  | String c1 r1 =>
      if asciiSpace c1 then TrimLeftSpace r1
      else match r1 with
           | EmptyString => s
           | String c2 r2 =>
               if space2 c1 c2 then TrimLeftSpace r2
               else match r2 with
                    | EmptyString => s
                    | String c3 r3 =>
                        if space3 c1 c2 c3 then TrimLeftSpace r3 else s
                    end
           end
  end.

(** The same on the reversed string, for the runes that
    [utf8.DecodeLastRuneInString] reads at the end: the bytes of a
    rune come last byte first. *)
Fixpoint TrimLeftSpaceRev (s : string) : string :=
  match s with
  | EmptyString => EmptyString
  | String c1 r1 =>
      if asciiSpace c1 then TrimLeftSpaceRev r1
      else match r1 with
           | EmptyString => s
           | String c2 r2 =>
               if space2 c2 c1 then TrimLeftSpaceRev r2
               else match r2 with
                    | EmptyString => s
                    | String c3 r3 =>
                        if space3 c3 c2 c1 then TrimLeftSpaceRev r3 else s
                    end
           end
  end.

Definition TrimRightSpace (s : string) : string :=
  String.rev (TrimLeftSpaceRev (String.rev s)).

(** [strings.TrimSpace]: all leading and trailing white space, as
    Unicode defines it, removed. *)
Definition TrimSpace (s : string) : string :=
  TrimRightSpace (TrimLeftSpace s).

(** [strings.Contains s "/"] for the one-byte separator. *)
Fixpoint ContainsByte (s : string) (b : ascii) : bool :=
  match s with
  | EmptyString => false
  | String c r => Ascii.eqb c b || ContainsByte r b
  end.

Definition Contains_slash (s : string) : bool := ContainsByte s "/"%char.

End gostrings.

(** [%d] of package [fmt] on an integer. *)
Definition fmt_d (n : Z) : string := NilZero.string_of_int (Z.to_int n).

(** ** Framework values ([types.String], [types.Bool], [types.List]) *)

Inductive tfString :=
| StringNull
| StringUnknown
| StringValue (s : string).

Definition String_IsNull (v : tfString) : bool :=
  match v with StringNull => true | _ => false end.

Definition String_IsUnknown (v : tfString) : bool :=
  match v with StringUnknown => true | _ => false end.

(** [ValueString] is the empty string on a null or unknown value. *)
Definition ValueString (v : tfString) : string :=
  match v with StringValue s => s | _ => "" end.

Inductive tfBool :=
| BoolNull
| BoolUnknown
| BoolValue (b : bool).

Inductive tfList :=
| ListNull
| ListUnknown
| ListValue (elems : list tfString).

Definition List_IsNull (l : tfList) : bool :=
  match l with ListNull => true | _ => false end.

Definition List_IsUnknown (l : tfList) : bool :=
  match l with ListUnknown => true | _ => false end.

(** [ElementsAs(ctx, &target, false)] with [target] a [[]string]: a null
    or unknown element has no Go string to go to and is reported in the
    diagnostics ([None] here); so is an unknown list, while a null list
    leaves the slice empty. *)
Fixpoint elements_as_strings (elems : list tfString) : option (list string) :=
  match elems with
  | [] => Some []
  | StringValue s :: rest => cons s <$> elements_as_strings rest
  | _ :: _ => None
  end.

Definition ElementsAs (l : tfList) : option (list string) :=
  match l with
  | ListValue elems => elements_as_strings elems
  | ListNull => Some []
  | ListUnknown => None
  end.

(** ** Package [models] *)

(** [RedfishServer] is declared in another file of the package; of its
    fields the code here reads [Endpoint] only.  The field
    [RedfishServer] of the resource model is [Server] here, after its
    [tfsdk] tag. *)
Record RedfishServer := { Endpoint : tfString }.


Record OnlineUpdateResourceModel := {
  Id : tfString;
  Server : list RedfishServer;
  UpdateList : tfList;
  ExecuteOnlineUpdOperationTime : tfString;
  ExecuteOnlineUpdScheduleTime : tfString
}.

Record OnlineUpdateCheckItem := {
  Designation : tfString;
  Component : tfString;
  SubComponent : tfString;
  CurrentVersion : tfString;
  NewVersion : tfString;
  Severity : tfString;
  Status : tfString;
  RebootRequired : tfString;
  Downloaded : tfBool;
  ExecutionStatus : tfString;
  RelNotePath : tfString
}.

Record OnlineUpdateCheck := {
  LastStatusChangeDate : tfString;
  UpdateCollection : list OnlineUpdateCheckItem
}.

(** ** Logging and errors *)

Inductive LogLevel := LInfo | LWarn.

(** The level and the message of one [tflog] call. *)
Definition LogEntry : Type := LogLevel * string.

(** A Go [error]: [None] is [nil], [Some msg] an error whose [Error()]
    text is [msg]. *)
Definition error : Type := option string.

(** ** Selection reconciler *)

Definition allowedUpdateComponents : gset string :=
  {[ "Agent-Lx"; "Agent-Win"; "FibreChannelController"; "LanController";
     "ManagementController"; "PrimSupportPack-Win"; "ScsiController";
     "Storage"; "SystemBoard"; "Others" ]}.

(** The variables the first loop of [PrepareUpdateLists] assigns;
    [requestWarnings] are the entries it has passed to [tflog.Warn]
    on [ctx := context.Background()]. *)
Record Requested := {
  requestedDesignations : gset string;
  requestedComponents : gset string;
  applyOthers : bool;
  noneEmptyRequest : bool;
  requestWarnings : list LogEntry
}.

Definition Requested_init : Requested :=
  {| requestedDesignations := ∅; requestedComponents := ∅;
     applyOthers := false; noneEmptyRequest := false;
     requestWarnings := [] |}.

Definition unrecognized_warning (trimmedReq : string) : LogEntry :=
  (LWarn,
   "Ignoring unrecognized item in update_list: '" +:+ trimmedReq +:+
   "'. It is not a known component type, specific designation (like 'Component/Name'), or the keyword 'Others'.").

(** Body of [for _, req := range requestedUpdates]. *)
Definition request_step (st : Requested) (req : string) : Requested :=
  let trimmedReq := gostrings.TrimSpace req in
  if bool_decide (trimmedReq = "") then st
  else if bool_decide (trimmedReq = "Others") then
    {| requestedDesignations := requestedDesignations st;
       requestedComponents := requestedComponents st;
       applyOthers := true;
       noneEmptyRequest := true;
       requestWarnings := requestWarnings st |}
  else if gostrings.Contains_slash trimmedReq then
    {| requestedDesignations := {[ trimmedReq ]} ∪ requestedDesignations st;
       requestedComponents := requestedComponents st;
       applyOthers := applyOthers st;
       noneEmptyRequest := true;
       requestWarnings := requestWarnings st |}
  else if bool_decide (trimmedReq ∈ allowedUpdateComponents) then
    {| requestedDesignations := requestedDesignations st;
       requestedComponents := {[ trimmedReq ]} ∪ requestedComponents st;
       applyOthers := applyOthers st;
       noneEmptyRequest := true;
       requestWarnings := requestWarnings st |}
  else
    {| requestedDesignations := requestedDesignations st;
       requestedComponents := requestedComponents st;
       applyOthers := applyOthers st;
       noneEmptyRequest := true;
       requestWarnings := requestWarnings st ++ [unrecognized_warning trimmedReq] |}.

Definition scan_requests (requestedUpdates : list string) : Requested :=
  fold_left request_step requestedUpdates Requested_init.

(** The value of the local [isSelected] at the end of the body of
    [for _, item := range collection.UpdateCollection]. *)
Definition isSelected (applyAll : bool) (st : Requested)
    (item : OnlineUpdateCheckItem) : bool :=
  let designation := ValueString (Designation item) in
  let component := ValueString (Component item) in
  if applyAll then true
  else
    let isSelected := false in
    let isSelected :=
      if bool_decide (designation ∈ requestedDesignations st) then true
      else isSelected in
    let isSelected :=
      if negb isSelected then
        if bool_decide (component ∈ requestedComponents st) then true
        else isSelected
      else isSelected in
    let isSelected :=
      if negb isSelected && applyOthers st then
        if negb (bool_decide (component ∈ allowedUpdateComponents)) then true
        else isSelected
      else isSelected in
    isSelected.

(** Body of the second loop: the two result slices, appended to. *)
Definition select_step (applyAll : bool) (st : Requested)
    (acc : list string * list string) (item : OnlineUpdateCheckItem)
  : list string * list string :=
  let '(selectedDesignations, deselectedDesignations) := acc in
  let designation := ValueString (Designation item) in
  if isSelected applyAll st item then
    (selectedDesignations ++ [designation], deselectedDesignations)
  else if negb applyAll then
    (selectedDesignations, deselectedDesignations ++ [designation])
  else acc.

(** What [PrepareUpdateLists] hands back: its three results.
    [prepare_background] are the entries it has passed to [tflog.Warn]
    on [context.Background()] meanwhile; that context carries no
    logger (see [tflog_Background]). *)
Record Prepared := {
  selected : list string;
  deselected : list string;
  prepare_err : error;
  prepare_background : list LogEntry
}.

Definition PrepareUpdateLists (plan : OnlineUpdateResourceModel)
    (collection : OnlineUpdateCheck) : Prepared :=
  let userProvidedList :=
    negb (List_IsNull (UpdateList plan)) && negb (List_IsUnknown (UpdateList plan)) in
  match (if userProvidedList then ElementsAs (UpdateList plan) else Some []) with
  | None =>
      {| selected := []; deselected := [];
         prepare_err := Some "invalid update_list format"; prepare_background := [] |}
  | Some requestedUpdates =>
      let st := scan_requests requestedUpdates in
      let applyAll := if noneEmptyRequest st then false else true in
      let '(selectedDesignations, deselectedDesignations) :=
        fold_left (select_step applyAll st) (UpdateCollection collection) ([], []) in
      {| selected := selectedDesignations;
         deselected := deselectedDesignations;
         prepare_err := None;
         prepare_background := requestWarnings st |}
  end.

(** ** Execute payload *)

(** [BuildExecutePayload]: the payload or the error; the second
    component are the entries it has passed to [tflog.Warn] on
    [context.Background()], which carries no logger (see
    [tflog_Background]). *)
Definition BuildExecutePayload (plan : OnlineUpdateResourceModel) (isFsas : bool)
  : (gmap string string + string) * list LogEntry :=
  let payload : gmap string string := {[ "ExecutionMode" := "ExecuteUpdate" ]} in
  let operationTimeType :=
    if negb (String_IsNull (ExecuteOnlineUpdOperationTime plan))
       && negb (String_IsUnknown (ExecuteOnlineUpdOperationTime plan))
    then ValueString (ExecuteOnlineUpdOperationTime plan)
    else "Immediately" in
  let payload := <[ "SchedulingType" := operationTimeType ]> payload in
  if bool_decide (operationTimeType = "Once") then
    if negb (String_IsNull (ExecuteOnlineUpdScheduleTime plan))
       && negb (String_IsUnknown (ExecuteOnlineUpdScheduleTime plan))
    then
      (inl (<[ "StartDate" := ValueString (ExecuteOnlineUpdScheduleTime plan) ]> payload), [])
    else
      (inr "attribute 'execute_online_upd_schedule_time' is required when 'execute_online_upd_operation_time' is 'Once'", [])
  else if negb (String_IsNull (ExecuteOnlineUpdScheduleTime plan))
          && negb (String_IsUnknown (ExecuteOnlineUpdScheduleTime plan))
  then
    (inl payload,
     [(LWarn, "'execute_online_upd_schedule_time' is provided but 'execute_online_upd_operation_time' is 'Immediately'. 'execute_online_upd_schedule_time' will be ignored by the API.")])
  else (inl payload, []).

(** ** Time *)

(** A [time.Time] is an instant, in nanoseconds since the Unix epoch; a
    [time.Duration] is a signed 64-bit count of nanoseconds. *)
Definition Second : Z := 1000000000.
Definition Hour : Z := 3600 * Second.
Definition minDuration : Z := - 2 ^ 63.
Definition maxDuration : Z := 2 ^ 63 - 1.

(** [t.Sub(u)]: the difference, saturated to the range of a duration. *)
Definition Time_Sub (t u : Z) : Z :=
  let d := t - u in
  if d <? minDuration then minDuration
  else if maxDuration <? d then maxDuration
  else d.

Definition CACHE_DURATION : Z := 6 * Hour.
Definition DEFAULT_ONLINEUPDATE_TIMEOUT : Z := 6000.

(** ** The remote system *)

(** What the code reads of an [*http.Response]. *)
Record Response := {
  StatusCode : Z;
  HeaderLocation : string;      (* Header.Get(HTTP_HEADER_LOCATION) *)
  ReadAll : string * error;     (* io.ReadAll(Body) *)
  BodyClose : error             (* Body.Close() *)
}.

(** The bodies the code posts. *)
Inductive Payload :=
| PayloadMap (m : gmap string string)
| PayloadModifications (modification : list (gmap string string)).

(** The anonymous struct [GetOnlineUpdateCollection] decodes into. *)
Record ItemJSON := {
  jDesignation : string;
  jComponent : string;
  jSubComponent : string;
  jCurrent : string;
  jNew : string;
  jSeverity : string;
  jItemStatus : string;
  jReboot : string;
  jDownloaded : bool;
  jExecution : string;
  jRelNotePath : string
}.

Record CollectionJSON := {
  jStatus : string;
  jLastStatusChangeDate : string;
  jUpdateCollection : list ItemJSON
}.

(** The collaborators of the orchestration code: the Redfish client, the
    JSON decoder, the clock, and the functions of the provider that live
    in other files.  A call on the remote system takes the world to a
    new world. *)
Class Backend (World : Type) := {
  ConnectTargetSystem : list RedfishServer -> World -> error * World;
  api_Logout : World -> World;
  IsFsasCheck : World -> (bool * error) * World;
  client_Post : string -> Payload -> World -> (Response + string) * World;
  client_Get : string -> World -> (Response + string) * World;
  json_Decode_licenses : Response -> list string + string;
  json_Decode_collection : Response -> CollectionJSON + string;
  time_Sleep : Z -> World -> World;
  time_Now : World -> Z;
  time_Parse_RFC3339 : string -> option Z;
  WaitForRedfishTaskEnd : string -> Z -> World -> (bool * error) * World;
  FetchRedfishTaskLog : string -> bool -> World -> (string * bool) * World;
  FSAS : string;
  TS_FUJITSU : string;
  FTS : string
}.

(** What an observer of a run sees, in order. *)
Inductive Event :=
| EvLog (entry : LogEntry)
| EvLock (endpoint resourceName : string)
| EvUnlock (endpoint resourceName : string)
| EvConnect
| EvLogout
| EvIsFsasCheck
| EvPost (endpoint : string) (payload : Payload)
| EvGet (endpoint : string)
| EvSleep (d : Z)
| EvWaitTask (location : string) (timeout : Z)
| EvFetchTaskLog (location : string).

Inductive Diagnostic :=
| DiagError (summary detail : string)
| DiagWarning (summary detail : string).

Definition is_error (d : Diagnostic) : bool :=
  match d with DiagError _ _ => true | DiagWarning _ _ => false end.

Definition HasError (ds : list Diagnostic) : bool := existsb is_error ds.

#[global] Instance Diagnostic_eq_dec : EqDecision Diagnostic.
Proof. solve_decision. Defined.

(** [diags.Append(d)]: a diagnostic already in the collection is not
    added again. *)
Definition Diagnostics_Append (diags : list Diagnostic) (d : Diagnostic)
  : list Diagnostic :=
  if bool_decide (d ∈ diags) then diags else diags ++ [d].

Definition Diagnostics_AppendAll (diags new : list Diagnostic) : list Diagnostic :=
  fold_left Diagnostics_Append new diags.

(** The three shapes of what [GetOnlineUpdateCollection] returns:
    [(&c, false, nil)], [(nil, true, nil)] and [(nil, false, err)]. *)
Inductive Fetched :=
| Ready (collection : OnlineUpdateCheck)
| InProgress
| Failed (err : string).

(** ** The orchestration code *)

Section Provider.

Context {World : Type} {backend : Backend World}.

(** The state a run threads: the remote world, the events so far, and
    the response of the operation ([resp.Diagnostics], [resp.State]). *)
Record St := {
  world : World;
  trace : list Event;
  Diagnostics : list Diagnostic;
  State : option OnlineUpdateResourceModel
}.

Definition Eff (A : Type) : Type := St -> A * St.

Definition ret {A} (a : A) : Eff A := fun s => (a, s).

Definition bind {A B} (c : Eff A) (k : A -> Eff B) : Eff B :=
  fun s => let '(a, s1) := c s in k a s1.

Notation "'let*' x ':=' c 'in' k" := (bind c (fun x => k))
  (at level 10, x pattern, c at level 100, k at level 200).
Notation "c ';;' k" := (bind c (fun _ => k))
  (at level 100, k at level 200, right associativity).

Definition emit (e : Event) : Eff unit :=
  fun s => (tt, {| world := world s; trace := trace s ++ [e];
                   Diagnostics := Diagnostics s; State := State s |}).

(** A call on the remote world, recorded first. *)
Definition call {A} (e : Event) (f : World -> A * World) : Eff A :=
  emit e;;
  fun s => let '(a, w) := f (world s) in
           (a, {| world := w; trace := trace s;
                  Diagnostics := Diagnostics s; State := State s |}).

Definition tflog (lvl : LogLevel) (msg : string) : Eff unit :=
  emit (EvLog (lvl, msg)).

(** [tflog.Warn(context.Background(), msg)].  [tflog] takes the
    logger from the context it is given and returns at once when there
    is none; the request's [ctx] carries the provider's logger,
    [context.Background()] carries none.  The call leaves no trace. *)
Definition tflog_Background (entry : LogEntry) : Eff unit := ret tt.

Fixpoint tflog_Background_all (entries : list LogEntry) : Eff unit :=
  match entries with
  | [] => ret tt
  | e :: rest => tflog_Background e;; tflog_Background_all rest
  end.

Definition Post (endpoint : string) (payload : Payload) : Eff (Response + string) :=
  call (EvPost endpoint payload) (client_Post endpoint payload).

Definition Get (endpoint : string) : Eff (Response + string) :=
  call (EvGet endpoint) (client_Get endpoint).

Definition Sleep (d : Z) : Eff unit :=
  call (EvSleep d) (fun w => (tt, time_Sleep d w)).

Definition Now : Eff Z := fun s => (time_Now (world s), s).

Definition AddError (summary detail : string) : Eff unit :=
  fun s => (tt, {| world := world s; trace := trace s;
                   Diagnostics := Diagnostics_Append (Diagnostics s)
                                  (DiagError summary detail);
                   State := State s |}).

Definition AddWarning (summary detail : string) : Eff unit :=
  fun s => (tt, {| world := world s; trace := trace s;
                   Diagnostics := Diagnostics_Append (Diagnostics s)
                                  (DiagWarning summary detail);
                   State := State s |}).

Definition AppendDiags (ds : list Diagnostic) : Eff unit :=
  fun s => (tt, {| world := world s; trace := trace s;
                   Diagnostics := Diagnostics_AppendAll (Diagnostics s) ds;
                   State := State s |}).

Definition DiagsHasError : Eff bool := fun s => (HasError (Diagnostics s), s).

(** [resp.State.Set(ctx, &plan)]; the model struct matches the schema
    and the conversion reports nothing. *)
Definition State_Set (plan : OnlineUpdateResourceModel) : Eff (list Diagnostic) :=
  fun s => ([], {| world := world s; trace := trace s;
                   Diagnostics := Diagnostics s; State := Some plan |}).

(** *** update_helper.go *)

Record onlineUpdateEndpoints := {
  checkEndpoint : string;
  collectionEndpoint : string;
  modifyCollectionEndpoint : string
}.

Definition elcm_action (oem prefix action : string) : string :=
  "/redfish/v1/Systems/0/Oem/" +:+ oem +:+ "/eLCM/Actions/" +:+ prefix +:+ action.

Definition GetOnlineUpdateEndpoints (isFsas : bool) : onlineUpdateEndpoints :=
  if isFsas then
    {| checkEndpoint := elcm_action FSAS FSAS "eLCM.OnlineUpdate";
       collectionEndpoint := elcm_action FSAS FSAS "eLCM.OnlineUpdateGetCollection";
       modifyCollectionEndpoint := elcm_action FSAS FSAS "eLCM.OnlineUpdateModifyCollection" |}
  else
    {| checkEndpoint := elcm_action TS_FUJITSU FTS "eLCM.OnlineUpdate";
       collectionEndpoint := elcm_action TS_FUJITSU FTS "eLCM.OnlineUpdateGetCollection";
       modifyCollectionEndpoint := elcm_action TS_FUJITSU FTS "eLCM.OnlineUpdateModifyCollection" |}.

Definition GetLicenseEndpoint (isFsas : bool) : string :=
  if isFsas
  then "/redfish/v1/Managers/iRMC/Oem/" +:+ FSAS +:+ "/iRMCConfiguration/Licenses"
  else "/redfish/v1/Managers/iRMC/Oem/" +:+ TS_FUJITSU +:+ "/iRMCConfiguration/Licenses".

Definition CheckELCMLicense (endpoint : string) : Eff error :=
  let* r := Get endpoint in
  match r with
  | inr err =>
      ret (Some ("failed to get license info from " +:+ endpoint +:+ ": " +:+ err))
  | inl resp =>
      if negb (StatusCode resp =? 200) then
        ret (Some ("unexpected status code " +:+ fmt_d (StatusCode resp) +:+
                   " while fetching licenses: " +:+ fst (ReadAll resp)))
      else
        match json_Decode_licenses resp with
        | inr err => ret (Some ("failed to decode license information: " +:+ err))
        | inl keys =>
            if existsb (fun name => bool_decide (name = "eLCM")) keys
            then ret None
            else ret (Some "eLCM license not found. Online update functionality requires an active eLCM license on the iRMC.")
        end
  end.

Definition is_2xx_accepted (code : Z) : bool :=
  (code =? 200) || (code =? 202) || (code =? 201) || (code =? 204).

Definition TriggerOnlineUpdateCheck (endpoint : string) : Eff (string * error) :=
  let payload : gmap string string :=
    {[ "ExecutionMode" := "CheckForUpdate"; "SchedulingType" := "Immediately" ]} in
  let* r := Post endpoint (PayloadMap payload) in
  match r with
  | inr err => ret ("", Some ("POST request failed: " +:+ err))
  | inl respPost =>
      if negb (is_2xx_accepted (StatusCode respPost)) then
        ret ("", Some ("Unexpected response status: " +:+ fmt_d (StatusCode respPost) +:+
                       ", response body: " +:+ fst (ReadAll respPost)))
      else
        let location := HeaderLocation respPost in
        if bool_decide (location = "") then
          tflog LWarn "Task Location header not found in response.";;
          ret ("", None)
        else ret (location, None)
  end.

Definition item_of_json (u : ItemJSON) : OnlineUpdateCheckItem :=
  {| Designation := StringValue (jDesignation u);
     Component := StringValue (jComponent u);
     SubComponent := StringValue (jSubComponent u);
     CurrentVersion := StringValue (jCurrent u);
     NewVersion := StringValue (jNew u);
     Severity := StringValue (jSeverity u);
     Status := StringValue (jItemStatus u);
     RebootRequired := StringValue (jReboot u);
     Downloaded := BoolValue (jDownloaded u);
     ExecutionStatus := StringValue (jExecution u);
     RelNotePath := StringValue (jRelNotePath u) |}.

Definition GetOnlineUpdateCollection (endpoint : string) : Eff Fetched :=
  let* r := Post endpoint (PayloadMap ∅) in
  match r with
  | inr err => ret (Failed ("POST request failed: " +:+ err))
  | inl resp =>
      if negb (StatusCode resp =? 200) then
        ret (Failed ("Unexpected status code " +:+ fmt_d (StatusCode resp) +:+
                     ": " +:+ fst (ReadAll resp)))
      else
        match json_Decode_collection resp with
        | inr err => ret (Failed ("Error decoding JSON response: " +:+ err))
        | inl result =>
            if bool_decide (jStatus result = "InProgress") then ret InProgress
            else
              ret (Ready {| LastStatusChangeDate := StringValue (jLastStatusChangeDate result);
                            UpdateCollection := map item_of_json (jUpdateCollection result) |})
        end
  end.

(** The [for i := 0; i < retries; i++] loop, with [n] iterations left. *)
Fixpoint retry_loop (endpoint : string) (retries delay : Z) (n : nat)
  : Eff (OnlineUpdateCheck + string) :=
  match n with
  | O => ret (inr ("Collection was not ready after " +:+ fmt_d retries +:+ " retries"))
  | S n' =>
      let* r := GetOnlineUpdateCollection endpoint in
      match r with
      | Failed err => ret (inr err)
      | InProgress => Sleep delay;; retry_loop endpoint retries delay n'
      | Ready collection => ret (inl collection)
      end
  end.

Definition GetOnlineUpdateCollectionWithRetry (endpoint : string) (retries delay : Z)
  : Eff (OnlineUpdateCheck + string) :=
  retry_loop endpoint retries delay (Z.to_nat retries).

(** [%v] of an error value. *)
Definition fmt_v_error (err : error) : string :=
  match err with Some msg => msg | None => "<nil>" end.

Definition CheckOnlineUpdateStatus (location : string) (timeout : Z) (isFsas : bool)
  : Eff error :=
  let* (finishedSuccessfully, err) :=
    call (EvWaitTask location timeout) (WaitForRedfishTaskEnd location timeout) in
  if bool_decide (err <> None) || negb finishedSuccessfully then
    let* (taskLog, diagsHasError) :=
      call (EvFetchTaskLog location) (FetchRedfishTaskLog location isFsas) in
    if (diagsHasError : bool) then
      ret (Some ("Online update check task did not complete successfully: " +:+ fmt_v_error err))
    else
      ret (Some ("Oonline update check task failed. Details: " +:+ fmt_v_error err +:+
                 ". Task log: " +:+ taskLog))
  else ret None.

Definition IsCollectionCacheValid (collectionEndpoint : string) : Eff bool :=
  let* r := GetOnlineUpdateCollectionWithRetry collectionEndpoint 2 (1 * Second) in
  match r with
  | inr _ => ret false
  | inl existingCollection =>
      if negb (String_IsNull (LastStatusChangeDate existingCollection))
         && negb (String_IsUnknown (LastStatusChangeDate existingCollection))
      then
        let dateStr := ValueString (LastStatusChangeDate existingCollection) in
        match time_Parse_RFC3339 dateStr with
        | Some lastCheckTime =>
            let* now := Now in
            if Time_Sub now lastCheckTime <? CACHE_DURATION then ret true
            else ret false
        | None => ret false
        end
      else ret false
  end.

(** *** The online update resource *)

(** Body of [for _, designation := range designationsToDeselect].
    The body of a response is read after it was closed, which yields
    no bytes. *)
Fixpoint DeselectUpdates_loop (modifyEndpoint : string)
    (designationsToDeselect : list string) : Eff error :=
  match designationsToDeselect with
  | [] => ret None
  | designation :: rest =>
      let modification : list (gmap string string) :=
        [ {[ "Designation" := designation; "Execution" := "deselected" ]} ] in
      let* r := Post modifyEndpoint (PayloadModifications modification) in
      match r with
      | inr err =>
          ret (Some ("POST request to deselect '" +:+ designation +:+ "' failed: " +:+ err))
      | inl res =>
          (match BodyClose res with
           | Some _ => tflog LWarn "Error closing response body during deselect loop"
           | None => ret tt
           end);;
          if negb (StatusCode res =? 200) && negb (StatusCode res =? 204) then
            ret (Some ("deselect POST request for '" +:+ designation +:+
                       "' returned status code " +:+ fmt_d (StatusCode res) +:+ ": " +:+ ""))
          else DeselectUpdates_loop modifyEndpoint rest
      end
  end.

Definition DeselectUpdates (modifyEndpoint : string)
    (designationsToDeselect : list string) : Eff error :=
  if (length designationsToDeselect =? 0)%nat then ret None
  else DeselectUpdates_loop modifyEndpoint designationsToDeselect.

Definition TriggerOnlineUpdateExecute (endpoint : string)
    (payload : gmap string string) : Eff (string * error) :=
  let* r := Post endpoint (PayloadMap payload) in
  match r with
  | inr err => ret ("", Some ("POST request failed: " +:+ err))
  | inl respPost =>
      if negb (is_2xx_accepted (StatusCode respPost)) then
        match snd (ReadAll respPost) with
        | Some _ =>
            ret ("", Some ("POST request returned status code " +:+ fmt_d (StatusCode respPost)))
        | None =>
            ret ("", Some ("POST request returned status code " +:+ fmt_d (StatusCode respPost) +:+
                           ": " +:+ fst (ReadAll respPost)))
        end
      else
        let location := HeaderLocation respPost in
        if bool_decide (location = "") then
          ret ("", Some "Task Location header not found in response")
        else ret (location, None)
  end.

Definition with_Id (plan : OnlineUpdateResourceModel) (id : tfString)
  : OnlineUpdateResourceModel :=
  {| Id := id; Server := Server plan; UpdateList := UpdateList plan;
     ExecuteOnlineUpdOperationTime := ExecuteOnlineUpdOperationTime plan;
     ExecuteOnlineUpdScheduleTime := ExecuteOnlineUpdScheduleTime plan |}.

(** What [Create] holds once the collection is there (line 200). *)
Record Acquired := {
  a_plan : OnlineUpdateResourceModel;
  a_isFsas : bool;
  a_endpoints : onlineUpdateEndpoints;
  a_collection : OnlineUpdateCheck
}.

(** The calls a run of [Create] has deferred, latest first. *)
Inductive Deferred :=
| DeferUnlock (endpoint resourceName : string)
| DeferLogout.

Inductive Exit := Returned | Panicked.

(** The [if IsCollectionCacheValid ... else ...] of [Create]: the
    collection, or [None] when an error was added and [Create]
    returns. *)
Definition Create_collection (isFsas : bool) (endpoints : onlineUpdateEndpoints)
  : Eff (option OnlineUpdateCheck) :=
  let* valid := IsCollectionCacheValid (collectionEndpoint endpoints) in
  if (valid : bool) then
    let* r := GetOnlineUpdateCollectionWithRetry (collectionEndpoint endpoints) 3 (1 * Second) in
    match r with
    | inr err => AddError "Failed to retrieve cached collection" err;; ret None
    | inl collection => ret (Some collection)
    end
  else
    let* (taskLocation, err) := TriggerOnlineUpdateCheck (checkEndpoint endpoints) in
    match err with
    | Some e => AddError "Trigger Online Update Check Failed" e;; ret None
    | None =>
        let* ok :=
          if negb (bool_decide (taskLocation = "")) then
            let* err := CheckOnlineUpdateStatus taskLocation DEFAULT_ONLINEUPDATE_TIMEOUT isFsas in
            match err with
            | Some e => AddError "Preaper Online Update Check Task Failed" e;; ret false
            | None => ret true
            end
          else Sleep (5 * Second);; ret true in
        if (ok : bool) then
          let* r := GetOnlineUpdateCollectionWithRetry (collectionEndpoint endpoints) 12 (5 * Second) in
          match r with
          | inr err => AddError "Collection Retrieval Error after new check" err;; ret None
          | inl collection => ret (Some collection)
          end
        else ret None
    end.

(** Lines 137 to 199 of [Create]: from the plan to the collection.
    The third component is [None] when [Create] returns here. *)
Definition Create_head (plan_get : OnlineUpdateResourceModel * list Diagnostic)
  : Eff (Exit * list Deferred * option Acquired) :=
  tflog LInfo "resource-online-update: create starts";;
  let '(plan, diags) := plan_get in
  AppendDiags diags;;
  let* hasError := DiagsHasError in
  if (hasError : bool) then ret (Returned, [], None)
  else
    match Server plan with
    | [] => ret (Panicked, [], None)
    | server0 :: _ =>
        let endpoint := ValueString (Endpoint server0) in
        let resourceName := "resource-online-update" in
        emit (EvLock endpoint resourceName);;
        let deferred := [DeferUnlock endpoint resourceName] in
        let* err := call EvConnect (ConnectTargetSystem (Server plan)) in
        match err with
        | Some e => AddError "Service Connection Error" e;; ret (Returned, deferred, None)
        | None =>
            let deferred := DeferLogout :: deferred in
            let* (isFsas, err) := call EvIsFsasCheck IsFsasCheck in
            match err with
            | Some e => AddError "Vendor Detection Failed" e;; ret (Returned, deferred, None)
            | None =>
                let* err := CheckELCMLicense (GetLicenseEndpoint isFsas) in
                match err with
                | Some e => AddError "eLCM License Check Failed" e;; ret (Returned, deferred, None)
                | None =>
                    let endpoints := GetOnlineUpdateEndpoints isFsas in
                    let* c := Create_collection isFsas endpoints in
                    match c with
                    | None => ret (Returned, deferred, None)
                    | Some collection =>
                        ret (Returned, deferred,
                             Some {| a_plan := plan; a_isFsas := isFsas;
                                     a_endpoints := endpoints; a_collection := collection |})
                    end
                end
            end
        end
    end.

Definition no_match_summary : string := "No matching updates found".
Definition no_match_detail : string :=
  "The specified 'update_list' did not match any available updates in the collection. No updates were executed.".

(** Lines 227 to 253 of [Create]: the trigger decision and the execute
    call.  [false] when an error was added and [Create] returns. *)
Definition Create_execute (plan : OnlineUpdateResourceModel) (isFsas : bool)
    (endpoints : onlineUpdateEndpoints) (collection : OnlineUpdateCheck)
    (selected deselected : list string) (executePayload : gmap string string)
  : Eff bool :=
  let shouldExecute := (0 <? length selected)%nat || List_IsNull (UpdateList plan) in
  if shouldExecute then
    let* (executeTaskLocation, err) :=
      TriggerOnlineUpdateExecute (checkEndpoint endpoints) executePayload in
    match err with
    | Some e => AddError "Trigger Online Update Execute Failed" e;; ret false
    | None =>
        let operationTimeType := ValueString (ExecuteOnlineUpdOperationTime plan) in
        if bool_decide (operationTimeType = "Immediately") then
          if negb (bool_decide (executeTaskLocation = "")) then
            let* err := CheckOnlineUpdateStatus executeTaskLocation DEFAULT_ONLINEUPDATE_TIMEOUT isFsas in
            match err with
            | Some e => AddError "Online Update Execute Task Failed" e;; ret false
            | None => ret true
            end
          else Sleep (10 * Second);; ret true
        else ret true
    end
  else
    (if negb (List_IsNull (UpdateList plan))
        && (0 <? length (UpdateCollection collection))%nat
        && (length selected =? 0)%nat
        && (0 <? length deselected)%nat
     then AddWarning no_match_summary no_match_detail
     else ret tt);;
    ret true.

(** Lines 210 to 225 of [Create]: reconciliation, deselect calls and
    payload.  [None] when an error was added and [Create] returns.
    The warnings of [PrepareUpdateLists] and [BuildExecutePayload] go
    to [context.Background()] inside those functions, not to the log
    of the request. *)
Definition Create_prepare (a : Acquired)
  : Eff (option (list string * list string * gmap string string)) :=
  let prepared := PrepareUpdateLists (a_plan a) (a_collection a) in
  tflog_Background_all (prepare_background prepared);;
  match prepare_err prepared with
  | Some e => AddError "Failed to prepare update lists" e;; ret None
  | None =>
      let* err := DeselectUpdates (modifyCollectionEndpoint (a_endpoints a))
                    (deselected prepared) in
      match err with
      | Some e => AddError "Failed to deselect updates via ModifyCollection" e;; ret None
      | None =>
          let '(built, background) := BuildExecutePayload (a_plan a) (a_isFsas a) in
          tflog_Background_all background;;
          match built with
          | inr e => AddError "Failed to build execute payload" e;; ret None
          | inl executePayload =>
              ret (Some (selected prepared, deselected prepared, executePayload))
          end
      end
  end.

(** Lines 255 to 258 of [Create]. *)
Definition Create_finish (a : Acquired) : Eff unit :=
  let plan := with_Id (a_plan a) (StringValue (checkEndpoint (a_endpoints a))) in
  let* diags := State_Set plan in
  AppendDiags diags;;
  tflog LInfo "resource-online-update: create ends".

(** Lines 201 to 258 of [Create]. *)
Definition Create_tail (a : Acquired) : Eff unit :=
  if (length (UpdateCollection (a_collection a)) =? 0)%nat then
    tflog LInfo "Online update check completed successfully, but no updates are currently available for this system.";;
    let plan := with_Id (a_plan a) (StringValue (checkEndpoint (a_endpoints a))) in
    let* diags := State_Set plan in
    AppendDiags diags;;
    tflog LInfo "resource-online-update: create ends (no updates available)"
  else
    let* r := Create_prepare a in
    match r with
    | None => ret tt
    | Some (selected, deselected, executePayload) =>
        let* ok := Create_execute (a_plan a) (a_isFsas a) (a_endpoints a) (a_collection a)
                     selected deselected executePayload in
        if (ok : bool) then Create_finish a else ret tt
    end.

Definition run_deferred_call (d : Deferred) : Eff unit :=
  match d with
  | DeferUnlock endpoint resourceName => emit (EvUnlock endpoint resourceName)
  | DeferLogout => call EvLogout (fun w => (tt, api_Logout w))
  end.

Fixpoint run_deferred (ds : list Deferred) : Eff unit :=
  match ds with
  | [] => ret tt
  | d :: rest => run_deferred_call d;; run_deferred rest
  end.

(** [OnlineUpdateResource.Create]; [plan_get] is what
    [req.Plan.Get(ctx, &plan)] yields. *)
Definition Create (plan_get : OnlineUpdateResourceModel * list Diagnostic) : Eff Exit :=
  let* (exit, deferred, acquired) := Create_head plan_get in
  (match acquired with
   | Some a => Create_tail a
   | None => ret tt
   end);;
  run_deferred deferred;;
  ret exit.

End Provider.

(** * Vocabulary of the specification *)

Definition designation_of (item : OnlineUpdateCheckItem) : string :=
  ValueString (Designation item).

Definition component_of (item : OnlineUpdateCheckItem) : string :=
  ValueString (Component item).

(** The requests the first loop of [PrepareUpdateLists] looks at: the
    desired list, when the user gave one whose elements are all
    strings; none for a null or unknown list. *)
Definition requests_of (l : tfList) : option (list string) :=
  match l with
  | ListValue elems => elements_as_strings elems
  | _ => Some []
  end.

Definition blank (req : string) : Prop := gostrings.TrimSpace req = "".

(** The state after [k] fetch attempts that each found the check in
    progress and slept [delay]; [None] when one of them found something
    else. *)
Fixpoint in_progress_run {World} {backend : Backend World}
    (endpoint : string) (delay : Z) (k : nat) (s : St) : option St :=
  match k with
  | O => Some s
  | S k' =>
      match GetOnlineUpdateCollection endpoint s with
      | (InProgress, s1) => in_progress_run endpoint delay k' (snd (Sleep delay s1))
      | _ => None
      end
  end.

(** The events of a run from [s] to [s']. *)
Definition events_since {World} (s s' : @St World) : list Event :=
  drop (length (trace s)) (trace s').

Definition is_Post (e : Event) : bool :=
  match e with EvPost _ _ => true | _ => false end.

Definition is_Sleep (e : Event) : bool :=
  match e with EvSleep _ => true | _ => false end.

Definition is_WaitTask (e : Event) : bool :=
  match e with EvWaitTask _ _ => true | _ => false end.

(** ** A scripted remote system

    A world whose answers are written down in advance: each POST takes
    the next reply of [post_replies], each GET the next of
    [get_replies], each task wait the next of [task_results]; when a
    script has run out the connection fails.  Bodies are decoded by
    table. *)
Module Scripted.

Record World := {
  post_replies : list (Response + string);
  get_replies : list (Response + string);
  task_results : list (bool * error);
  fsas : bool;
  clock : Z
}.

Definition refused : Response + string := inr "connection refused".

Definition post (endpoint : string) (payload : Payload) (w : World)
  : (Response + string) * World :=
  match post_replies w with
  | [] => (refused, w)
  | r :: rest =>
      (r, {| post_replies := rest; get_replies := get_replies w;
             task_results := task_results w; fsas := fsas w; clock := clock w |})
  end.

Definition get (endpoint : string) (w : World) : (Response + string) * World :=
  match get_replies w with
  | [] => (refused, w)
  | r :: rest =>
      (r, {| post_replies := post_replies w; get_replies := rest;
             task_results := task_results w; fsas := fsas w; clock := clock w |})
  end.

Definition wait (location : string) (timeout : Z) (w : World)
  : (bool * error) * World :=
  match task_results w with
  | [] => ((false, Some "task not found"), w)
  | r :: rest =>
      (r, {| post_replies := post_replies w; get_replies := get_replies w;
             task_results := rest; fsas := fsas w; clock := clock w |})
  end.

Definition sleep (d : Z) (w : World) : World :=
  {| post_replies := post_replies w; get_replies := get_replies w;
     task_results := task_results w; fsas := fsas w; clock := clock w + d |}.

Definition item (designation component : string) : ItemJSON :=
  {| jDesignation := designation; jComponent := component;
     jSubComponent := ""; jCurrent := "1.0"; jNew := "2.0";
     jSeverity := "recommended"; jItemStatus := "released";
     jReboot := "no"; jDownloaded := false;
     jExecution := "selected"; jRelNotePath := "" |}.

Definition new_year : string := "2025-01-01T00:00:00Z".

Definition decode_collection (resp : Response) : CollectionJSON + string :=
  let body := fst (ReadAll resp) in
  if bool_decide (body = "in-progress") then
    inl {| jStatus := "InProgress"; jLastStatusChangeDate := "";
           jUpdateCollection := [] |}
  else if bool_decide (body = "no-updates") then
    inl {| jStatus := "Done"; jLastStatusChangeDate := new_year;
           jUpdateCollection := [] |}
  else if bool_decide (body = "three-updates") then
    inl {| jStatus := "Done"; jLastStatusChangeDate := new_year;
           jUpdateCollection :=
             [ item "SystemBoard/A" "SystemBoard";
               item "VendorX/C" "VendorX";
               item "Others/X" "Others" ] |}
  else inr "invalid character".

Definition decode_licenses (resp : Response) : list string + string :=
  if bool_decide (fst (ReadAll resp) = "licenses") then inl ["AVR"; "eLCM"]
  else inr "invalid character".

Definition parse (dateStr : string) : option Z :=
  if bool_decide (dateStr = new_year) then Some (1735689600 * Second) else None.

#[global] Instance backend : Backend World := {|
  ConnectTargetSystem := fun _ w => (None, w);
  api_Logout := fun w => w;
  IsFsasCheck := fun w => ((fsas w, None), w);
  client_Post := post;
  client_Get := get;
  json_Decode_licenses := decode_licenses;
  json_Decode_collection := decode_collection;
  time_Sleep := sleep;
  time_Now := clock;
  time_Parse_RFC3339 := parse;
  WaitForRedfishTaskEnd := wait;
  FetchRedfishTaskLog := fun _ _ w => (("", false), w);
  FSAS := "Fsas";
  TS_FUJITSU := "ts_fujitsu";
  FTS := "FTS"
|}.

Definition reply (code : Z) (location body : string) : Response + string :=
  inl {| StatusCode := code; HeaderLocation := location;
         ReadAll := (body, None); BodyClose := None |}.

(** One hour after the collection's last change. *)
Definition start (posts gets : list (Response + string))
    (tasks : list (bool * error)) : St :=
  {| world := {| post_replies := posts; get_replies := gets;
                 task_results := tasks; fsas := true;
                 clock := 1735689600 * Second + Hour |};
     trace := []; Diagnostics := []; State := None |}.

Definition plan (update_list : tfList) (operation_time schedule_time : tfString)
  : OnlineUpdateResourceModel :=
  {| Id := StringUnknown;
     Server := [ {| Endpoint := StringValue "https://irmc.example" |} ];
     UpdateList := update_list;
     ExecuteOnlineUpdOperationTime := operation_time;
     ExecuteOnlineUpdScheduleTime := schedule_time |}.

Definition check_item (designation component : string) : OnlineUpdateCheckItem :=
  item_of_json (item designation component).

Definition three_updates : OnlineUpdateCheck :=
  {| LastStatusChangeDate := StringValue new_year;
     UpdateCollection :=
       [ check_item "SystemBoard/A" "SystemBoard";
         check_item "VendorX/C" "VendorX";
         check_item "Others/X" "Others" ] |}.

End Scripted.


(** ** Runs and what they leave alone *)

Section RunRelations.

Context {World : Type}.

(** [c] takes every state to an [R]-related one. *)
Definition preserves (R : relation (@St World)) {A} (c : Eff A) : Prop :=
  forall s, R s (snd (c s)).

(** [c] takes a state to an [R]-related one whenever its result
    satisfies [P]. *)
Definition preserves_if (R : relation (@St World)) {A} (P : A -> Prop)
    (c : Eff A) : Prop :=
  forall s, P (fst (c s)) -> R s (snd (c s)).

(** The response of the operation is untouched. *)
Definition same_response : relation (@St World) :=
  fun s s' => Diagnostics s' = Diagnostics s /\ State s' = State s.

(** Events are only added. *)
Definition more_events : relation (@St World) :=
  fun s s' => exists evs, trace s' = trace s ++ evs.

End RunRelations.

Definition explicit_plan : OnlineUpdateResourceModel :=
  Scripted.plan (ListValue [StringValue " Others "; StringValue "Storage"; StringValue "  "])
    (StringValue "Immediately") StringNull.

Definition explicit_requests : list string := [" Others "; "Storage"; "  "].

Definition blank_plan : OnlineUpdateResourceModel :=
  Scripted.plan (ListValue [StringValue "  "; StringValue ""])
    (StringValue "Immediately") StringNull.

Definition schedule_required : string :=
  "attribute 'execute_online_upd_schedule_time' is required when 'execute_online_upd_operation_time' is 'Once'".

Definition schedule_ignored : LogEntry :=
  (LWarn, "'execute_online_upd_schedule_time' is provided but 'execute_online_upd_operation_time' is 'Immediately'. 'execute_online_upd_schedule_time' will be ignored by the API.").

Definition budget_exhausted (retries : Z) : string :=
  "Collection was not ready after " +:+ fmt_d retries +:+ " retries".

Definition deferred_event (d : Deferred) : Event :=
  match d with
  | DeferUnlock endpoint resourceName => EvUnlock endpoint resourceName
  | DeferLogout => EvLogout
  end.

(** ** Scenarios on the scripted remote system *)

Definition collection_url : string :=
  "/redfish/v1/Systems/0/Oem/Fsas/eLCM/Actions/FsaseLCM.OnlineUpdateGetCollection".

Definition check_url : string :=
  "/redfish/v1/Systems/0/Oem/Fsas/eLCM/Actions/FsaseLCM.OnlineUpdate".

Definition busy : Response + string := Scripted.reply 200 "" "in-progress".

Definition licensed : Response + string := Scripted.reply 200 "" "licenses".

Definition with_updates : Response + string := Scripted.reply 200 "" "three-updates".

Definition without_updates : Response + string := Scripted.reply 200 "" "no-updates".

Definition is_Log (e : Event) : bool :=
  match e with EvLog _ => true | _ => false end.

(** "Immediately", and a schedule time all the same. *)
Definition scheduled_anyway_plan : OnlineUpdateResourceModel :=
  Scripted.plan ListNull (StringValue "Immediately") (StringValue Scripted.new_year).

(** The cache is fresh; the execute call is answered 202 with a task
    location, and the task succeeds. *)
Definition execute_start : St :=
  Scripted.start [with_updates; with_updates; Scripted.reply 202 "/task/9" ""]
    [licensed] [(true, None)].

Definition others_plan : OnlineUpdateResourceModel :=
  Scripted.plan (ListValue [StringValue "Others"]) (StringValue "Immediately") StringNull.


Definition null_plan : OnlineUpdateResourceModel :=
  Scripted.plan ListNull (StringValue "Immediately") StringNull.

(** The cache is fresh and the collection is empty. *)
Definition no_updates_start : St :=
  Scripted.start [without_updates; without_updates] [licensed] [].


(** The cache is fresh; "Others" selects one update and deselects two;
    the execute call is answered 202 without a task location. *)
Definition no_location_start : St :=
  Scripted.start
    [with_updates; with_updates;
     Scripted.reply 200 "" ""; Scripted.reply 204 "" ""; Scripted.reply 202 "" ""]
    [licensed] [].

(** * Further vocabulary *)

(** ** The decision of the reconciler, in words of the desired list *)

(** An entry that is neither blank, nor the keyword, nor a designation,
    nor a known component: the first loop only warns about it. *)
Definition unrecognized (trimmedReq : string) : bool :=
  negb (bool_decide (trimmedReq = ""))
  && negb (bool_decide (trimmedReq = "Others"))
  && negb (gostrings.Contains_slash trimmedReq)
  && negb (bool_decide (trimmedReq ∈ allowedUpdateComponents)).

(** The three ways an item is selected by a list whose trimmed entries
    are [T]. *)
Definition by_designation (T : list string) (item : OnlineUpdateCheckItem) : Prop :=
  designation_of item ∈ T /\ gostrings.Contains_slash (designation_of item) = true.

Definition by_component (T : list string) (item : OnlineUpdateCheckItem) : Prop :=
  component_of item ∈ T /\ component_of item ∈ allowedUpdateComponents /\
  component_of item <> "Others".

Definition by_catch_all (T : list string) (item : OnlineUpdateCheckItem) : Prop :=
  "Others" ∈ T /\ component_of item ∉ allowedUpdateComponents.

Definition trimmed (reqs : list string) : list string :=
  map gostrings.TrimSpace reqs.

(** The rule of the reconciler for a list whose trimmed entries are [T]. *)
Definition selection_rule (T : list string) (item : OnlineUpdateCheckItem) : Prop :=
  by_designation T item \/ by_component T item \/ by_catch_all T item.

Definition known_string (v : tfString) : Prop := exists s, v = StringValue s.

Definition bogus_plan : OnlineUpdateResourceModel :=
  Scripted.plan (ListValue [StringValue "bogus"; StringValue " storage "])
    (StringValue "Immediately") StringNull.

Definition shuffled_plan : OnlineUpdateResourceModel :=
  Scripted.plan (ListValue [StringValue "Storage"; StringValue "Others"; StringValue "Others  "])
    (StringValue "Immediately") StringNull.

(** ** More of update_helper.go *)

Section MoreHelpers.

Context {World : Type} {backend : Backend World}.

Definition GetSystemOemEndpoint (isFsas : bool) : string :=
  if isFsas
  then "/redfish/v1/Systems/0/Oem/" +:+ FSAS +:+ "/System"
  else "/redfish/v1/Systems/0/Oem/" +:+ TS_FUJITSU +:+ "/System".

End MoreHelpers.

(** The operation time [BuildExecutePayload] works with. *)
Definition operation_time (plan : OnlineUpdateResourceModel) : string :=
  match ExecuteOnlineUpdOperationTime plan with
  | StringValue v => v
  | _ => "Immediately"
  end.

(** ** Reading a run *)

Definition post_of (e : Event) : option (string * Payload) :=
  match e with EvPost endpoint payload => Some (endpoint, payload) | _ => None end.

(** The POSTs among some events, in order. *)
Definition posts_of (evs : list Event) : list (string * Payload) := omap post_of evs.

Definition sleep_of (e : Event) : option Z :=
  match e with EvSleep d => Some d | _ => None end.

(** The sleeps among some events, in order. *)
Definition sleeps_of (evs : list Event) : list Z := omap sleep_of evs.

(** The body of the check trigger and of one deselect call. *)
Definition check_payload : Payload :=
  PayloadMap {[ "ExecutionMode" := "CheckForUpdate"; "SchedulingType" := "Immediately" ]}.

Definition deselect_payload (designation : string) : Payload :=
  PayloadModifications [ {[ "Designation" := designation; "Execution" := "deselected" ]} ].

Section EventRelations.

Context {World : Type}.

(** Events are only added, and those added all satisfy [P]. *)
Definition only_events (P : Event -> Prop) : relation (@St World) :=
  fun s s' => exists evs, trace s' = trace s ++ evs /\ Forall P evs.

End EventRelations.

(** The call that deselects [designation]. *)
Definition deselect_call (modifyEndpoint designation : string) : string * Payload :=
  (modifyEndpoint, deselect_payload designation).

(** The events of a fetch with retries. *)
Definition fetch_event (endpoint : string) (delay : Z) (e : Event) : Prop :=
  e = EvPost endpoint (PayloadMap ∅) \/ e = EvSleep delay.

(** Two deselect calls succeed, the third is refused. *)
Definition third_refused_start : St :=
  Scripted.start [Scripted.reply 200 "" ""; Scripted.reply 204 "" "";
                  Scripted.reply 500 "" "busy"] [] [].

(** The events that follow the check trigger in [Create] and in the
    data source: the warning of the trigger, the wait for the task (with
    the fixed timeout) and its log, the five-second sleep, and the
    fetch of the collection. *)
Definition check_follow_up (collectionEndpoint : string) (e : Event) : Prop :=
  match e with
  | EvLog _ => True
  | EvWaitTask _ timeout => timeout = DEFAULT_ONLINEUPDATE_TIMEOUT
  | EvFetchTaskLog _ => True
  | EvSleep d => d = 5 * Second
  | EvPost endpoint payload => endpoint = collectionEndpoint /\ payload = PayloadMap ∅
  | _ => False
  end.

(** The events of the session: lock, connection and their release. *)
Definition session_event (e : Event) : Prop :=
  match e with
  | EvLock _ _ | EvUnlock _ _ | EvConnect | EvLogout => True
  | _ => False
  end.

(** A POST that changes nothing on the remote system's selection: the
    fetch of the collection or the check trigger. *)
Definition reading_event (e : Event) : Prop :=
  match e with
  | EvPost _ payload => payload = PayloadMap ∅ \/ payload = check_payload
  | _ => True
  end.

Definition refused_post : Response + string := Scripted.refused.

(** ** [Create] between login and logout *)

Section CreateSession.

Context {World : Type} {backend : Backend World}.

Local Notation "'let*' x ':=' c 'in' k" := (bind c (fun x => k))
  (at level 10, x pattern, c at level 100, k at level 200).
Local Notation "c ';;' k" := (bind c (fun _ => k))
  (at level 100, k at level 200, right associativity).

(** Lines 160 to 199 of [Create]: vendor, license and collection. *)
Definition Create_licensed (plan : OnlineUpdateResourceModel) : Eff (option Acquired) :=
  let* (isFsas, err) := call EvIsFsasCheck IsFsasCheck in
  match err with
  | Some e => AddError "Vendor Detection Failed" e;; ret None
  | None =>
      let* err := CheckELCMLicense (GetLicenseEndpoint isFsas) in
      match err with
      | Some e => AddError "eLCM License Check Failed" e;; ret None
      | None =>
          let endpoints := GetOnlineUpdateEndpoints isFsas in
          let* c := Create_collection isFsas endpoints in
          match c with
          | None => ret None
          | Some collection =>
              ret (Some {| a_plan := plan; a_isFsas := isFsas;
                           a_endpoints := endpoints; a_collection := collection |})
          end
      end
  end.

(** Lines 160 to 258 of [Create]: all it does while logged in. *)
Definition Create_session (plan : OnlineUpdateResourceModel) : Eff unit :=
  let* acquired := Create_licensed plan in
  match acquired with
  | Some a => Create_tail a
  | None => ret tt
  end.

End CreateSession.

Definition create_starts : Event := EvLog (LInfo, "resource-online-update: create starts").

Definition resource_lock : string := "resource-online-update".

(** What [Create] may do once the license check has passed: the four
    kinds of POST to the endpoints of the detected variant, sleeping,
    waiting for a task and logging. *)
Definition update_event (endpoints : onlineUpdateEndpoints) (e : Event) : Prop :=
  match e with
  | EvPost endpoint payload =>
      (endpoint = collectionEndpoint endpoints /\ payload = PayloadMap ∅) \/
      (endpoint = checkEndpoint endpoints /\ exists body, payload = PayloadMap body) \/
      (endpoint = modifyCollectionEndpoint endpoints /\
       exists designation, payload = deselect_payload designation)
  | EvLog _ | EvSleep _ | EvFetchTaskLog _ => True
  | EvWaitTask _ timeout => timeout = DEFAULT_ONLINEUPDATE_TIMEOUT
  | _ => False
  end.

(** * The online update data source *)

Module DataSource.

Record OnlineUpdateDataSourceModel := {
  Id : tfString;
  Server : list RedfishServer;
  Check : OnlineUpdateCheck
}.

Section Read.

Context {World : Type} {backend : Backend World}.

Local Notation "'let*' x ':=' c 'in' k" := (bind c (fun x => k))
  (at level 10, x pattern, c at level 100, k at level 200).
Local Notation "c ';;' k" := (bind c (fun _ => k))
  (at level 100, k at level 200, right associativity).

(** Lines 136 to 164: the collection, or [None] when an error was
    added and [Read] returns. *)
Definition Read_collection (isFsas : bool) (endpoints : onlineUpdateEndpoints)
  : Eff (option OnlineUpdateCheck) :=
  let* valid := IsCollectionCacheValid (collectionEndpoint endpoints) in
  if (valid : bool) then
    tflog LInfo "Using cached online update collection.";;
    let* r := GetOnlineUpdateCollectionWithRetry (collectionEndpoint endpoints) 5 (5 * Second) in
    match r with
    | inr err => AddError "Failed to retrieve cached collection" err;; ret None
    | inl collection => ret (Some collection)
    end
  else
    let* (taskLocation, err) := TriggerOnlineUpdateCheck (checkEndpoint endpoints) in
    match err with
    | Some e => AddError "Trigger Online Update Check Failed" e;; ret None
    | None =>
        let* ok :=
          if negb (bool_decide (taskLocation = "")) then
            let* err := CheckOnlineUpdateStatus taskLocation DEFAULT_ONLINEUPDATE_TIMEOUT isFsas in
            match err with
            | Some e => AddError "Online Update Task Failed" e;; ret false
            | None => ret true
            end
          else Sleep (5 * Second);; ret true in
        if (ok : bool) then
          let* r := GetOnlineUpdateCollectionWithRetry (collectionEndpoint endpoints) 12 (5 * Second) in
          match r with
          | inr err => AddError "Collection Retrieval Error after new check" err;; ret None
          | inl collection => ret (Some collection)
          end
        else ret None
    end.

(** Lines 122 to 171: [Read] while logged in.  The result is the
    model given to [resp.State.Set], whose conversion reports
    nothing. *)
Definition Read_session (data : OnlineUpdateDataSourceModel)
  : Eff (option OnlineUpdateDataSourceModel) :=
  let* (isFsas, err) := call EvIsFsasCheck IsFsasCheck in
  match err with
  | Some e => AddError "Vendor Detection Failed" e;; ret None
  | None =>
      let* err := CheckELCMLicense (GetLicenseEndpoint isFsas) in
      match err with
      | Some e => AddError "eLCM License Check Failed" e;; ret None
      | None =>
          let endpoints := GetOnlineUpdateEndpoints isFsas in
          let* c := Read_collection isFsas endpoints in
          match c with
          | None => ret None
          | Some collection =>
              let data :=
                {| Id := StringValue (checkEndpoint endpoints);
                   Server := Server data;
                   Check := {| LastStatusChangeDate := LastStatusChangeDate collection;
                               UpdateCollection := UpdateCollection collection |} |} in
              AppendDiags [];;
              tflog LInfo "data-online-update: read ends";;
              ret (Some data)
          end
      end
  end.

(** [OnlineUpdateDataSource.Read]; [config_get] is what
    [req.Config.Get(ctx, &data)] yields.  The state of a data source
    has its own model: the result is the state [Read] has set, if any. *)
Definition Read (config_get : OnlineUpdateDataSourceModel * list Diagnostic)
  : Eff (option OnlineUpdateDataSourceModel) :=
  tflog LInfo "data-online-update: read starts";;
  let '(data, diags) := config_get in
  AppendDiags diags;;
  let* hasError := DiagsHasError in
  if (hasError : bool) then ret None
  else
    let* err := call EvConnect (ConnectTargetSystem (Server data)) in
    match err with
    | Some e => AddError "Service Connection Error" e;; ret None
    | None =>
        let* r := Read_session data in
        call EvLogout (fun w => (tt, api_Logout w));;
        ret r
    end.

End Read.

Definition read_starts : Event := EvLog (LInfo, "data-online-update: read starts").

Definition config (endpoint : string) : OnlineUpdateDataSourceModel :=
  {| Id := StringUnknown;
     Server := [ {| Endpoint := StringValue endpoint |} ];
     Check := {| LastStatusChangeDate := StringUnknown; UpdateCollection := [] |} |}.

End DataSource.

Section Outcomes.

Context {World : Type}.

(** The state is untouched, and no error is added. *)
Definition same_errors : relation (@St World) :=
  fun s s' =>
    State s' = State s /\ HasError (Diagnostics s') = HasError (Diagnostics s).

(** [c] neither sets the state nor adds an error when its result is
    [ok]; it has added an error, and not set the state, otherwise. *)
Definition fails_loudly {A} (ok : A -> bool) (c : @Eff World A) : Prop :=
  forall s,
    State (snd (c s)) = State s /\
    HasError (Diagnostics (snd (c s)))
    = if ok (fst (c s)) then HasError (Diagnostics s) else true.

End Outcomes.

Definition went_on {A} (r : option A) : bool :=
  match r with Some _ => true | None => false end.

(** * Properties *)

Example TrimSpace_padded :
  gostrings.TrimSpace "  SystemBoard/D3988-A1	 " = "SystemBoard/D3988-A1".
Proof. reflexivity. Qed.

Example TrimSpace_unicode :
  gostrings.TrimSpace
    (String (ascii_of_N 194) (String (ascii_of_N 160)
       ("Others" +:+ String (ascii_of_N 227) (String (ascii_of_N 128)
                       (String (ascii_of_N 128) " ")))))
  = "Others".
Proof. reflexivity. Qed.

Lemma request_step_noneEmpty st r :
  noneEmptyRequest (request_step st r) =
  noneEmptyRequest st || negb (bool_decide (blank r)).
Proof.
  unfold request_step, blank.
  destruct (bool_decide (gostrings.TrimSpace r = "")); simpl.
  - by rewrite orb_false_r.
  - rewrite orb_true_r. by repeat (case_match; simpl).
Qed.

Lemma request_step_applyOthers st r :
  applyOthers (request_step st r) =
  applyOthers st || bool_decide (gostrings.TrimSpace r = "Others").
Proof.
  unfold request_step.
  destruct (bool_decide_reflect (gostrings.TrimSpace r = "")) as [He|He]; simpl.
  - rewrite He. simpl. by rewrite orb_false_r.
  - destruct (bool_decide (gostrings.TrimSpace r = "Others")); simpl.
    + by rewrite orb_true_r.
    + rewrite orb_false_r. by repeat (case_match; simpl).
Qed.

Lemma request_step_designations st r x :
  x ∈ requestedDesignations (request_step st r) ->
  x ∈ requestedDesignations st \/ x = gostrings.TrimSpace r.
Proof.
  unfold request_step.
  repeat (case_match; simpl); try tauto.
  rewrite elem_of_union, elem_of_singleton. tauto.
Qed.

Lemma request_step_components st r x :
  x ∈ requestedComponents (request_step st r) ->
  x ∈ requestedComponents st \/
  (x = gostrings.TrimSpace r /\ x <> "Others" /\ x ∈ allowedUpdateComponents).
Proof.
  unfold request_step.
  destruct (bool_decide (gostrings.TrimSpace r = "")); simpl; [tauto|].
  destruct (bool_decide_reflect (gostrings.TrimSpace r = "Others")); simpl; [tauto|].
  destruct (gostrings.Contains_slash (gostrings.TrimSpace r)); simpl; [tauto|].
  destruct (bool_decide_reflect (gostrings.TrimSpace r ∈ allowedUpdateComponents)); simpl; [|tauto].
  rewrite elem_of_union, elem_of_singleton. intros [->|?]; tauto.
Qed.

Section Scan.

Implicit Types (st : Requested) (reqs : list string) (x : string).

Lemma scan_noneEmpty reqs st :
  noneEmptyRequest (fold_left request_step reqs st) = true <->
  noneEmptyRequest st = true \/ Exists (fun r => ~ blank r) reqs.
Proof.
  revert st. induction reqs as [|r reqs IH]; intros st; simpl.
  - rewrite Exists_nil. tauto.
  - rewrite IH, Exists_cons, request_step_noneEmpty, orb_true_iff,
      negb_true_iff, bool_decide_eq_false. tauto.
Qed.

Lemma scan_applyOthers reqs st :
  applyOthers (fold_left request_step reqs st) = true <->
  applyOthers st = true \/ "Others" ∈ map gostrings.TrimSpace reqs.
Proof.
  revert st. induction reqs as [|r reqs IH]; intros st; simpl.
  - rewrite elem_of_nil. tauto.
  - rewrite IH, elem_of_cons, request_step_applyOthers, orb_true_iff,
      bool_decide_eq_true. intuition congruence.
Qed.

Lemma scan_designations reqs st x :
  x ∈ requestedDesignations (fold_left request_step reqs st) ->
  x ∈ requestedDesignations st \/ x ∈ map gostrings.TrimSpace reqs.
Proof.
  revert st. induction reqs as [|r reqs IH]; intros st; simpl; [tauto|].
  intros H. apply IH in H. rewrite elem_of_cons.
  destruct H as [H|H]; [|tauto].
  apply request_step_designations in H. tauto.
Qed.

Lemma scan_components reqs st x :
  x ∈ requestedComponents (fold_left request_step reqs st) ->
  x ∈ requestedComponents st \/
  (x ∈ map gostrings.TrimSpace reqs /\ x <> "Others" /\ x ∈ allowedUpdateComponents).
Proof.
  revert st. induction reqs as [|r reqs IH]; intros st; simpl; [tauto|].
  intros H. apply IH in H. rewrite elem_of_cons.
  destruct H as [H|H]; [|tauto].
  apply request_step_components in H. tauto.
Qed.

End Scan.

Lemma select_fold applyAll st items sel desel :
  fold_left (select_step applyAll st) items (sel, desel) =
  (sel ++ map designation_of (List.filter (isSelected applyAll st) items),
   desel ++ (if applyAll then []
             else map designation_of
                    (List.filter (fun i => negb (isSelected applyAll st i)) items))).
Proof.
  revert sel desel. induction items as [|item items IH]; intros sel desel; simpl.
  - destruct applyAll; by rewrite !app_nil_r.
  - unfold select_step at 1. fold (designation_of item).
    destruct (isSelected applyAll st item) eqn:Hsel; simpl.
    + rewrite IH. by rewrite <- app_assoc.
    + destruct applyAll; simpl.
      * discriminate Hsel.
      * rewrite IH. by rewrite <- app_assoc.
Qed.

(** [PrepareUpdateLists] on a desired list that converts to [reqs]. *)
Lemma PrepareUpdateLists_requests plan collection reqs :
  requests_of (UpdateList plan) = Some reqs ->
  let st := scan_requests reqs in
  let applyAll := negb (noneEmptyRequest st) in
  PrepareUpdateLists plan collection =
  {| selected := map designation_of
                   (List.filter (isSelected applyAll st) (UpdateCollection collection));
     deselected := if applyAll then []
                   else map designation_of
                          (List.filter (fun i => negb (isSelected applyAll st i))
                             (UpdateCollection collection));
     prepare_err := None;
     prepare_background := requestWarnings st |}.
Proof.
  intros Hreq st applyAll. unfold PrepareUpdateLists.
  assert (Hconv : (if negb (List_IsNull (UpdateList plan)) && negb (List_IsUnknown (UpdateList plan))
                   then ElementsAs (UpdateList plan) else Some []) = Some reqs).
  { destruct (UpdateList plan); simpl in *; congruence. }
  rewrite Hconv. fold st.
  replace (if noneEmptyRequest st then false else true) with applyAll
    by (unfold applyAll; by destruct (noneEmptyRequest st)).
  rewrite select_fold. reflexivity.
Qed.

Section FilterFacts.

Context {A B : Type} (f : A -> B) (keep : A -> bool).

Lemma filter_map_sublist (l : list A) :
  sublist (map f (List.filter keep l)) (map f l).
Proof.
  induction l as [|a l IH]; simpl; [constructor|].
  destruct (keep a); simpl; by constructor.
Qed.

Lemma filter_split_Permutation (l : list A) :
  List.filter keep l ++ List.filter (fun a => negb (keep a)) l ≡ₚ l.
Proof.
  induction l as [|a l IH]; simpl; [done|].
  destruct (keep a); simpl.
  - by constructor.
  - rewrite <- Permutation_middle. by constructor.
Qed.

End FilterFacts.

Lemma elem_of_map_filter {A B} (f : A -> B) (keep : A -> bool) (l : list A) (a : A) :
  a ∈ l -> keep a = true -> f a ∈ map f (List.filter keep l).
Proof.
  intros Hin Hk. apply list_elem_of_In, in_map, filter_In.
  split; [by apply list_elem_of_In | done].
Qed.

(** Explicit mode: some request is not blank.  [PrepareUpdateLists] then
    files every item under the per-item decision. *)
Lemma PrepareUpdateLists_explicit plan collection reqs :
  requests_of (UpdateList plan) = Some reqs ->
  Exists (fun r => ~ blank r) reqs ->
  let keep := isSelected false (scan_requests reqs) in
  PrepareUpdateLists plan collection =
  {| selected := map designation_of (List.filter keep (UpdateCollection collection));
     deselected := map designation_of
                     (List.filter (fun i => negb (keep i)) (UpdateCollection collection));
     prepare_err := None;
     prepare_background := requestWarnings (scan_requests reqs) |}.
Proof.
  intros Hreq Hne keep.
  assert (Hst : noneEmptyRequest (scan_requests reqs) = true).
  { apply scan_noneEmpty. by right. }
  rewrite (PrepareUpdateLists_requests _ _ _ Hreq). simpl.
  rewrite Hst. reflexivity.
Qed.

Lemma split_disjoint {A B} (f : A -> B) (keep : A -> bool) (l : list A) :
  NoDup (map f l) ->
  forall b, b ∈ map f (List.filter keep l) ->
            b ∈ map f (List.filter (fun a => negb (keep a)) l) -> False.
Proof.
  intros Hnd b Hs Hd.
  rewrite <- (filter_split_Permutation keep l), map_app in Hnd.
  apply NoDup_app in Hnd as (_ & Hdis & _). by apply (Hdis b).
Qed.

Lemma Others_not_blank reqs :
  "Others" ∈ map gostrings.TrimSpace reqs -> Exists (fun r => ~ blank r) reqs.
Proof.
  intros H. apply list_elem_of_In, in_map_iff in H as (r & Hr & Hin).
  apply Exists_exists. exists r. split; [by apply list_elem_of_In|].
  unfold blank. rewrite Hr. discriminate.
Qed.

(** [C1] In explicit mode (the desired list converts to requests of which
    at least one is not blank) [PrepareUpdateLists] succeeds and splits
    the collection in two: with [keep] the per-item decision, [selected]
    holds the designations of the kept items and [deselected] those of
    the others, each in collection order; so both are sublists of the
    collection's designations, together they are a rearrangement of
    them, a designation is in the collection iff it is in one of the two,
    and, designations being unique within a collection, none is in
    both. *)
Theorem PrepareUpdateLists_partitions plan collection reqs :
  requests_of (UpdateList plan) = Some reqs ->
  Exists (fun r => ~ blank r) reqs ->
  let p := PrepareUpdateLists plan collection in
  let items := UpdateCollection collection in
  let ds := map designation_of items in
  let keep := isSelected false (scan_requests reqs) in
  prepare_err p = None /\
  selected p = map designation_of (List.filter keep items) /\
  deselected p = map designation_of (List.filter (fun i => negb (keep i)) items) /\
  sublist (selected p) ds /\
  sublist (deselected p) ds /\
  selected p ++ deselected p ≡ₚ ds /\
  (forall d, d ∈ ds <-> d ∈ selected p \/ d ∈ deselected p) /\
  (NoDup ds -> forall d, d ∈ selected p -> d ∈ deselected p -> False).
Proof.
  intros Hreq Hne p items ds keep.
  unfold p. rewrite (PrepareUpdateLists_explicit _ _ _ Hreq Hne). simpl.
  fold items keep.
  assert (Hperm : map designation_of (List.filter keep items) ++
                  map designation_of (List.filter (fun i => negb (keep i)) items) ≡ₚ ds).
  { unfold ds. rewrite <- map_app. apply Permutation_map, filter_split_Permutation. }
  split_and!; try done.
  - apply filter_map_sublist.
  - apply filter_map_sublist.
  - intros d. rewrite <- Hperm, elem_of_app. tauto.
  - apply split_disjoint.
Qed.

(** [C2] In select-all mode (the desired list is null or unknown, is
    empty, or holds blank entries only) [PrepareUpdateLists] succeeds,
    selects the designation of every item, in collection order, and
    returns an empty deselected list. *)
Theorem PrepareUpdateLists_selects_all plan collection reqs :
  requests_of (UpdateList plan) = Some reqs ->
  Forall blank reqs ->
  let p := PrepareUpdateLists plan collection in
  selected p = map designation_of (UpdateCollection collection) /\
  deselected p = [] /\
  prepare_err p = None.
Proof.
  intros Hreq Hblank p.
  assert (Hst : noneEmptyRequest (scan_requests reqs) = false).
  { apply not_true_is_false. intros H. apply scan_noneEmpty in H as [H|H].
    - discriminate H.
    - apply Exists_exists in H as (r & Hr & Hnb).
      rewrite Forall_forall in Hblank. by apply Hnb, Hblank. }
  unfold p. rewrite (PrepareUpdateLists_requests _ _ _ Hreq). simpl.
  rewrite Hst. simpl. split_and!; try done.
  f_equal. induction (UpdateCollection collection) as [|i l IH]; simpl; congruence.
Qed.

(** [C3] With the catch-all keyword in the desired list and no entry
    equal to the item's designation or component, the decision for an
    item of the collection is "selected" exactly when its component is
    outside the allow-list; an item whose component is in the allow-list
    is not selected: its designation goes to the deselected list, and
    (designations being unique) is absent from the selected list. *)
Theorem catch_all_spares_known_components plan collection reqs item :
  requests_of (UpdateList plan) = Some reqs ->
  "Others" ∈ map gostrings.TrimSpace reqs ->
  item ∈ UpdateCollection collection ->
  (forall r, r ∈ reqs ->
     gostrings.TrimSpace r <> designation_of item /\
     gostrings.TrimSpace r <> component_of item) ->
  let p := PrepareUpdateLists plan collection in
  let st := scan_requests reqs in
  let ds := map designation_of (UpdateCollection collection) in
  applyOthers st = true /\
  selected p = map designation_of
                 (List.filter (isSelected false st) (UpdateCollection collection)) /\
  (isSelected false st item = true <-> component_of item ∉ allowedUpdateComponents) /\
  (component_of item ∈ allowedUpdateComponents ->
     isSelected false st item = false /\
     designation_of item ∈ deselected p /\
     (NoDup ds -> designation_of item ∉ selected p)).
Proof.
  intros Hreq Hothers Hitem Hno p st ds.
  unfold p.
  rewrite (PrepareUpdateLists_explicit _ _ _ Hreq (Others_not_blank _ Hothers)).
  simpl. fold st.
  assert (Hao : applyOthers st = true) by (apply scan_applyOthers; by right).
  assert (Hd : designation_of item ∉ requestedDesignations st).
  { intros H. apply scan_designations in H as [H|H]; [set_solver|].
    apply list_elem_of_In, in_map_iff in H as (r & Hr & Hin).
    apply list_elem_of_In, Hno in Hin. tauto. }
  assert (Hc : component_of item ∉ requestedComponents st).
  { intros H. apply scan_components in H as [H|(H & _)]; [set_solver|].
    apply list_elem_of_In, in_map_iff in H as (r & Hr & Hin).
    apply list_elem_of_In, Hno in Hin. tauto. }
  assert (Hiff : isSelected false st item = true <->
                 component_of item ∉ allowedUpdateComponents).
  { unfold isSelected. fold (designation_of item) (component_of item).
    rewrite (bool_decide_eq_false_2 _ Hd), (bool_decide_eq_false_2 _ Hc), Hao. simpl.
    case_bool_decide; simpl; split; intros; done. }
  split_and!; try done.
  intros Hallowed.
  assert (Hns : isSelected false st item = false).
  { apply not_true_is_false. intros H. by apply Hiff in H. }
  assert (Hin : designation_of item ∈
                map designation_of
                  (List.filter (fun i => negb (isSelected false st i))
                     (UpdateCollection collection))).
  { apply elem_of_map_filter; [done|]. by rewrite Hns. }
  split_and!; try done.
  intros Hnd Hs. exact (split_disjoint _ _ _ Hnd (designation_of item) Hs Hin).
Qed.

Lemma scan_Others :
  scan_requests ["Others"] =
  {| requestedDesignations := ∅; requestedComponents := ∅;
     applyOthers := true; noneEmptyRequest := true; requestWarnings := [] |}.
Proof. reflexivity. Qed.

Lemma Others_allowed : "Others" ∈ allowedUpdateComponents.
Proof. unfold allowedUpdateComponents. set_solver. Qed.

(** [C10] For the desired list [["Others"]] the keyword only raises the
    catch-all flag (no component or designation is requested), the
    component ["Others"] is in the allow-list, and an item of the
    collection whose component is ["Others"] is not selected: its
    designation is put in the deselected list. *)
Theorem Others_keyword_deselects_Others_component plan collection item :
  UpdateList plan = ListValue [StringValue "Others"] ->
  item ∈ UpdateCollection collection ->
  Component item = StringValue "Others" ->
  let p := PrepareUpdateLists plan collection in
  let st := scan_requests ["Others"] in
  applyOthers st = true /\
  requestedComponents st = ∅ /\
  requestedDesignations st = ∅ /\
  "Others" ∈ allowedUpdateComponents /\
  isSelected false st item = false /\
  designation_of item ∈ deselected p /\
  prepare_err p = None.
Proof.
  intros Hlist Hitem Hcomp p st.
  assert (Hreq : requests_of (UpdateList plan) = Some ["Others"]) by by rewrite Hlist.
  assert (Hne : Exists (fun r => ~ blank r) ["Others"]).
  { apply Exists_cons_hd. unfold blank. simpl. discriminate. }
  unfold p. rewrite (PrepareUpdateLists_explicit _ _ _ Hreq Hne).
  cbn [selected deselected prepare_err]. fold st.
  assert (Hns : isSelected false st item = false).
  { unfold st. rewrite scan_Others. unfold isSelected; simpl.
    rewrite Hcomp. simpl.
    rewrite !bool_decide_eq_false_2 by set_solver.
    by rewrite (bool_decide_eq_true_2 _ Others_allowed). }
  split_and!; try done; try apply Others_allowed.
  apply elem_of_map_filter; [done|]. by rewrite Hns.
Qed.

(** *** Instances on the scripted collection *)

Lemma explicit_requests_not_blank : Exists (fun r => ~ blank r) explicit_requests.
Proof. apply Exists_cons_hd. unfold blank. vm_compute. discriminate. Qed.

Lemma PrepareUpdateLists_partitions_witness :
  requests_of (UpdateList explicit_plan) = Some explicit_requests /\
  Exists (fun r => ~ blank r) explicit_requests /\
  selected (PrepareUpdateLists explicit_plan Scripted.three_updates) = ["VendorX/C"] /\
  deselected (PrepareUpdateLists explicit_plan Scripted.three_updates)
  = ["SystemBoard/A"; "Others/X"].
Proof.
  split; [reflexivity|]. split; [exact explicit_requests_not_blank|].
  destruct (PrepareUpdateLists_partitions explicit_plan Scripted.three_updates
              explicit_requests eq_refl explicit_requests_not_blank)
    as (_ & Hsel & Hdes & _).
  split; [rewrite Hsel | rewrite Hdes]; vm_compute; reflexivity.
Defined.


Lemma PrepareUpdateLists_selects_all_witness :
  requests_of (UpdateList blank_plan) = Some ["  "; ""] /\
  Forall blank ["  "; ""] /\
  selected (PrepareUpdateLists blank_plan Scripted.three_updates)
  = ["SystemBoard/A"; "VendorX/C"; "Others/X"] /\
  deselected (PrepareUpdateLists blank_plan Scripted.three_updates) = [].
Proof.
  assert (Hb : Forall blank ["  "; ""]) by (repeat constructor).
  split; [reflexivity|]. split; [exact Hb|].
  destruct (PrepareUpdateLists_selects_all blank_plan Scripted.three_updates
              ["  "; ""] eq_refl Hb) as (Hsel & Hdes & _).
  split; [rewrite Hsel; reflexivity | exact Hdes].
Defined.

Lemma catch_all_spares_known_components_witness :
  let item := Scripted.check_item "SystemBoard/A" "SystemBoard" in
  let plan := Scripted.plan (ListValue [StringValue "Others"])
                (StringValue "Immediately") StringNull in
  component_of item ∈ allowedUpdateComponents /\
  isSelected false (scan_requests ["Others"]) item = false /\
  designation_of item ∈ deselected (PrepareUpdateLists plan Scripted.three_updates).
Proof.
  intros item plan.
  assert (Hallowed : component_of item ∈ allowedUpdateComponents).
  { unfold allowedUpdateComponents. vm_compute component_of. set_solver. }
  split; [exact Hallowed|].
  assert (Hothers : "Others" ∈ map gostrings.TrimSpace ["Others"]).
  { vm_compute map. apply list_elem_of_here. }
  assert (Hitem : item ∈ UpdateCollection Scripted.three_updates).
  { apply list_elem_of_here. }
  assert (Hno : forall r, r ∈ ["Others"] ->
                  gostrings.TrimSpace r <> designation_of item /\
                  gostrings.TrimSpace r <> component_of item).
  { intros r Hr. apply list_elem_of_singleton in Hr. subst r.
    split; vm_compute; discriminate. }
  destruct (catch_all_spares_known_components plan Scripted.three_updates
              ["Others"] item eq_refl Hothers Hitem Hno) as (_ & _ & _ & Hk).
  destruct (Hk Hallowed) as (Hns & Hin & _). split; [exact Hns | exact Hin].
Defined.

Lemma Others_keyword_deselects_Others_component_witness :
  let item := Scripted.check_item "Others/X" "Others" in
  let plan := Scripted.plan (ListValue [StringValue "Others"])
                (StringValue "Immediately") StringNull in
  item ∈ UpdateCollection Scripted.three_updates /\
  designation_of item ∈ deselected (PrepareUpdateLists plan Scripted.three_updates).
Proof.
  intros item plan.
  assert (Hitem : item ∈ UpdateCollection Scripted.three_updates).
  { apply list_elem_of_further, list_elem_of_further, list_elem_of_here. }
  split; [exact Hitem|].
  destruct (Others_keyword_deselects_Others_component plan Scripted.three_updates
              item eq_refl Hitem eq_refl) as (_ & _ & _ & _ & _ & Hin & _).
  exact Hin.
Defined.

(** *** The scenarios of the specification *)

Example scenario_component_request :
  let collection :=
    {| LastStatusChangeDate := StringValue Scripted.new_year;
       UpdateCollection := [ Scripted.check_item "SystemBoard/A" "SystemBoard";
                             Scripted.check_item "Storage/B" "Storage" ] |} in
  let p := PrepareUpdateLists
             (Scripted.plan (ListValue [StringValue "SystemBoard"])
                (StringValue "Immediately") StringNull) collection in
  selected p = ["SystemBoard/A"] /\ deselected p = ["Storage/B"].
Proof. vm_compute. done. Qed.

Example scenario_catch_all :
  let collection :=
    {| LastStatusChangeDate := StringValue Scripted.new_year;
       UpdateCollection := [ Scripted.check_item "SystemBoard/A" "SystemBoard";
                             Scripted.check_item "VendorX/C" "VendorX" ] |} in
  let p := PrepareUpdateLists others_plan collection in
  selected p = ["VendorX/C"] /\ deselected p = ["SystemBoard/A"].
Proof. vm_compute. done. Qed.

(** A null element has no string: the conversion fails. *)
Example scenario_null_element :
  let p := PrepareUpdateLists
             (Scripted.plan (ListValue [StringValue "Storage"; StringNull])
                (StringValue "Immediately") StringNull) Scripted.three_updates in
  prepare_err p = Some "invalid update_list format"
  /\ selected p = [] /\ deselected p = [].
Proof. vm_compute. done. Qed.

(** Why uniqueness of designations matters: of two items with one
    designation, one can be selected and the other not. *)
Example scenario_shared_designation :
  let collection :=
    {| LastStatusChangeDate := StringValue Scripted.new_year;
       UpdateCollection := [ Scripted.check_item "Board" "SystemBoard";
                             Scripted.check_item "Board" "Storage" ] |} in
  let p := PrepareUpdateLists
             (Scripted.plan (ListValue [StringValue "SystemBoard"])
                (StringValue "Immediately") StringNull) collection in
  selected p = ["Board"] /\ deselected p = ["Board"].
Proof. vm_compute. done. Qed.

(** ** Execute payload *)

(** [C6] With the operation time "Immediately" and a schedule time in
    the plan, [BuildExecutePayload] returns the payload without
    [StartDate] and no error, and passes the warning that the schedule
    time is ignored to [tflog.Warn] on [context.Background()].  That
    context has no logger: in a run of [Create] with this plan, in
    which every item is selected and the update is executed, the log
    holds the two lines of [Create] and no warning. *)
Theorem schedule_warning_not_delivered :
  let final := snd (Create (scheduled_anyway_plan, []) execute_start) in
  BuildExecutePayload scheduled_anyway_plan true
  = (inl {[ "ExecutionMode" := "ExecuteUpdate"; "SchedulingType" := "Immediately" ]},
     [schedule_ignored]) /\
  last (List.filter is_Post (trace final)) =
    Some (EvPost check_url
            (PayloadMap {[ "ExecutionMode" := "ExecuteUpdate";
                           "SchedulingType" := "Immediately" ]})) /\
  List.filter is_Log (trace final) =
    [EvLog (LInfo, "resource-online-update: create starts");
     EvLog (LInfo, "resource-online-update: create ends")] /\
  Diagnostics final = [] /\
  (exists st, State final = Some st).
Proof. vm_compute. split_and!; try reflexivity. by eexists. Qed.

(** ** Runs: what a computation leaves alone *)

Section Frames.

Context {World : Type} {backend : Backend World}.

Local Abbreviation quiet c := (@preserves World same_response _ c).
Local Abbreviation grows c := (@preserves World more_events _ c).

#[local] Instance same_response_preorder : PreOrder (@same_response World).
Proof.
  split.
  - by intros s.
  - intros s1 s2 s3 [H1 H2] [H3 H4]. split; congruence.
Qed.

#[local] Instance more_events_preorder : PreOrder (@more_events World).
Proof.
  split.
  - intros s. exists []. by rewrite app_nil_r.
  - intros s1 s2 s3 [e1 H1] [e2 H2]. exists (e1 ++ e2).
    by rewrite H2, H1, app_assoc.
Qed.

Section Generic.

Context (R : relation (@St World)) `{!PreOrder R}.

Lemma preserves_ret {A} (a : A) : preserves R (ret a).
Proof. intros s. simpl. reflexivity. Qed.

Lemma preserves_bind {A B} (c : Eff A) (k : A -> Eff B) :
  preserves R c -> (forall a, preserves R (k a)) -> preserves R (bind c k).
Proof.
  intros Hc Hk s. unfold bind. specialize (Hc s).
  destruct (c s) as [a s1]. simpl in Hc.
  etransitivity; [exact Hc | apply Hk].
Qed.

End Generic.

Lemma quiet_emit e : quiet (emit e).
Proof. by intros s. Qed.

Lemma quiet_call {A} e (f : World -> A * World) : quiet (call e f).
Proof. intros s. unfold call, bind, emit. simpl. by destruct (f (world s)). Qed.

Lemma quiet_Now : quiet Now.
Proof. by intros s. Qed.

Lemma grows_emit e : grows (emit e).
Proof. intros s. by exists [e]. Qed.

Lemma grows_call {A} e (f : World -> A * World) : grows (call e f).
Proof.
  intros s. unfold call, bind, emit. simpl. destruct (f (world s)). by exists [e].
Qed.

Lemma grows_Now : grows Now.
Proof. intros s. exists []. by rewrite app_nil_r. Qed.

Lemma grows_AddError summary detail : grows (AddError summary detail).
Proof. intros s. exists []. simpl. by rewrite app_nil_r. Qed.

Lemma grows_AddWarning summary detail : grows (AddWarning summary detail).
Proof. intros s. exists []. simpl. by rewrite app_nil_r. Qed.

Lemma grows_AppendDiags ds : grows (AppendDiags ds).
Proof. intros s. exists []. simpl. by rewrite app_nil_r. Qed.

Lemma grows_State_Set plan : grows (State_Set plan).
Proof. intros s. exists []. simpl. by rewrite app_nil_r. Qed.

End Frames.

#[export] Existing Instance same_response_preorder.
#[export] Existing Instance more_events_preorder.

Create HintDb eff discriminated.

#[export] Hint Resolve quiet_emit quiet_call quiet_Now
  grows_emit grows_call grows_Now grows_AddError grows_AddWarning
  grows_AppendDiags grows_State_Set : eff.

(** Walks through the binds and the case distinctions of a computation;
    the leaves are closed from the [eff] database. *)
Ltac frame_step :=
  match goal with
  | |- preserves ?R (ret ?a) => exact (preserves_ret R a)
  | |- preserves ?R (bind ?c ?k) => refine (preserves_bind R c k _ _); [ | intros ?]
  | |- preserves _ (match ?x with _ => _ end) => destruct x
  | |- preserves _ (if ?b then _ else _) => destruct b
  | |- preserves _ (let '(_, _) := ?x in _) => destruct x
  | |- preserves _ _ => solve [eauto with eff]
  end.

Ltac frame := repeat frame_step.

Section HelperFrames.

Context {World : Type} {backend : Backend World}.

Local Abbreviation quiet c := (@preserves World same_response _ c).
Local Abbreviation grows c := (@preserves World more_events _ c).

Lemma quiet_tflog lvl msg : quiet (tflog lvl msg).
Proof. apply quiet_emit. Qed.

Lemma grows_tflog lvl msg : grows (tflog lvl msg).
Proof. apply grows_emit. Qed.

(** Logging on the background context changes nothing. *)
Lemma tflog_Background_all_run entries (s : @St World) :
  tflog_Background_all entries s = (tt, s).
Proof.
  induction entries as [|e entries IH]; [done|].
  cbn [tflog_Background_all]. unfold bind, tflog_Background, ret. exact IH.
Qed.

Lemma quiet_tflog_Background_all entries : quiet (tflog_Background_all entries).
Proof. intros s. by rewrite tflog_Background_all_run. Qed.

Lemma grows_tflog_Background_all entries : grows (tflog_Background_all entries).
Proof. intros s. rewrite tflog_Background_all_run. reflexivity. Qed.

Lemma quiet_Post endpoint payload : quiet (Post endpoint payload).
Proof. apply quiet_call. Qed.

Lemma grows_Post endpoint payload : grows (Post endpoint payload).
Proof. apply grows_call. Qed.

Lemma quiet_Sleep d : quiet (Sleep d).
Proof. apply quiet_call. Qed.

Lemma grows_Sleep d : grows (Sleep d).
Proof. apply grows_call. Qed.

Hint Resolve quiet_tflog grows_tflog quiet_tflog_Background_all grows_tflog_Background_all
  quiet_Post grows_Post quiet_Sleep grows_Sleep : eff.

Lemma quiet_CheckELCMLicense endpoint :
  quiet (CheckELCMLicense endpoint).
Proof. unfold CheckELCMLicense, Get. frame. Qed.

Lemma quiet_GetOnlineUpdateCollection endpoint :
  quiet (GetOnlineUpdateCollection endpoint).
Proof. unfold GetOnlineUpdateCollection. frame. Qed.

Lemma grows_GetOnlineUpdateCollection endpoint :
  grows (GetOnlineUpdateCollection endpoint).
Proof. unfold GetOnlineUpdateCollection. frame. Qed.

Hint Resolve quiet_GetOnlineUpdateCollection grows_GetOnlineUpdateCollection : eff.

Lemma quiet_retry_loop endpoint retries delay n :
  quiet (retry_loop endpoint retries delay n).
Proof. induction n; simpl; frame. Qed.

Lemma quiet_GetOnlineUpdateCollectionWithRetry endpoint retries delay :
  quiet (GetOnlineUpdateCollectionWithRetry endpoint retries delay).
Proof. apply quiet_retry_loop. Qed.

Lemma quiet_TriggerOnlineUpdateCheck endpoint :
  quiet (TriggerOnlineUpdateCheck endpoint).
Proof. unfold TriggerOnlineUpdateCheck. frame. Qed.

Lemma quiet_CheckOnlineUpdateStatus location timeout isFsas :
  quiet (CheckOnlineUpdateStatus location timeout isFsas).
Proof. unfold CheckOnlineUpdateStatus. frame. Qed.

Lemma grows_CheckOnlineUpdateStatus location timeout isFsas :
  grows (CheckOnlineUpdateStatus location timeout isFsas).
Proof. unfold CheckOnlineUpdateStatus. frame. Qed.

Lemma quiet_IsCollectionCacheValid endpoint :
  quiet (IsCollectionCacheValid endpoint).
Proof.
  unfold IsCollectionCacheValid. pose proof quiet_GetOnlineUpdateCollectionWithRetry.
  frame.
Qed.

Lemma quiet_DeselectUpdates endpoint designations :
  quiet (DeselectUpdates endpoint designations).
Proof.
  unfold DeselectUpdates. destruct (length designations =? 0)%nat; [frame|].
  induction designations; simpl; frame.
Qed.

Lemma grows_TriggerOnlineUpdateExecute endpoint payload :
  grows (TriggerOnlineUpdateExecute endpoint payload).
Proof. unfold TriggerOnlineUpdateExecute. frame. Qed.

End HelperFrames.

#[export] Hint Resolve quiet_tflog grows_tflog quiet_tflog_Background_all grows_tflog_Background_all
  quiet_Post grows_Post quiet_Sleep grows_Sleep
  quiet_CheckELCMLicense quiet_GetOnlineUpdateCollection
  grows_GetOnlineUpdateCollection quiet_GetOnlineUpdateCollectionWithRetry
  quiet_TriggerOnlineUpdateCheck quiet_CheckOnlineUpdateStatus
  grows_CheckOnlineUpdateStatus quiet_IsCollectionCacheValid
  quiet_DeselectUpdates grows_TriggerOnlineUpdateExecute : eff.

(** ** Collection fetch with retry *)

Section Retry.

Context {World : Type} {backend : Backend World}.

Implicit Types (s : @St World) (endpoint : string) (retries delay : Z).

Lemma retry_loop_skip endpoint retries delay k n s sk :
  in_progress_run endpoint delay k s = Some sk ->
  retry_loop endpoint retries delay (k + n) s = retry_loop endpoint retries delay n sk.
Proof.
  revert s. induction k as [|k IH]; intros s Hrun.
  - simpl in *. congruence.
  - cbn [in_progress_run] in Hrun. cbn [Nat.add retry_loop]. unfold bind at 1.
    destruct (GetOnlineUpdateCollection endpoint s) as [[c| |err] s1]; try discriminate.
    by apply IH.
Qed.

Lemma retry_loop_ends endpoint retries delay k n s sk :
  in_progress_run endpoint delay k s = Some sk ->
  retry_loop endpoint retries delay (k + S n) s =
  match GetOnlineUpdateCollection endpoint sk with
  | (Ready c, s') => (inl c, s')
  | (Failed err, s') => (inr err, s')
  | (InProgress, s') =>
      retry_loop endpoint retries delay n (snd (Sleep delay s'))
  end.
Proof.
  intros Hrun. rewrite (retry_loop_skip _ _ _ _ _ _ _ Hrun).
  cbn [retry_loop]. unfold bind at 1.
  by destruct (GetOnlineUpdateCollection endpoint sk) as [[c| |err] s1].
Qed.


(** [C8] Whatever the budget and the delay: when each of the [retries]
    attempts finds the check in progress, the result is the
    budget-exhausted error, and no collection; when, after [k < retries]
    such attempts, the next one fails, its error is the result, and the
    run ends in the state that attempt left (no sleep, no further
    attempt); when the next one is ready, its collection is the
    result, in the state that attempt left. *)
Theorem GetOnlineUpdateCollectionWithRetry_outcomes endpoint retries delay s :
  (forall sn,
     in_progress_run endpoint delay (Z.to_nat retries) s = Some sn ->
     GetOnlineUpdateCollectionWithRetry endpoint retries delay s
     = (inr (budget_exhausted retries), sn)) /\
  (forall k sk err s',
     (k < Z.to_nat retries)%nat ->
     in_progress_run endpoint delay k s = Some sk ->
     GetOnlineUpdateCollection endpoint sk = (Failed err, s') ->
     GetOnlineUpdateCollectionWithRetry endpoint retries delay s = (inr err, s')) /\
  (forall k sk collection s',
     (k < Z.to_nat retries)%nat ->
     in_progress_run endpoint delay k s = Some sk ->
     GetOnlineUpdateCollection endpoint sk = (Ready collection, s') ->
     GetOnlineUpdateCollectionWithRetry endpoint retries delay s = (inl collection, s')).
Proof.
  unfold GetOnlineUpdateCollectionWithRetry. split_and!.
  - intros sn Hrun.
    rewrite <- (Nat.add_0_r (Z.to_nat retries)).
    by rewrite (retry_loop_skip _ _ _ _ _ _ _ Hrun).
  - intros k sk err s' Hk Hrun Hget.
    replace (Z.to_nat retries) with (k + S (Z.to_nat retries - S k))%nat by lia.
    by rewrite (retry_loop_ends _ _ _ _ _ _ _ Hrun), Hget.
  - intros k sk c s' Hk Hrun Hget.
    replace (Z.to_nat retries) with (k + S (Z.to_nat retries - S k))%nat by lia.
    by rewrite (retry_loop_ends _ _ _ _ _ _ _ Hrun), Hget.
Qed.

(** One attempt is in progress when the reply, with status 200, decodes
    to a [Status] of ["InProgress"]. *)
Lemma GetOnlineUpdateCollection_in_progress endpoint s resp result w :
  client_Post endpoint (PayloadMap ∅) (world s) = (inl resp, w) ->
  StatusCode resp = 200 ->
  json_Decode_collection resp = inl result ->
  jStatus result = "InProgress" ->
  fst (GetOnlineUpdateCollection endpoint s) = InProgress.
Proof.
  intros H Hc Hd Hs. unfold GetOnlineUpdateCollection, Post, call, bind, emit. simpl.
  by rewrite H, Hc, Hd, Hs.
Qed.

(** The errors of one attempt: a transport error, a status other than
    200, a body that does not decode. *)
Lemma GetOnlineUpdateCollection_transport_error endpoint s err w :
  client_Post endpoint (PayloadMap ∅) (world s) = (inr err, w) ->
  fst (GetOnlineUpdateCollection endpoint s) = Failed ("POST request failed: " +:+ err).
Proof.
  intros H. unfold GetOnlineUpdateCollection, Post, call, bind, emit. simpl.
  by rewrite H.
Qed.

Lemma GetOnlineUpdateCollection_status_error endpoint s resp w :
  client_Post endpoint (PayloadMap ∅) (world s) = (inl resp, w) ->
  StatusCode resp <> 200 ->
  fst (GetOnlineUpdateCollection endpoint s)
  = Failed ("Unexpected status code " +:+ fmt_d (StatusCode resp) +:+ ": " +:+
            fst (ReadAll resp)).
Proof.
  intros H Hc. unfold GetOnlineUpdateCollection, Post, call, bind, emit. simpl.
  rewrite H. apply Z.eqb_neq in Hc. by rewrite Hc.
Qed.

Lemma GetOnlineUpdateCollection_decode_error endpoint s resp err w :
  client_Post endpoint (PayloadMap ∅) (world s) = (inl resp, w) ->
  StatusCode resp = 200 ->
  json_Decode_collection resp = inr err ->
  fst (GetOnlineUpdateCollection endpoint s)
  = Failed ("Error decoding JSON response: " +:+ err).
Proof.
  intros H Hc Hd. unfold GetOnlineUpdateCollection, Post, call, bind, emit. simpl.
  by rewrite H, Hc, Hd.
Qed.

(** ** Cache validity *)

Lemma Time_Sub_fresh now t :
  (Time_Sub now t <? CACHE_DURATION) = true <-> now - t < 6 * Hour.
Proof.
  unfold Time_Sub, CACHE_DURATION, minDuration, maxDuration, Hour, Second.
  rewrite Z.ltb_lt. repeat case_match; lia.
Qed.

(** [C4] [IsCollectionCacheValid] yields a boolean and nothing else: it
    ends in the state the fetch (budget 2, delay one second) left, with
    the diagnostics of the operation untouched.  The boolean is [true]
    exactly when the fetch returned a collection whose
    [LastStatusChangeDate] parses as an RFC 3339 time less than six
    hours before now; so it is [false] when the fetch returned an
    error. *)
Theorem IsCollectionCacheValid_iff endpoint s :
  let fetch := GetOnlineUpdateCollectionWithRetry endpoint 2 (1 * Second) s in
  let valid := IsCollectionCacheValid endpoint s in
  snd valid = snd fetch /\
  Diagnostics (snd valid) = Diagnostics s /\
  (fst valid = true <->
   exists collection dateStr t,
     fst fetch = inl collection /\
     LastStatusChangeDate collection = StringValue dateStr /\
     time_Parse_RFC3339 dateStr = Some t /\
     time_Now (world (snd fetch)) - t < 6 * Hour) /\
  (forall err, fst fetch = inr err -> fst valid = false).
Proof.
  intros fetch valid.
  assert (Hq : Diagnostics (snd valid) = Diagnostics s).
  { apply (quiet_IsCollectionCacheValid endpoint s). }
  split; [|split; [exact Hq|]]; clear Hq; subst valid fetch;
    unfold IsCollectionCacheValid, bind.
  all: destruct (GetOnlineUpdateCollectionWithRetry endpoint 2 (1 * Second) s)
    as [[c|err] s1]; simpl.
  1: { destruct (LastStatusChangeDate c); simpl; try done.
       destruct (time_Parse_RFC3339 s0); simpl; try done.
       unfold Now, bind. simpl. by destruct (_ <? _). }
  1: { done. }
  - split; [|done].
    destruct (LastStatusChangeDate c) as [| |dateStr] eqn:Hdate; simpl.
    + split; [done|]. intros (? & ? & ? & [= <-] & ? & _); congruence.
    + split; [done|]. intros (? & ? & ? & [= <-] & ? & _); congruence.
    + destruct (time_Parse_RFC3339 dateStr) as [t|] eqn:Hparse.
      * unfold Now. simpl.
        destruct (Time_Sub (time_Now (world s1)) t <? CACHE_DURATION) eqn:Hfresh;
          simpl.
        -- split; [intros _|done]. exists c, dateStr, t.
           split_and!; try done. by apply Time_Sub_fresh.
        -- split; [done|]. intros (c' & d' & t' & [= <-] & Hd & Hp & Hlt).
           rewrite Hdate in Hd. injection Hd as <-.
           rewrite Hparse in Hp. injection Hp as <-.
           apply Time_Sub_fresh in Hlt. congruence.
      * simpl. split; [done|].
        intros (c' & d' & t' & [= <-] & Hd & Hp & _).
        rewrite Hdate in Hd. injection Hd as <-. congruence.
  - split; [|done]. split; [done|]. by intros (? & ? & ? & ? & _).
Qed.

End Retry.

(** ** The [Create] operation *)


Section Guarded.

Context {World : Type} (R : relation (@St World)) `{!PreOrder R}.


Lemma preserves_if_ret {A} (P : A -> Prop) (a : A) : preserves_if R P (ret a).
Proof. intros s _. simpl. reflexivity. Qed.

Lemma preserves_if_never {A} (P : A -> Prop) (c : Eff A) :
  (forall s, ~ P (fst (c s))) -> preserves_if R P c.
Proof. intros H s HP. by apply H in HP. Qed.

Lemma preserves_if_bind {A B} (P : B -> Prop) (c : Eff A) (k : A -> Eff B) :
  preserves R c -> (forall a, preserves_if R P (k a)) -> preserves_if R P (bind c k).
Proof.
  intros Hc Hk s. unfold bind. specialize (Hc s).
  destruct (c s) as [a s1]. simpl in Hc. intros HP.
  etransitivity; [exact Hc | by apply Hk].
Qed.

Lemma preserves_if_bind_guard {A B} (Q : A -> Prop) `{!forall a, Decision (Q a)}
    (P : B -> Prop) (c : Eff A) (k : A -> Eff B) :
  preserves_if R Q c ->
  (forall a, Q a -> preserves_if R P (k a)) ->
  (forall a s, ~ Q a -> ~ P (fst (k a s))) ->
  preserves_if R P (bind c k).
Proof.
  intros Hc Hk Hn s. unfold bind. specialize (Hc s).
  destruct (c s) as [a s1]. simpl in Hc. intros HP.
  destruct (decide (Q a)) as [Hq|Hq].
  - etransitivity; [by apply Hc | by apply Hk].
  - by apply Hn in HP.
Qed.

End Guarded.

Ltac guarded_step :=
  match goal with
  | |- preserves_if ?R ?P (ret ?a) => exact (preserves_if_ret R P a)
  | |- preserves_if _ _ (bind (AddError _ _) _) =>
      apply preserves_if_never; intros ? ?; simpl in *; solve [done | by destruct_and?]
  | |- preserves_if ?R ?P (bind ?c ?k) =>
      refine (preserves_if_bind R P c k _ _); [solve [eauto with eff | frame] | intros ?]
  | |- preserves_if _ _ (match ?x with _ => _ end) => destruct x
  | |- preserves_if _ _ (if ?b then _ else _) => destruct b
  | |- preserves_if _ _ (let '(_, _) := ?x in _) => destruct x
  end.

Ltac guarded := repeat guarded_step.

Section CreateFacts.

Context {World : Type} {backend : Backend World}.

Implicit Types (s : @St World) (a : Acquired).

Lemma run_deferred_spec ds s :
  let s' := snd (run_deferred ds s) in
  trace s' = trace s ++ map deferred_event ds /\
  Diagnostics s' = Diagnostics s /\
  State s' = State s.
Proof.
  revert s. induction ds as [|d ds IH]; intros s; simpl.
  - by rewrite app_nil_r.
  - unfold bind. destruct (run_deferred_call d s) as [[] s1] eqn:Hd.
    destruct (IH s1) as (Ht & HD & HS). rewrite Ht, HD, HS.
    destruct d; simpl in Hd.
    + injection Hd as <-. simpl. by rewrite <- app_assoc.
    + unfold call, bind, emit in Hd. simpl in Hd. injection Hd as <-. simpl.
      by rewrite <- app_assoc.
Qed.

Lemma Create_unfold plan_get s exit deferred acquired s1 :
  Create_head plan_get s = ((exit, deferred, acquired), s1) ->
  Create plan_get s =
  (exit, snd (run_deferred deferred
                (snd (match acquired with
                      | Some a => Create_tail a
                      | None => ret tt
                      end s1)))).
Proof.
  intros H. unfold Create. unfold bind at 1. rewrite H.
  unfold bind at 1.
  destruct (match acquired with Some a => Create_tail a | None => ret () end s1)
    as [[] s2].
  unfold bind. simpl. by destruct (run_deferred deferred s2).
Qed.

Lemma Create_collection_quiet isFsas endpoints :
  @preserves_if World same_response _ is_Some (Create_collection isFsas endpoints).
Proof.
  unfold Create_collection.
  guarded.
  apply (preserves_if_bind_guard _ (fun ok => ok = true)).
  - guarded.
  - intros ok ->. guarded.
  - intros [] s' Hok; [done|]. simpl. by intros [? ?].
Qed.

End CreateFacts.

(** Runs the next call of a computation under inspection, keeping what
    its frame lemma says of the state it leaves. *)
Ltac run_quiet :=
  match goal with
  | |- context [ fst (?c ?s0) ] =>
      let H := fresh "Hq" in
      assert (H : preserves same_response c) by (solve [eauto with eff | frame]);
      specialize (H s0); destruct (c s0) as [? ?]; cbn [fst snd] in H |- *
  | |- context [ snd (?c ?s0) ] =>
      let H := fresh "Hq" in
      assert (H : preserves same_response c) by (solve [eauto with eff | frame]);
      specialize (H s0); destruct (c s0) as [? ?]; cbn [fst snd] in H |- *
  end.

Section CreateProps.
Context {World : Type} {backend : Backend World}.
Implicit Types (s : @St World) (a : Acquired).

Lemma bind_run {A B} (c : Eff A) (k : A -> Eff B) s :
  bind c k s = k (fst (c s)) (snd (c s)).
Proof. unfold bind. by destruct (c s). Qed.

Lemma Create_head_success plan_get s exit deferred a s1 :
  Create_head plan_get s = ((exit, deferred, Some a), s1) ->
  exit = Returned /\
  a_plan a = fst plan_get /\
  a_endpoints a = GetOnlineUpdateEndpoints (a_isFsas a) /\
  Diagnostics s1 = Diagnostics_AppendAll (Diagnostics s) (snd plan_get) /\
  HasError (Diagnostics s1) = false /\
  State s1 = State s.
Proof.
  destruct plan_get as [plan diags]. unfold Create_head.
  rewrite !bind_run. cbn [tflog emit AppendDiags DiagsHasError fst snd Diagnostics State trace world].
  destruct (HasError (Diagnostics_AppendAll (Diagnostics s) diags)) eqn:Herr; [done|].
  destruct (Server plan) as [|server0 servers]; [done|].
  rewrite !bind_run.
  run_quiet. destruct Hq as [HD1 HS1]. cbn in HD1, HS1.
  match goal with |- match ?e with _ => _ end _ = _ -> _ => destruct e end; [done|].
  rewrite bind_run. run_quiet. destruct Hq as [HD2 HS2].
  match goal with |- match ?e with _ => _ end _ = _ -> _ => destruct e as [isFsas [e|]] end; [done|].
  rewrite bind_run. run_quiet. destruct Hq as [HD3 HS3].
  match goal with |- match ?e with _ => _ end _ = _ -> _ => destruct e end; [done|].
  rewrite bind_run.
  pose proof (Create_collection_quiet isFsas (GetOnlineUpdateEndpoints isFsas) s3) as Hq.
  destruct (Create_collection isFsas (GetOnlineUpdateEndpoints isFsas) s3) as [[c|] s4];
    cbn [fst snd] in *; [|done].
  destruct Hq as [HD4 HS4]; [done|].
  intros [= <- <- <- <-]. cbn.
  split_and!; try done; congruence.
Qed.

Lemma Create_prepare_success a s1 sel desel payload s3 :
  Create_prepare a s1 = (Some (sel, desel, payload), s3) ->
  let prepared := PrepareUpdateLists (a_plan a) (a_collection a) in
  sel = selected prepared /\
  desel = deselected prepared /\
  prepare_err prepared = None /\
  (exists log, BuildExecutePayload (a_plan a) (a_isFsas a) = (inl payload, log)) /\
  Diagnostics s3 = Diagnostics s1 /\
  State s3 = State s1.
Proof.
  unfold Create_prepare. rewrite bind_run. run_quiet. destruct Hq as [HD1 HS1].
  destruct (prepare_err (PrepareUpdateLists (a_plan a) (a_collection a))); [by cbn|].
  rewrite bind_run. run_quiet. destruct Hq as [HD2 HS2].
  match goal with |- match ?e with _ => _ end _ = _ -> _ => destruct e end; [by cbn|].
  destruct (BuildExecutePayload (a_plan a) (a_isFsas a)) as [[p|e] log].
  2: { rewrite bind_run. by cbn. }
  rewrite bind_run. run_quiet. destruct Hq as [HD3 HS3].
  intros [= <- <- <- <-]. cbn. split_and!; try done; try congruence. by eexists.
Qed.

Lemma call_trace {A} e (f : World -> A * World) s :
  trace (snd (call e f s)) = trace s ++ [e].
Proof. unfold call, bind, emit. simpl. by destruct (f (world s)). Qed.

Lemma events_since_app s s' evs :
  trace s' = trace s ++ evs -> events_since s s' = evs.
Proof. intros H. unfold events_since. by rewrite H, drop_app_length. Qed.

Lemma deferred_events_not_Post ds e :
  e ∈ map deferred_event ds -> is_Post e = false.
Proof.
  intros H. apply list_elem_of_In, in_map_iff in H as (d & <- & _). by destruct d.
Qed.

(** The execute trigger posts once and does nothing else. *)
Lemma TriggerOnlineUpdateExecute_trace endpoint payload s :
  trace (snd (TriggerOnlineUpdateExecute endpoint payload s))
  = trace s ++ [EvPost endpoint (PayloadMap payload)].
Proof.
  unfold TriggerOnlineUpdateExecute, Post. rewrite bind_run.
  pose proof (call_trace (EvPost endpoint (PayloadMap payload))
                (client_Post endpoint (PayloadMap payload)) s) as Ht.
  destruct (call _ _ s) as [[resp|err] s']; cbn [fst snd] in *; [|done].
  by repeat case_match.
Qed.

(** Without an error the execute trigger has a task location. *)
Lemma TriggerOnlineUpdateExecute_location endpoint payload s location :
  fst (TriggerOnlineUpdateExecute endpoint payload s) = (location, None) ->
  location <> "".
Proof.
  unfold TriggerOnlineUpdateExecute. rewrite bind_run.
  destruct (Post _ _ s) as [[resp|err] s']; cbn [fst snd]; [|done].
  repeat case_match; try done. case_bool_decide; simpl; congruence.
Qed.

Lemma CheckOnlineUpdateStatus_trace location timeout isFsas s :
  exists evs,
    trace (snd (CheckOnlineUpdateStatus location timeout isFsas s)) = trace s ++ evs /\
    Forall (fun e => is_Sleep e = false /\ is_Post e = false) evs.
Proof.
  unfold CheckOnlineUpdateStatus. rewrite bind_run.
  pose proof (call_trace (EvWaitTask location timeout)
                (WaitForRedfishTaskEnd location timeout) s) as H1.
  destruct (call _ _ s) as [[ok err] s1]; cbn [fst snd] in *.
  destruct (bool_decide (err <> None) || negb ok).
  - rewrite bind_run.
    pose proof (call_trace (EvFetchTaskLog location)
                  (FetchRedfishTaskLog location isFsas) s1) as H2.
    destruct (call _ _ s1) as [[log bad] s2]; cbn [fst snd] in *.
    exists [EvWaitTask location timeout; EvFetchTaskLog location].
    split; [|by repeat constructor].
    destruct bad; simpl; rewrite H2, H1; by rewrite <- app_assoc.
  - exists [EvWaitTask location timeout]. split; [done|by repeat constructor].
Qed.

End CreateProps.

Section CreateOperation.

Context {World : Type} {backend : Backend World}.

Implicit Types (s : @St World) (a : Acquired).




Lemma Create_tail_prepared a s1 sel desel payload s3 :
  UpdateCollection (a_collection a) <> [] ->
  Create_prepare a s1 = (Some (sel, desel, payload), s3) ->
  Create_tail a s1 =
  bind (Create_execute (a_plan a) (a_isFsas a) (a_endpoints a) (a_collection a)
          sel desel payload)
       (fun ok : bool => if ok then Create_finish a else ret tt) s3.
Proof.
  intros Hne Hprep. unfold Create_tail.
  destruct (UpdateCollection (a_collection a)) eqn:Hc; [done|]. simpl.
  unfold bind at 1. by rewrite Hprep.
Qed.

(** When the decision is to execute, the first thing [Create_execute]
    does is the execute call; it then waits for the task at most, and
    never sleeps. *)
Lemma Create_execute_fires plan isFsas endpoints collection sel desel payload s :
  (0 <? length sel)%nat || List_IsNull (UpdateList plan) = true ->
  exists evs,
    trace (snd (Create_execute plan isFsas endpoints collection sel desel payload s))
    = trace s ++ EvPost (checkEndpoint endpoints) (PayloadMap payload) :: evs /\
    Forall (fun e => is_Sleep e = false /\ is_Post e = false) evs.
Proof.
  intros Hdo. unfold Create_execute. rewrite Hdo, bind_run.
  pose proof (TriggerOnlineUpdateExecute_trace (checkEndpoint endpoints) payload s) as Ht.
  pose proof (TriggerOnlineUpdateExecute_location (checkEndpoint endpoints) payload s) as Hl.
  destruct (TriggerOnlineUpdateExecute (checkEndpoint endpoints) payload s)
    as [[location [e|]] s1]; cbn [fst snd] in *.
  - exists []. simpl. by rewrite Ht.
  - specialize (Hl location eq_refl).
    rewrite (bool_decide_eq_false_2 _ Hl). simpl.
    destruct (bool_decide _).
    + rewrite bind_run.
      destruct (CheckOnlineUpdateStatus_trace location DEFAULT_ONLINEUPDATE_TIMEOUT
                  isFsas s1) as (evs & He & Hf).
      exists evs. split; [|done].
      destruct (CheckOnlineUpdateStatus _ _ _ s1) as [[e|] s2]; simpl in *;
        by rewrite He, Ht, <- app_assoc.
    + exists []. simpl. by rewrite Ht.
Qed.

(** When the decision is not to execute, [Create_execute] calls
    nothing. *)
Lemma Create_execute_skips plan isFsas endpoints collection sel desel payload s :
  (0 <? length sel)%nat || List_IsNull (UpdateList plan) = false ->
  let warn := negb (List_IsNull (UpdateList plan))
              && (0 <? length (UpdateCollection collection))%nat
              && (length sel =? 0)%nat && (0 <? length desel)%nat in
  Create_execute plan isFsas endpoints collection sel desel payload s =
  (true, {| world := world s; trace := trace s;
            Diagnostics := if warn
                         then Diagnostics_Append (Diagnostics s)
                                (DiagWarning no_match_summary no_match_detail)
                         else Diagnostics s;
            State := State s |}).
Proof.
  intros Hdo warn. unfold Create_execute. rewrite Hdo. fold warn.
  destruct warn; simpl; [done|]. by destruct s.
Qed.

Lemma HasError_app ds1 ds2 : HasError (ds1 ++ ds2) = HasError ds1 || HasError ds2.
Proof. apply existsb_app. Qed.

Lemma HasError_Append ds d :
  HasError (Diagnostics_Append ds d) = HasError ds || is_error d.
Proof.
  unfold Diagnostics_Append. case_bool_decide as Hin.
  - destruct (is_error d) eqn:Hd; [|by rewrite orb_false_r].
    rewrite orb_true_r. apply existsb_exists. exists d.
    split; [by apply list_elem_of_In | done].
  - rewrite HasError_app. simpl. by rewrite orb_false_r.
Qed.


(** With an empty collection [Create] logs two lines, sets the state
    and is done. *)
Lemma Create_empty_collection plan_get s exit deferred a s1 :
  Create_head plan_get s = ((exit, deferred, Some a), s1) ->
  UpdateCollection (a_collection a) = [] ->
  let final := snd (Create plan_get s) in
  fst (Create plan_get s) = Returned /\
  State final =
    Some (with_Id (fst plan_get)
            (StringValue (checkEndpoint (GetOnlineUpdateEndpoints (a_isFsas a))))) /\
  Diagnostics final = Diagnostics_AppendAll (Diagnostics s) (snd plan_get) /\
  HasError (Diagnostics final) = false /\
  events_since s1 final =
    [EvLog (LInfo, "Online update check completed successfully, but no updates are currently available for this system.");
     EvLog (LInfo, "resource-online-update: create ends (no updates available)")]
    ++ map deferred_event deferred /\
  Forall (fun e => is_Post e = false) (events_since s1 final).
Proof.
  intros Hhead Hempty final.
  destruct (Create_head_success _ _ _ _ _ _ Hhead) as (-> & Hplan & Hep & HD & HE & HS).
  unfold final. rewrite (Create_unfold _ _ _ _ _ _ Hhead). cbn [fst snd].
  unfold Create_tail. rewrite Hempty. cbn [length Nat.eqb].
  set (s2 := snd (_ s1)).
  assert (Hs2 : trace s2 = trace s1 ++
            [EvLog (LInfo, "Online update check completed successfully, but no updates are currently available for this system.");
             EvLog (LInfo, "resource-online-update: create ends (no updates available)")]
          /\ Diagnostics s2 = Diagnostics s1
          /\ State s2 = Some (with_Id (a_plan a) (StringValue (checkEndpoint (a_endpoints a))))).
  { unfold s2. cbn. by rewrite <- app_assoc. }
  destruct Hs2 as (Ht2 & HD2 & HS2).
  destruct (run_deferred_spec deferred s2) as (Ht & HDf & HSf).
  rewrite HDf, HSf, HD2, HS2, HD, Hplan, Hep.
  assert (Hev : events_since s1 (snd (run_deferred deferred s2)) =
                [EvLog (LInfo, "Online update check completed successfully, but no updates are currently available for this system.");
                 EvLog (LInfo, "resource-online-update: create ends (no updates available)")]
                ++ map deferred_event deferred).
  { apply events_since_app. by rewrite Ht, Ht2, <- app_assoc. }
  rewrite Hev. split_and!; try done; try congruence.
  apply Forall_app. split; [by repeat constructor|].
  apply Forall_forall. intros e. apply deferred_events_not_Post.
Qed.

(** [C9] When the collection [Create] has fetched holds no item,
    [Create] returns at once: after the fetch it logs two lines and
    runs its deferred calls, and nothing else (no deselect call, no
    execute call, no other call); it adds no diagnostic, and sets the
    state: its id is the check endpoint, every other attribute is that
    of the plan.  This is so for every plan, whatever its desired
    list. *)
Theorem Create_without_updates plan_get s exit deferred a s1 :
  Create_head plan_get s = ((exit, deferred, Some a), s1) ->
  UpdateCollection (a_collection a) = [] ->
  let final := snd (Create plan_get s) in
  let plan := fst plan_get in
  fst (Create plan_get s) = Returned /\
  (exists st,
     State final = Some st /\
     Id st = StringValue (checkEndpoint (GetOnlineUpdateEndpoints (a_isFsas a))) /\
     Server st = Server plan /\
     UpdateList st = UpdateList plan /\
     ExecuteOnlineUpdOperationTime st = ExecuteOnlineUpdOperationTime plan /\
     ExecuteOnlineUpdScheduleTime st = ExecuteOnlineUpdScheduleTime plan) /\
  Diagnostics final = Diagnostics_AppendAll (Diagnostics s) (snd plan_get) /\
  HasError (Diagnostics final) = false /\
  events_since s1 final =
    [EvLog (LInfo, "Online update check completed successfully, but no updates are currently available for this system.");
     EvLog (LInfo, "resource-online-update: create ends (no updates available)")]
    ++ map deferred_event deferred /\
  Forall (fun e => is_Post e = false) (events_since s1 final).
Proof.
  intros Hhead Hempty final plan.
  destruct (Create_empty_collection _ _ _ _ _ _ Hhead Hempty)
    as (Hexit & Hstate & Hdiag & Herr & Hev & Hposts).
  split_and!; try done.
  eexists. split; [exact Hstate|]. split_and!; reflexivity.
Qed.




(** [C5] (as amended) When the execute call is answered with an
    accepted status but no task location, the trigger reports an
    error: [Create] posts, records the diagnostic "Trigger Online
    Update Execute Failed", runs its deferred calls and returns; it
    neither sleeps nor waits for a task, and leaves the state as it
    was.  This is so whatever the operation time; and in no run does
    the execute step of [Create] sleep. *)
Theorem Create_execute_without_location plan_get s exit deferred a s1
    sel desel payload s3 resp w :
  Create_head plan_get s = ((exit, deferred, Some a), s1) ->
  UpdateCollection (a_collection a) <> [] ->
  Create_prepare a s1 = (Some (sel, desel, payload), s3) ->
  sel <> [] \/ UpdateList (a_plan a) = ListNull ->
  client_Post (checkEndpoint (a_endpoints a)) (PayloadMap payload) (world s3)
  = (inl resp, w) ->
  is_2xx_accepted (StatusCode resp) = true ->
  HeaderLocation resp = "" ->
  let final := snd (Create plan_get s) in
  events_since s3 final =
    EvPost (checkEndpoint (a_endpoints a)) (PayloadMap payload)
    :: map deferred_event deferred /\
  Diagnostics final =
    Diagnostics_Append (Diagnostics_AppendAll (Diagnostics s) (snd plan_get))
      (DiagError "Trigger Online Update Execute Failed"
         "Task Location header not found in response") /\
  HasError (Diagnostics final) = true /\
  State final = State s /\
  (forall plan isFsas endpoints collection sel' desel' payload' s',
     Forall (fun e => is_Sleep e = false)
       (events_since s'
          (snd (Create_execute plan isFsas endpoints collection
                  sel' desel' payload' s')))).
Proof.
  intros Hhead Hne Hprep Hyes Hpost Hcode Hloc final.
  destruct (Create_head_success _ _ _ _ _ _ Hhead) as (-> & Hplan & Hep & HD & HE & HS).
  destruct (Create_prepare_success _ _ _ _ _ _ Hprep)
    as (Hsel & Hdes & Herr & _ & HD3 & HS3).
  assert (Hdo : (0 <? length sel)%nat || List_IsNull (UpdateList (a_plan a)) = true).
  { destruct Hyes as [Hyes|Hyes]; [by destruct sel|]. rewrite Hyes. apply orb_true_r. }
  unfold final. rewrite (Create_unfold _ _ _ _ _ _ Hhead). cbn [fst snd].
  rewrite (Create_tail_prepared _ _ _ _ _ _ Hne Hprep), bind_run.
  assert (Hexec :
    Create_execute (a_plan a) (a_isFsas a) (a_endpoints a) (a_collection a)
      sel desel payload s3 =
    (false, {| world := w;
               trace := trace s3 ++
                        [EvPost (checkEndpoint (a_endpoints a)) (PayloadMap payload)];
               Diagnostics := Diagnostics_Append (Diagnostics s3)
                              (DiagError "Trigger Online Update Execute Failed"
                                 "Task Location header not found in response");
               State := State s3 |})).
  { unfold Create_execute. rewrite Hdo.
    unfold TriggerOnlineUpdateExecute, Post, call, bind, emit. cbn.
    rewrite Hpost, Hcode, Hloc. reflexivity. }
  rewrite Hexec. cbn [fst snd ret].
  set (s4 := {| world := w |}).
  destruct (run_deferred_spec deferred s4) as (Ht & HDf & HSf).
  rewrite HDf, HSf. cbn [s4 Diagnostics State].
  split_and!.
  - apply events_since_app. rewrite Ht. cbn. by rewrite <- app_assoc.
  - by rewrite HD3, HD.
- rewrite HasError_Append. cbn. apply orb_true_r.
  - congruence.
  - intros plan isFsas endpoints collection sel' desel' payload' s'.
    destruct ((0 <? length sel')%nat || List_IsNull (UpdateList plan)) eqn:Hdo'.
    + destruct (Create_execute_fires plan isFsas endpoints collection sel' desel'
                  payload' s' Hdo') as (evs & Hev & Hf).
      rewrite (events_since_app _ _ _ Hev). constructor; [done|].
      eapply Forall_impl; [exact Hf|]. by intros e [? _].
    + rewrite Create_execute_skips by done. cbn [snd].
      erewrite events_since_app; [constructor|]. cbn. by rewrite app_nil_r.
Qed.

End CreateOperation.

(** ** The scripted remote system at work *)

Lemma GetOnlineUpdateCollectionWithRetry_outcomes_witness :
  fst (GetOnlineUpdateCollectionWithRetry collection_url 2 Second
         (Scripted.start [busy; busy] [] []))
  = inr "Collection was not ready after 2 retries" /\
  fst (GetOnlineUpdateCollectionWithRetry collection_url 3 Second
         (Scripted.start [busy] [] []))
  = inr "POST request failed: connection refused" /\
  fst (GetOnlineUpdateCollectionWithRetry collection_url 3 Second
         (Scripted.start [busy; Scripted.reply 200 "" "three-updates"] [] []))
  = inl Scripted.three_updates.
Proof.
  split_and!.
  - destruct (GetOnlineUpdateCollectionWithRetry_outcomes collection_url 2 Second
                (Scripted.start [busy; busy] [] [])) as (H & _ & _).
    erewrite H; [reflexivity|]. vm_compute. reflexivity.
  - destruct (GetOnlineUpdateCollectionWithRetry_outcomes collection_url 3 Second
                (Scripted.start [busy] [] [])) as (_ & H & _).
    erewrite (H 1%nat); [reflexivity| vm_compute; lia | vm_compute; reflexivity |].
    vm_compute. reflexivity.
  - destruct (GetOnlineUpdateCollectionWithRetry_outcomes collection_url 3 Second
                (Scripted.start [busy; Scripted.reply 200 "" "three-updates"] [] []))
      as (_ & _ & H).
    erewrite (H 1%nat); [reflexivity| vm_compute; lia | vm_compute; reflexivity |].
    vm_compute. reflexivity.
Defined.

Lemma Create_without_updates_witness :
  let final := snd (Create (null_plan, []) no_updates_start) in
  fst (Create (null_plan, []) no_updates_start) = Returned /\
  (exists st,
     State final = Some st /\ Id st = StringValue check_url /\
     UpdateList st = ListNull) /\
  Diagnostics final = [] /\
  Forall (fun e => is_Post e = false)
    (drop 7 (trace final)).
Proof.
  edestruct (Create_without_updates (null_plan, []) no_updates_start)
    as (Hexit & (st & Hstate & Hid & _ & Hlist & _) & Hdiag & _ & Hev & Hposts).
  - vm_compute. reflexivity.
  - reflexivity.
  - split_and!; [exact Hexit | | exact Hdiag | exact Hposts].
    exists st. split_and!; [exact Hstate | exact Hid | exact Hlist].
Defined.



Lemma Create_execute_without_location_witness :
  let final := snd (Create (others_plan, []) no_location_start) in
  Diagnostics final =
    [DiagError "Trigger Online Update Execute Failed"
       "Task Location header not found in response"] /\
  State final = None.
Proof.
  edestruct (Create_execute_without_location (others_plan, []) no_location_start)
    as (_ & Hdiag & _ & Hstate & _).
  - vm_compute. reflexivity.
  - discriminate.
  - vm_compute. reflexivity.
  - left. discriminate.
  - vm_compute. reflexivity.
  - reflexivity.
  - reflexivity.
  - split; [exact Hdiag | exact Hstate].
Defined.

(** [C5] (as stated) A run in which the execute call is answered 202
    without a task location and the operation time is [Immediately]:
    the last call of the run is the execute call, after it [Create]
    neither sleeps nor polls, and it ends with an error and without
    state. *)
Lemma Create_without_location_fails :
  let final := snd (Create (others_plan, []) no_location_start) in
  ExecuteOnlineUpdOperationTime others_plan = StringValue "Immediately" /\
  last (List.filter is_Post (trace final)) =
    Some (EvPost check_url
            (PayloadMap {[ "ExecutionMode" := "ExecuteUpdate";
                           "SchedulingType" := "Immediately" ]})) /\
  existsb is_Sleep (trace final) = false /\
  existsb is_WaitTask (trace final) = false /\
  HasError (Diagnostics final) = true /\
  State final = None.
Proof. vm_compute. split_and!; reflexivity. Qed.

(** The cache check on the scripted system: fresh after one hour, stale
    after seven, invalid while the check is in progress. *)
Example cache_fresh :
  fst (IsCollectionCacheValid collection_url (Scripted.start [with_updates] [] []))
  = true.
Proof. vm_compute. reflexivity. Qed.

Example cache_stale :
  fst (IsCollectionCacheValid collection_url
         (snd (Sleep (6 * Hour) (Scripted.start [with_updates] [] []))))
  = false.
Proof. vm_compute. reflexivity. Qed.

Example cache_in_progress :
  fst (IsCollectionCacheValid collection_url (Scripted.start [busy; busy] [] []))
  = false.
Proof. vm_compute. reflexivity. Qed.

(** * Further properties of the code *)

(** ** The reconciler *)

Lemma allowed_plain x :
  x ∈ allowedUpdateComponents -> gostrings.Contains_slash x = false /\ x <> "".
Proof.
  unfold allowedUpdateComponents. rewrite !elem_of_union, !elem_of_singleton.
  intros H. repeat destruct H as [H|H]; subst x; by split.
Qed.

Lemma Contains_slash_nonempty x : gostrings.Contains_slash x = true -> x <> "".
Proof. by intros H ->. Qed.

Lemma request_step_designations_iff st r x :
  x ∈ requestedDesignations (request_step st r) <->
  x ∈ requestedDesignations st \/
  (x = gostrings.TrimSpace r /\ x <> "Others" /\ gostrings.Contains_slash x = true).
Proof.
  unfold request_step.
  destruct (bool_decide_reflect (gostrings.TrimSpace r = "")) as [He|He]; simpl.
  { split; [tauto|]. intros [?|(-> & _ & Hs)]; [done|]. by rewrite He in Hs. }
  destruct (bool_decide_reflect (gostrings.TrimSpace r = "Others")) as [Ho|Ho]; simpl.
  { split; [tauto|]. intros [?|(-> & ? & _)]; done. }
  destruct (gostrings.Contains_slash (gostrings.TrimSpace r)) eqn:Hs; simpl.
  { rewrite elem_of_union, elem_of_singleton. split.
    - intros [->|?]; [right|left]; done.
    - intros [?|(-> & _)]; [right|left]; done. }
  destruct (bool_decide (gostrings.TrimSpace r ∈ allowedUpdateComponents)); simpl.
  all: split; [tauto|]; intros [?|(-> & _ & Hs')]; [done|congruence].
Qed.

Lemma request_step_components_iff st r x :
  x ∈ requestedComponents (request_step st r) <->
  x ∈ requestedComponents st \/
  (x = gostrings.TrimSpace r /\ x <> "Others" /\ x ∈ allowedUpdateComponents).
Proof.
  unfold request_step.
  destruct (bool_decide_reflect (gostrings.TrimSpace r = "")) as [He|He]; simpl.
  { split; [tauto|]. intros [?|(-> & _ & Ha)]; [done|].
    apply allowed_plain in Ha as [_ Ha]. done. }
  destruct (bool_decide_reflect (gostrings.TrimSpace r = "Others")) as [Ho|Ho]; simpl.
  { split; [tauto|]. intros [?|(-> & ? & _)]; done. }
  destruct (gostrings.Contains_slash (gostrings.TrimSpace r)) eqn:Hs; simpl.
  { split; [tauto|]. intros [?|(-> & _ & Ha)]; [done|].
    apply allowed_plain in Ha as [Ha _]. congruence. }
  destruct (bool_decide_reflect (gostrings.TrimSpace r ∈ allowedUpdateComponents))
    as [Ha|Ha]; simpl.
  - rewrite elem_of_union, elem_of_singleton. split.
    + intros [->|?]; [right|left]; done.
    + intros [?|(-> & _)]; [right|left]; done.
  - split; [tauto|]. intros [?|(-> & _ & ?)]; done.
Qed.

Lemma scan_designations_iff reqs st x :
  x ∈ requestedDesignations (fold_left request_step reqs st) <->
  x ∈ requestedDesignations st \/
  (x ∈ trimmed reqs /\ x <> "Others" /\ gostrings.Contains_slash x = true).
Proof.
  revert st. induction reqs as [|r reqs IH]; intros st; simpl.
  - rewrite elem_of_nil. tauto.
  - rewrite IH, request_step_designations_iff, elem_of_cons. unfold trimmed. tauto.
Qed.

Lemma scan_components_iff reqs st x :
  x ∈ requestedComponents (fold_left request_step reqs st) <->
  x ∈ requestedComponents st \/
  (x ∈ trimmed reqs /\ x <> "Others" /\ x ∈ allowedUpdateComponents).
Proof.
  revert st. induction reqs as [|r reqs IH]; intros st; simpl.
  - rewrite elem_of_nil. tauto.
  - rewrite IH, request_step_components_iff, elem_of_cons. unfold trimmed. tauto.
Qed.

(** The decision for one item, read off the trimmed entries. *)
Lemma isSelected_rule reqs item :
  isSelected false (scan_requests reqs) item = true <->
  by_designation (trimmed reqs) item \/ by_component (trimmed reqs) item \/
  by_catch_all (trimmed reqs) item.
Proof.
  unfold isSelected, by_designation, by_component, by_catch_all.
  fold (designation_of item) (component_of item).
  pose proof (scan_designations_iff reqs Requested_init (designation_of item)) as Hd.
  pose proof (scan_components_iff reqs Requested_init (component_of item)) as Hc.
  pose proof (scan_applyOthers reqs Requested_init) as Ho.
  fold (scan_requests reqs) in Hd, Hc, Ho. fold (trimmed reqs) in Ho.
  simpl in Hd, Hc, Ho. rewrite elem_of_empty in Hd, Hc.
  destruct (bool_decide_reflect (designation_of item ∈ requestedDesignations (scan_requests reqs)))
    as [H1|H1]; simpl.
  { split; [intros _|done]. left. apply Hd in H1 as [[]|(? & ? & ?)]. done. }
  destruct (bool_decide_reflect (component_of item ∈ requestedComponents (scan_requests reqs)))
    as [H2|H2]; simpl.
  { split; [intros _|done]. right; left. apply Hc in H2 as [[]|(? & ? & ?)]. done. }
  assert (Hnd : ~ (designation_of item ∈ trimmed reqs /\
                   gostrings.Contains_slash (designation_of item) = true)).
  { intros [? Hs]. apply H1, Hd. right. split_and!; try done.
    intros Heq. by rewrite Heq in Hs. }
  assert (Hnc : ~ (component_of item ∈ trimmed reqs /\
                   component_of item ∈ allowedUpdateComponents /\
                   component_of item <> "Others")).
  { intros (? & ? & ?). apply H2, Hc. right. done. }
  destruct (applyOthers (scan_requests reqs)) eqn:Hao; simpl.
  - destruct (bool_decide_reflect (component_of item ∈ allowedUpdateComponents))
      as [Ha|Ha]; simpl.
    + split; [done|]. intros [?|[?|[_ ?]]]; done.
    + split; [intros _|done]. right; right. split; [|done].
      destruct (proj1 Ho eq_refl) as [?|?]; done.
  - split; [done|]. intros [?|[?|[Hin _]]]; try done.
    assert (false = true) by (apply Ho; by right). done.
Qed.

Lemma elem_of_map_filter_iff {A B} (f : A -> B) (keep : A -> bool) (l : list A) (b : B) :
  b ∈ map f (List.filter keep l) <-> exists a, a ∈ l /\ f a = b /\ keep a = true.
Proof.
  rewrite list_elem_of_In, in_map_iff. split.
  - intros (a & <- & Hin). apply filter_In in Hin as [Hin Hk].
    exists a. by rewrite list_elem_of_In.
  - intros (a & Hin & <- & Hk). exists a. split; [done|].
    apply filter_In. by rewrite <- list_elem_of_In.
Qed.

(** [X1] In explicit mode a designation is in [selected] exactly when
    it is the designation of an item that the list names by designation
    (an entry with a "/" equal to it), by component (an entry equal to
    its component, a known one other than "Others"), or sweeps up by
    the catch-all (entry "Others", component not known); it is in
    [deselected] exactly when it is the designation of an item for which
    none of the three holds.  Entries count after trimming. *)
Theorem PrepareUpdateLists_rule plan collection reqs :
  requests_of (UpdateList plan) = Some reqs ->
  Exists (fun r => ~ blank r) reqs ->
  let p := PrepareUpdateLists plan collection in
  let items := UpdateCollection collection in
  (forall d, d ∈ selected p <->
     exists item, item ∈ items /\ designation_of item = d /\
                  selection_rule (trimmed reqs) item) /\
  (forall d, d ∈ deselected p <->
     exists item, item ∈ items /\ designation_of item = d /\
                  ~ selection_rule (trimmed reqs) item).
Proof.
  intros Hreq Hne p items. unfold p.
  rewrite (PrepareUpdateLists_explicit _ _ _ Hreq Hne). cbn [selected deselected].
  fold items. split; intros d; rewrite elem_of_map_filter_iff.
  - split; intros (item & ? & ? & Hk); exists item; split_and!; try done;
      by apply isSelected_rule.
  - split; intros (item & ? & ? & Hk); exists item; split_and!; try done.
    + intros Hr. apply isSelected_rule in Hr. by rewrite Hr in Hk.
    + apply negb_true_iff, not_true_is_false. intros Hr. by apply Hk, isSelected_rule.
Qed.

Lemma PrepareUpdateLists_rule_witness :
  requests_of (UpdateList others_plan) = Some ["Others"] /\
  ("VendorX/C" ∈ selected (PrepareUpdateLists others_plan Scripted.three_updates)) /\
  ("Others/X" ∈ deselected (PrepareUpdateLists others_plan Scripted.three_updates)).
Proof.
  assert (Hne : Exists (fun r => ~ blank r) ["Others"]).
  { apply Exists_cons_hd. unfold blank. simpl. discriminate. }
  destruct (PrepareUpdateLists_rule others_plan Scripted.three_updates ["Others"]
              eq_refl Hne) as [Hs Hd].
  split; [reflexivity|]. split.
  - apply Hs. exists (Scripted.check_item "VendorX/C" "VendorX").
    split; [apply list_elem_of_further, list_elem_of_here|]. split; [reflexivity|].
    right; right. split; [apply list_elem_of_here|].
    unfold allowedUpdateComponents. vm_compute component_of. set_solver.
  - apply Hd. exists (Scripted.check_item "Others/X" "Others").
    split; [apply list_elem_of_further, list_elem_of_further, list_elem_of_here|].
    split; [reflexivity|].
    intros [[Hin _]|[(_ & _ & Hne')|[_ Hna]]].
    + apply list_elem_of_singleton in Hin. discriminate Hin.
    + by apply Hne'.
    + apply Hna. apply Others_allowed.
Defined.

Lemma scan_noneEmpty_trimmed reqs :
  noneEmptyRequest (scan_requests reqs) = true <->
  exists x, x ∈ trimmed reqs /\ x <> "".
Proof.
  unfold scan_requests. rewrite scan_noneEmpty. simpl.
  rewrite Exists_exists. unfold trimmed, blank. split.
  - intros [H|(r & Hin & Hr)]; [done|]. exists (gostrings.TrimSpace r).
    split; [|done]. apply list_elem_of_In, in_map. by apply list_elem_of_In.
  - intros (x & Hin & Hx). right.
    apply list_elem_of_In, in_map_iff in Hin as (r & <- & Hin).
    exists r. by rewrite list_elem_of_In.
Qed.

Lemma selection_rule_ext T1 T2 item :
  (forall x, x <> "" -> (x ∈ T1 -> x ∈ T2)) ->
  selection_rule T1 item -> selection_rule T2 item.
Proof.
  intros H [[Hin Hs]|[(Hin & Ha & Ho)|[Hin Hna]]].
  - left. split; [|done]. apply H; [|done]. by apply Contains_slash_nonempty.
  - right; left. split_and!; try done. apply H; [|done]. by apply allowed_plain in Ha as [_ ?].
  - right; right. split; [|done]. by apply H.
Qed.

(** [X2] The two result lists depend on the desired list only through
    the set of its non-empty trimmed entries: order, repetition, blank
    entries and white space around an entry change nothing. *)
Theorem PrepareUpdateLists_same_entries plan1 plan2 collection reqs1 reqs2 :
  requests_of (UpdateList plan1) = Some reqs1 ->
  requests_of (UpdateList plan2) = Some reqs2 ->
  (forall x, x <> "" -> (x ∈ trimmed reqs1 <-> x ∈ trimmed reqs2)) ->
  selected (PrepareUpdateLists plan1 collection)
  = selected (PrepareUpdateLists plan2 collection) /\
  deselected (PrepareUpdateLists plan1 collection)
  = deselected (PrepareUpdateLists plan2 collection).
Proof.
  intros H1 H2 Hsame.
  rewrite (PrepareUpdateLists_requests _ _ _ H1), (PrepareUpdateLists_requests _ _ _ H2).
  cbn [selected deselected].
  assert (Hne : noneEmptyRequest (scan_requests reqs1)
                = noneEmptyRequest (scan_requests reqs2)).
  { apply eq_true_iff_eq. rewrite !scan_noneEmpty_trimmed.
    split; intros (x & Hin & Hx); exists x; (split; [by apply Hsame|done]). }
  rewrite Hne. destruct (noneEmptyRequest (scan_requests reqs2)); simpl; [|done].
  assert (Hk : forall item, isSelected false (scan_requests reqs1) item
                            = isSelected false (scan_requests reqs2) item).
  { intros item. apply eq_true_iff_eq. rewrite !isSelected_rule.
    split; apply selection_rule_ext; intros x Hx; by apply Hsame. }
  split.
  - by rewrite (filter_ext _ _ Hk).
  - by rewrite (filter_ext _ _ (fun item => f_equal negb (Hk item))).
Qed.

Lemma PrepareUpdateLists_same_entries_witness :
  selected (PrepareUpdateLists explicit_plan Scripted.three_updates)
  = selected (PrepareUpdateLists shuffled_plan Scripted.three_updates) /\
  deselected (PrepareUpdateLists explicit_plan Scripted.three_updates)
  = deselected (PrepareUpdateLists shuffled_plan Scripted.three_updates).
Proof.
  apply (PrepareUpdateLists_same_entries explicit_plan shuffled_plan
           Scripted.three_updates explicit_requests ["Storage"; "Others"; "Others  "]
           eq_refl eq_refl).
  intros x Hx. vm_compute trimmed.
  rewrite !elem_of_cons, !elem_of_nil. tauto.
Defined.

Lemma unrecognized_spec x :
  unrecognized x = true <->
  x <> "" /\ x <> "Others" /\ gostrings.Contains_slash x = false /\
  x ∉ allowedUpdateComponents.
Proof.
  unfold unrecognized.
  rewrite !andb_true_iff, !negb_true_iff, !bool_decide_eq_false. tauto.
Qed.

(** [X3] Entries that are not recognized still make the list an explicit
    one: when every entry is blank or unrecognized and one at least is
    not blank, nothing is selected and every item is deselected. *)
Theorem unrecognized_requests_deselect_all plan collection reqs :
  requests_of (UpdateList plan) = Some reqs ->
  Exists (fun r => ~ blank r) reqs ->
  Forall (fun x => x = "" \/ unrecognized x = true) (trimmed reqs) ->
  let p := PrepareUpdateLists plan collection in
  selected p = [] /\
  deselected p = map designation_of (UpdateCollection collection) /\
  prepare_err p = None.
Proof.
  intros Hreq Hne Hun p. unfold p.
  rewrite (PrepareUpdateLists_explicit _ _ _ Hreq Hne). cbn [selected deselected prepare_err].
  assert (Hk : forall item, isSelected false (scan_requests reqs) item = false).
  { intros item. apply not_true_is_false. rewrite isSelected_rule.
    rewrite Forall_forall in Hun.
    intros [[Hin Hs]|[(Hin & Ha & Ho)|[Hin Hna]]]; apply Hun in Hin as [He|Hu].
    - by rewrite He in Hs.
    - apply unrecognized_spec in Hu as (_ & _ & Hs' & _). congruence.
    - apply allowed_plain in Ha as [_ ?]. done.
    - by apply unrecognized_spec in Hu as (_ & _ & _ & ?).
    - done.
    - by apply unrecognized_spec in Hu as (_ & ? & _). }
  rewrite (filter_ext _ (fun _ => false) Hk).
  rewrite (filter_ext (fun i => negb _) (fun _ => true)
             (fun item => f_equal negb (Hk item))).
  split_and!; try done.
  - by induction (UpdateCollection collection).
  - f_equal. induction (UpdateCollection collection) as [|i l IH]; simpl; congruence.
Qed.

Lemma unrecognized_requests_deselect_all_witness :
  selected (PrepareUpdateLists bogus_plan Scripted.three_updates) = [] /\
  deselected (PrepareUpdateLists bogus_plan Scripted.three_updates)
  = ["SystemBoard/A"; "VendorX/C"; "Others/X"].
Proof.
  edestruct (unrecognized_requests_deselect_all bogus_plan Scripted.three_updates
               ["bogus"; " storage "]) as (Hs & Hd & _).
  - reflexivity.
  - apply Exists_cons_hd. unfold blank. vm_compute. discriminate.
  - vm_compute trimmed. repeat constructor; right; apply unrecognized_spec;
      (split_and!; try done; unfold allowedUpdateComponents; set_solver).
  - split; [exact Hs | exact Hd].
Defined.

Lemma filter_sublist_mono {A B} (f : A -> B) (k1 k2 : A -> bool) (l : list A) :
  (forall a, k1 a = true -> k2 a = true) ->
  sublist (map f (List.filter k1 l)) (map f (List.filter k2 l)).
Proof.
  intros H. induction l as [|a l IH]; simpl; [constructor|].
  destruct (k1 a) eqn:H1.
  - rewrite (H a H1). simpl. by constructor.
  - destruct (k2 a); simpl; [by constructor|done].
Qed.

(** [X4] Adding entries to an explicit list never deselects: when every
    non-empty trimmed entry of one explicit list is an entry of another,
    the first selection is a sublist of the second, and the second
    list of deselected designations a sublist of the first. *)
Theorem PrepareUpdateLists_monotone plan1 plan2 collection reqs1 reqs2 :
  requests_of (UpdateList plan1) = Some reqs1 ->
  requests_of (UpdateList plan2) = Some reqs2 ->
  Exists (fun r => ~ blank r) reqs1 ->
  (forall x, x <> "" -> x ∈ trimmed reqs1 -> x ∈ trimmed reqs2) ->
  sublist (selected (PrepareUpdateLists plan1 collection))
          (selected (PrepareUpdateLists plan2 collection)) /\
  sublist (deselected (PrepareUpdateLists plan2 collection))
          (deselected (PrepareUpdateLists plan1 collection)).
Proof.
  intros H1 H2 Hne1 Hsub.
  assert (Hne2 : Exists (fun r => ~ blank r) reqs2).
  { assert (Hn : noneEmptyRequest (scan_requests reqs1) = true)
      by (apply scan_noneEmpty; by right).
    apply scan_noneEmpty_trimmed in Hn as (x & Hin & Hx).
    assert (Hn2 : noneEmptyRequest (scan_requests reqs2) = true).
    { apply scan_noneEmpty_trimmed. exists x. split; [by apply Hsub|done]. }
    apply scan_noneEmpty in Hn2 as [Hn2|Hn2]; [discriminate Hn2|done]. }
  rewrite (PrepareUpdateLists_explicit _ _ _ H1 Hne1),
    (PrepareUpdateLists_explicit _ _ _ H2 Hne2).
  cbn [selected deselected].
  assert (Hk : forall item, isSelected false (scan_requests reqs1) item = true ->
                            isSelected false (scan_requests reqs2) item = true).
  { intros item. rewrite !isSelected_rule. by apply selection_rule_ext. }
  split; apply filter_sublist_mono.
  - exact Hk.
  - intros item. rewrite !negb_true_iff. intros Hf.
    apply not_true_is_false. intros Ht. apply Hk in Ht. congruence.
Qed.

Lemma PrepareUpdateLists_monotone_witness :
  sublist (selected (PrepareUpdateLists others_plan Scripted.three_updates))
          (selected (PrepareUpdateLists explicit_plan Scripted.three_updates)).
Proof.
  apply (PrepareUpdateLists_monotone others_plan explicit_plan Scripted.three_updates
           ["Others"] explicit_requests eq_refl eq_refl).
  - apply Exists_cons_hd. unfold blank. simpl. discriminate.
  - intros x _. vm_compute trimmed. rewrite !elem_of_cons, !elem_of_nil. tauto.
Defined.

Lemma elements_as_strings_Some elems :
  is_Some (elements_as_strings elems) <-> Forall known_string elems.
Proof.
  induction elems as [|e elems IH]; simpl.
  - split; [constructor|]. by eexists.
  - rewrite Forall_cons, <- IH. destruct e as [| |s]; simpl.
    + split; [by intros [? ?]|]. by intros [[? ?] _].
    + split; [by intros [? ?]|]. by intros [[? ?] _].
    + rewrite fmap_is_Some. split; [|tauto]. intros H. split; [by eexists|done].
Qed.

(** [X5] The only error of [PrepareUpdateLists] is a desired list with
    an element that is null or unknown: it fails exactly then, with the
    text "invalid update_list format", and both results are empty.  An
    entry it does not recognize is never an error. *)
Theorem PrepareUpdateLists_errors plan collection :
  let p := PrepareUpdateLists plan collection in
  (prepare_err p = None <->
   forall elems, UpdateList plan = ListValue elems -> Forall known_string elems) /\
  (prepare_err p <> None ->
   prepare_err p = Some "invalid update_list format" /\
   selected p = [] /\ deselected p = []) /\
  (forall reqs, requests_of (UpdateList plan) = Some reqs -> prepare_err p = None).
Proof.
  intros p. split_and!.
  - unfold p, PrepareUpdateLists.
    destruct (UpdateList plan) as [| |elems]; simpl.
    + destruct (fold_left _ _ _). by split.
    + destruct (fold_left _ _ _). by split.
    + pose proof (elements_as_strings_Some elems) as He.
      destruct (elements_as_strings elems) as [reqs|]; simpl.
      * destruct (fold_left _ _ _). simpl. split; [intros _ ? [= <-]|done].
        apply He. by eexists.
      * split; [done|]. intros H. specialize (H elems eq_refl).
        apply He in H as [? ?]. done.
  - unfold p, PrepareUpdateLists.
    destruct (UpdateList plan) as [| |elems]; simpl;
      try (destruct (fold_left _ _ _); done).
    destruct (elements_as_strings elems); [|done].
    destruct (fold_left _ _ _). done.
  - intros reqs Hreq. unfold p.
    by rewrite (PrepareUpdateLists_requests _ _ _ Hreq).
Qed.

(** ** Execute payload, in full *)

(** [X6] [BuildExecutePayload] does not look at the vendor flag.  With
    the operation time taken as "Immediately" when it is null or
    unknown: it fails exactly when the operation time is "Once" and the
    schedule time is null or unknown, and its one error names the
    missing attribute; a payload it returns has [ExecutionMode]
    "ExecuteUpdate", [SchedulingType] the operation time, and a
    [StartDate] (the schedule time) exactly when the operation time is
    "Once". *)
Theorem BuildExecutePayload_total plan isFsas :
  let op := operation_time plan in
  let result := fst (BuildExecutePayload plan isFsas) in
  result = fst (BuildExecutePayload plan (negb isFsas)) /\
  (result = inr schedule_required <->
   op = "Once" /\ ~ known_string (ExecuteOnlineUpdScheduleTime plan)) /\
  (forall e, result = inr e -> e = schedule_required) /\
  (forall payload, result = inl payload ->
   payload !! "ExecutionMode" = Some "ExecuteUpdate" /\
   payload !! "SchedulingType" = Some op /\
   (op = "Once" ->
    payload !! "StartDate" = Some (ValueString (ExecuteOnlineUpdScheduleTime plan))) /\
   (op <> "Once" -> payload !! "StartDate" = None)).
Proof.
  intros op result. unfold result, op, operation_time, BuildExecutePayload, known_string.
  split; [reflexivity|].
  assert (Hknown : forall v : tfString,
            (negb (String_IsNull v) && negb (String_IsUnknown v) = true
             <-> exists t, v = StringValue t)).
  { intros [| |t]; simpl; split; try done; try (by intros [? ?]). by eexists. }
  assert (Hop : (if negb (String_IsNull (ExecuteOnlineUpdOperationTime plan))
                    && negb (String_IsUnknown (ExecuteOnlineUpdOperationTime plan))
                 then ValueString (ExecuteOnlineUpdOperationTime plan)
                 else "Immediately")
                = match ExecuteOnlineUpdOperationTime plan with
                  | StringValue v => v
                  | _ => "Immediately"
                  end) by (by destruct (ExecuteOnlineUpdOperationTime plan)).
  rewrite Hop. clear Hop.
  set (v := match ExecuteOnlineUpdOperationTime plan with
            | StringValue v => v
            | _ => "Immediately"
            end).
  specialize (Hknown (ExecuteOnlineUpdScheduleTime plan)).
  destruct (bool_decide_reflect (v = "Once")) as [Hv|Hv].
  - destruct (negb _ && negb _).
    + split_and!.
      * split; [done|]. intros [_ Hn]. exfalso. by apply Hn, Hknown.
      * done.
      * intros payload [= <-]. rewrite Hv.
        split_and!; try done; try (intros _; by rewrite lookup_insert_eq).
    + split_and!.
      * split; [intros _|done]. split; [done|]. intros Hk. by apply Hknown in Hk.
      * by intros e [= <-].
      * done.
  - assert (Hpay : forall payload : gmap string string,
              payload = <[ "SchedulingType" := v ]> {[ "ExecutionMode" := "ExecuteUpdate" ]} ->
              payload !! "ExecutionMode" = Some "ExecuteUpdate" /\
              payload !! "SchedulingType" = Some v /\
              (v = "Once" -> payload !! "StartDate"
                             = Some (ValueString (ExecuteOnlineUpdScheduleTime plan))) /\
              (v <> "Once" -> payload !! "StartDate" = None)).
    { intros payload ->. split_and!; try done; try by rewrite lookup_insert_eq. }
    destruct (negb _ && negb _).
    + split_and!; [split; [done | by intros [? _]] | done |].
      intros payload [= <-]. by apply Hpay.
    + split_and!; [split; [done | by intros [? _]] | done |].
      intros payload [= <-]. by apply Hpay.
Qed.

(** ** Endpoints *)

Lemma append_inj_l (p a b : string) : p +:+ a = p +:+ b -> a = b.
Proof. induction p as [|c p IH]; simpl; [done|]. intros [= H]. by apply IH. Qed.

Section Endpoints.

Context {World : Type} {backend : Backend World}.

Lemma elcm_action_inj oem prefix a b :
  elcm_action oem prefix a = elcm_action oem prefix b -> a = b.
Proof.
  unfold elcm_action. intros H.
  by do 4 apply append_inj_l in H.
Qed.

(** [X7] Whatever the vendor names are, the endpoints of one vendor
    variant are five different URLs: check/execute, get-collection,
    modify-collection, license and system. *)
Theorem endpoints_distinct isFsas :
  let e := GetOnlineUpdateEndpoints isFsas in
  NoDup [checkEndpoint e; collectionEndpoint e; modifyCollectionEndpoint e;
         GetLicenseEndpoint isFsas; GetSystemOemEndpoint isFsas].
Proof.
  intros e. unfold e, GetOnlineUpdateEndpoints, GetLicenseEndpoint, GetSystemOemEndpoint.
  destruct isFsas; cbn [checkEndpoint collectionEndpoint modifyCollectionEndpoint].
  all: repeat (apply NoDup_cons; split;
               [rewrite ?elem_of_cons, elem_of_nil; intros H |]);
       [..|apply NoDup_nil_2].
  all: repeat (destruct H as [H|H]); try done.
  all: try (apply elcm_action_inj in H; discriminate H).
  all: try (unfold elcm_action in H; simpl in H; discriminate H).
  all: unfold elcm_action in H; do 2 apply append_inj_l in H; discriminate H.
Qed.

End Endpoints.

(** ** Single calls *)

Section SingleCalls.

Context {World : Type} {backend : Backend World}.

Implicit Types (s : @St World).

Lemma call_run {A} e (f : World -> A * World) s :
  call e f s =
  (fst (f (world s)),
   {| world := snd (f (world s)); trace := trace s ++ [e];
      Diagnostics := Diagnostics s; State := State s |}).
Proof. unfold call, bind, emit. simpl. by destruct (f (world s)). Qed.

Lemma is_2xx_accepted_spec code :
  is_2xx_accepted code = true <-> code ∈ [200; 201; 202; 204].
Proof.
  unfold is_2xx_accepted. rewrite !orb_true_iff, !Z.eqb_eq.
  rewrite !elem_of_cons, elem_of_nil. tauto.
Qed.

Ltac since :=
  erewrite events_since_app; [| cbn; rewrite <- ?app_assoc; reflexivity].

(** [X8] The license check is one GET.  It succeeds exactly when the GET
    is answered with status 200 and a body that decodes to a key list
    holding "eLCM". *)
Theorem CheckELCMLicense_ok_iff endpoint s :
  let r := CheckELCMLicense endpoint s in
  events_since s (snd r) = [EvGet endpoint] /\
  (fst r = None <->
   exists resp w keys,
     client_Get endpoint (world s) = (inl resp, w) /\
     StatusCode resp = 200 /\
     json_Decode_licenses resp = inl keys /\
     "eLCM" ∈ keys).
Proof.
  intros r. unfold r, CheckELCMLicense, Get. rewrite bind_run, call_run. cbn [fst snd].
  destruct (client_Get endpoint (world s)) as [[resp|err] w] eqn:Hget; cbn [fst snd].
  2: { split; [by apply events_since_app|]. split; [done|]. by intros (? & ? & ? & [=] & _). }
  destruct (StatusCode resp =? 200) eqn:Hc; cbn [negb].
  2: { split; [by apply events_since_app|]. split; [done|].
       intros (? & ? & ? & [= <- <-] & Hc' & _). rewrite Hc' in Hc. done. }
  apply Z.eqb_eq in Hc.
  destruct (json_Decode_licenses resp) as [keys|err] eqn:Hd.
  2: { split; [by apply events_since_app|]. split; [done|].
       intros (? & ? & ? & [= <- <-] & _ & Hd' & _). congruence. }
  assert (Hk : existsb (fun name => bool_decide (name = "eLCM")) keys = true
               <-> "eLCM" ∈ keys).
  { rewrite existsb_exists. split.
    - intros (x & Hin & Hx). apply bool_decide_eq_true in Hx as ->.
      by apply list_elem_of_In.
    - intros Hin. exists "eLCM". split; [by apply list_elem_of_In|].
      by apply bool_decide_eq_true. }
  destruct (existsb _ keys); cbn [fst snd ret].
  - split; [by apply events_since_app|]. split; [intros _|done].
    exists resp, w, keys. split_and!; try done. by apply Hk.
  - split; [by apply events_since_app|]. split; [done|].
    intros (? & ? & keys' & [= <- <-] & _ & Hd' & Hin).
    rewrite Hd in Hd'. injection Hd' as <-. apply Hk in Hin. done.
Qed.

(** [X9] The check trigger posts once, the check payload.  It succeeds
    exactly when the POST is answered with status 200, 201, 202 or 204,
    and then returns the Location header as it is, also when empty; on
    an error the location is empty. *)
Theorem TriggerOnlineUpdateCheck_outcome endpoint s :
  let r := TriggerOnlineUpdateCheck endpoint s in
  posts_of (events_since s (snd r)) = [(endpoint, check_payload)] /\
  (snd (fst r) = None <->
   exists resp w,
     client_Post endpoint check_payload (world s) = (inl resp, w) /\
     StatusCode resp ∈ [200; 201; 202; 204]) /\
  (forall resp w,
     client_Post endpoint check_payload (world s) = (inl resp, w) ->
     StatusCode resp ∈ [200; 201; 202; 204] ->
     fst r = (HeaderLocation resp, None)) /\
  (snd (fst r) <> None -> fst (fst r) = "").
Proof.
  intros r. unfold r, TriggerOnlineUpdateCheck, Post. rewrite bind_run, call_run.
  fold check_payload. cbn [fst snd].
  destruct (client_Post endpoint check_payload (world s)) as [[resp|err] w] eqn:Hpost;
    cbn [fst snd].
  2: { split; [since; done|]. split_and!; try done.
       split; [done|]. by intros (? & ? & [=] & _). }
  pose proof (is_2xx_accepted_spec (StatusCode resp)) as Hacc.
  destruct (is_2xx_accepted (StatusCode resp)); cbn [negb].
  2: { split; [since; done|]. split_and!; try done.
       - split; [done|]. intros (? & ? & [= <- <-] & Hin). by apply Hacc in Hin.
       - intros ? ? [= <- <-] Hin. by apply Hacc in Hin. }
  destruct (bool_decide_reflect (HeaderLocation resp = "")) as [Hl|Hl]; cbn.
  - split; [since; done|].
    split_and!; try done.
    + split; [intros _|done]. exists resp, w. split; [done|]. by apply Hacc.
    + intros ? ? [= <- <-] _. by rewrite Hl.
  - split; [since; done|]. split_and!; try done.
    + split; [intros _|done]. exists resp, w. split; [done|]. by apply Hacc.
    + by intros ? ? [= <- <-] _.
Qed.

(** [X10] The execute trigger posts once and does nothing else.  It
    succeeds exactly when the POST is answered with status 200, 201,
    202 or 204 and a Location header that is not empty, and then
    returns that header; on an error the location is empty. *)
Theorem TriggerOnlineUpdateExecute_outcome endpoint payload s :
  let r := TriggerOnlineUpdateExecute endpoint payload s in
  events_since s (snd r) = [EvPost endpoint (PayloadMap payload)] /\
  (snd (fst r) = None <->
   exists resp w,
     client_Post endpoint (PayloadMap payload) (world s) = (inl resp, w) /\
     StatusCode resp ∈ [200; 201; 202; 204] /\
     HeaderLocation resp <> "") /\
  (forall resp w,
     client_Post endpoint (PayloadMap payload) (world s) = (inl resp, w) ->
     snd (fst r) = None ->
     fst (fst r) = HeaderLocation resp) /\
  (snd (fst r) <> None -> fst (fst r) = "").
Proof.
  intros r. unfold r, TriggerOnlineUpdateExecute, Post. rewrite bind_run, call_run.
  cbn [fst snd].
  destruct (client_Post endpoint (PayloadMap payload) (world s))
    as [[resp|err] w] eqn:Hpost; cbn [fst snd].
  2: { split; [by apply events_since_app|]. split_and!; try done.
       split; [done|]. by intros (? & ? & [=] & _). }
  pose proof (is_2xx_accepted_spec (StatusCode resp)) as Hacc.
  destruct (is_2xx_accepted (StatusCode resp)); cbn [negb].
  2: { destruct (snd (ReadAll resp)); cbn;
         (split; [by apply events_since_app|]); split_and!; try done;
         split; try done; intros (? & ? & [= <- <-] & Hin & _); by apply Hacc in Hin. }
  destruct (bool_decide_reflect (HeaderLocation resp = "")) as [Hl|Hl]; cbn.
  - split; [by apply events_since_app|]. split_and!; try done.
    split; [done|]. by intros (? & ? & [= <- <-] & _ & ?).
  - split; [by apply events_since_app|]. split_and!; try done.
    + split; [intros _|done]. exists resp, w. split_and!; try done. by apply Hacc.
    + by intros ? ? [= <- <-] _.
Qed.

End SingleCalls.

Ltac since :=
  erewrite events_since_app; [| cbn; rewrite <- ?app_assoc; reflexivity].

(** ** Deselecting *)

Section Deselect.

Context {World : Type} {backend : Backend World}.

Implicit Types (s : @St World).

Lemma DeselectUpdates_is_loop modifyEndpoint designations :
  DeselectUpdates modifyEndpoint designations
  = DeselectUpdates_loop modifyEndpoint designations.
Proof. by destruct designations. Qed.

Lemma posts_of_app evs1 evs2 : posts_of (evs1 ++ evs2) = posts_of evs1 ++ posts_of evs2.
Proof. apply omap_app. Qed.




End Deselect.

Example DeselectUpdates_third_refused :
  let r := DeselectUpdates "/modify" ["a"; "b"; "c"; "d"] third_refused_start in
  posts_of (trace (snd r)) = map (deselect_call "/modify") ["a"; "b"; "c"] /\
  fst r = Some "deselect POST request for 'c' returned status code 500: ".
Proof. vm_compute. done. Qed.

(** ** Fetching, in numbers *)

Section FetchBounds.

Context {World : Type} {backend : Backend World}.

Implicit Types (s : @St World).

Lemma GetOnlineUpdateCollection_trace endpoint s :
  trace (snd (GetOnlineUpdateCollection endpoint s))
  = trace s ++ [EvPost endpoint (PayloadMap ∅)].
Proof.
  unfold GetOnlineUpdateCollection, Post. rewrite bind_run, call_run. cbn [fst snd].
  destruct (client_Post _ _ _) as [[resp|err] w]; cbn [fst snd]; [|done].
  by repeat case_match.
Qed.

Lemma Sleep_trace d s : trace (snd (Sleep d s)) = trace s ++ [EvSleep d].
Proof. unfold Sleep. by rewrite call_run. Qed.

Lemma sleeps_of_app evs1 evs2 :
  sleeps_of (evs1 ++ evs2) = sleeps_of evs1 ++ sleeps_of evs2.
Proof. apply omap_app. Qed.

Lemma retry_loop_events endpoint retries delay n s :
  let r := retry_loop endpoint retries delay n s in
  exists evs,
    trace (snd r) = trace s ++ evs /\
    Forall (fetch_event endpoint delay) evs /\
    (length (posts_of evs) <= n)%nat /\
    (length (sleeps_of evs) <= length (posts_of evs))%nat /\
    (forall c, fst r = inl c ->
       (length (sleeps_of evs) < length (posts_of evs))%nat) /\
    (fst r = inr (budget_exhausted retries) \/
     (length (sleeps_of evs) < length (posts_of evs))%nat).
Proof.
  revert s. induction n as [|n IH]; intros s r.
  - exists []. unfold r. cbn. rewrite app_nil_r. split_and!; try done. by left.
  - unfold r. cbn [retry_loop]. rewrite bind_run.
    pose proof (GetOnlineUpdateCollection_trace endpoint s) as Hg.
    destruct (GetOnlineUpdateCollection endpoint s) as [[c| |err] s1]; cbn [fst snd] in *.
    + exists [EvPost endpoint (PayloadMap ∅)]. cbn.
      split_and!; try done; try lia;
        try (repeat constructor; by left); try (right; lia).
    + rewrite bind_run. pose proof (Sleep_trace delay s1) as Hs.
      destruct (IH (snd (Sleep delay s1))) as (evs & Ht & Hf & Hp & Hsl & Hok & Hend).
      exists (EvPost endpoint (PayloadMap ∅) :: EvSleep delay :: evs).
      split_and!.
      * rewrite Ht, Hs, Hg, <- !app_assoc. done.
      * constructor; [by left|]. constructor; [by right|done].
      * cbn. fold (posts_of evs). lia.
      * cbn. fold (posts_of evs) (sleeps_of evs). lia.
      * intros c Hc. cbn. fold (posts_of evs) (sleeps_of evs).
        specialize (Hok c Hc). lia.
      * destruct Hend as [Hend|Hend]; [by left|right].
        cbn. fold (posts_of evs) (sleeps_of evs). lia.
    + exists [EvPost endpoint (PayloadMap ∅)]. cbn.
      split_and!; try done; try lia;
        try (repeat constructor; by left); try (right; lia).
Qed.

(** [X12] A fetch with retries is bounded by its budget: it posts at
    most [retries] times, always the empty body to the one endpoint;
    it sleeps [delay] after an attempt and at no other time, so never
    more often than it posts, and not after the attempt that ends the
    loop with a collection.  With a budget of zero or less it calls
    nothing and reports the exhausted budget. *)
Theorem GetOnlineUpdateCollectionWithRetry_bounded endpoint retries delay s :
  let r := GetOnlineUpdateCollectionWithRetry endpoint retries delay s in
  let evs := events_since s (snd r) in
  Forall (fetch_event endpoint delay) evs /\
  (length (posts_of evs) <= Z.to_nat retries)%nat /\
  (length (sleeps_of evs) <= length (posts_of evs))%nat /\
  (forall c, fst r = inl c -> (length (sleeps_of evs) < length (posts_of evs))%nat) /\
  (retries <= 0 -> r = (inr (budget_exhausted retries), s)).
Proof.
  intros r evs. unfold evs, r, GetOnlineUpdateCollectionWithRetry.
  destruct (retry_loop_events endpoint retries delay (Z.to_nat retries) s)
    as (evs' & Ht & Hf & Hp & Hs & Hok & _).
  rewrite (events_since_app _ _ _ Ht). split_and!; try done.
  intros Hle. replace (Z.to_nat retries) with 0%nat by lia. done.
Qed.

(** [X13] [CheckOnlineUpdateStatus] waits for the task once.  It
    succeeds exactly when the wait reports success without error, and
    then does nothing more; otherwise it fetches the task log, once,
    and returns an error. *)
Theorem CheckOnlineUpdateStatus_ok_iff location timeout isFsas s :
  let r := CheckOnlineUpdateStatus location timeout isFsas s in
  let waited := WaitForRedfishTaskEnd location timeout (world s) in
  (fst r = None <-> fst waited = (true, None)) /\
  (fst r = None ->
   events_since s (snd r) = [EvWaitTask location timeout] /\
   world (snd r) = snd waited) /\
  (fst r <> None ->
   events_since s (snd r) = [EvWaitTask location timeout; EvFetchTaskLog location]).
Proof.
  intros r waited. unfold r, waited, CheckOnlineUpdateStatus.
  rewrite bind_run, call_run. cbn [fst snd].
  destruct (WaitForRedfishTaskEnd location timeout (world s)) as [[ok err] w];
    cbn [fst snd].
  destruct err as [e|], ok;
    rewrite ?bool_decide_eq_true_2 by done;
    rewrite ?bool_decide_eq_false_2 by (intros H; by apply H);
    cbn [negb orb].
  3: { cbn. split_and!; try done. intros _. split; [since|]; done. }
  all: rewrite bind_run, call_run; cbn [fst snd world];
       destruct (FetchRedfishTaskLog location isFsas w) as [[log bad] w'];
       cbn [fst snd]; destruct bad; cbn [fst snd ret].
  all: split_and!; [split; intros [=] | intros [=] | intros _; since; done].
Qed.

Lemma GetOnlineUpdateCollection_Ready endpoint s c s' :
  GetOnlineUpdateCollection endpoint s = (Ready c, s') ->
  exists resp result,
    client_Post endpoint (PayloadMap ∅) (world s) = (inl resp, world s') /\
    trace s' = trace s ++ [EvPost endpoint (PayloadMap ∅)] /\
    StatusCode resp = 200 /\
    json_Decode_collection resp = inl result /\
    jStatus result <> "InProgress" /\
    c = {| LastStatusChangeDate := StringValue (jLastStatusChangeDate result);
           UpdateCollection := map item_of_json (jUpdateCollection result) |}.
Proof.
  unfold GetOnlineUpdateCollection, Post. rewrite bind_run, call_run. cbn [fst snd].
  destruct (client_Post _ _ _) as [[resp|err] w] eqn:Hpost; cbn [fst snd]; [|done].
  destruct (StatusCode resp =? 200) eqn:Hc; cbn [negb]; [|done].
  destruct (json_Decode_collection resp) as [result|err] eqn:Hd; [|done].
  destruct (bool_decide_reflect (jStatus result = "InProgress")); [done|].
  intros [= <- <-]. exists resp, result. split_and!; try done. by apply Z.eqb_eq.
Qed.

(** A collection comes from the attempt that follows some attempts that
    found the check in progress, fewer than the budget. *)
Lemma retry_loop_Ready endpoint retries delay n s c s' :
  retry_loop endpoint retries delay n s = (inl c, s') ->
  exists k sk,
    (k < n)%nat /\
    in_progress_run endpoint delay k s = Some sk /\
    GetOnlineUpdateCollection endpoint sk = (Ready c, s').
Proof.
  revert s. induction n as [|n IH]; intros s; [done|].
  cbn [retry_loop]. rewrite bind_run.
  destruct (GetOnlineUpdateCollection endpoint s) as [[c'| |err] s1] eqn:Hg;
    cbn [fst snd].
  - intros [= <- <-]. exists 0%nat, s. split_and!; [lia | done | done].
  - rewrite bind_run. intros H. apply IH in H as (k & sk & Hk & Hrun & Hready).
    exists (S k), sk. split_and!; [lia | | done].
    cbn [in_progress_run]. by rewrite Hg.
  - done.
Qed.

(** [X14] A collection that a fetch with retries returns was decoded
    from a reply of the run.  After fewer attempts than the budget that
    each found the check in progress (and a sleep after each), the
    empty body was posted once more; the reply to that POST, which
    left the world and the events as the fetch returns them, had status
    200 and decoded to a [Status] other than "InProgress"; the
    collection has its date, as a known value, and its items, one for
    one and in order, with their designations and components as known
    values. *)
Theorem fetched_collection_decoded endpoint retries delay s c s' :
  GetOnlineUpdateCollectionWithRetry endpoint retries delay s = (inl c, s') ->
  exists k sk resp result,
    (k < Z.to_nat retries)%nat /\
    in_progress_run endpoint delay k s = Some sk /\
    client_Post endpoint (PayloadMap ∅) (world sk) = (inl resp, world s') /\
    trace s' = trace sk ++ [EvPost endpoint (PayloadMap ∅)] /\
    StatusCode resp = 200 /\
    json_Decode_collection resp = inl result /\
    jStatus result <> "InProgress" /\
    LastStatusChangeDate c = StringValue (jLastStatusChangeDate result) /\
    map Designation (UpdateCollection c)
    = map (fun u => StringValue (jDesignation u)) (jUpdateCollection result) /\
    map Component (UpdateCollection c)
    = map (fun u => StringValue (jComponent u)) (jUpdateCollection result).
Proof.
  intros H. apply retry_loop_Ready in H as (k & sk & Hk & Hrun & H).
  apply GetOnlineUpdateCollection_Ready in H
    as (resp & result & Hpost & Ht & Hc & Hd & Hs & ->).
  exists k, sk, resp, result. cbn. rewrite !map_map. done.
Qed.

End FetchBounds.

Lemma fetched_collection_decoded_witness :
  let s := Scripted.start [busy; with_updates] [] [] in
  exists k sk resp result,
    (k < 3)%nat /\
    in_progress_run collection_url Second k s = Some sk /\
    StatusCode resp = 200 /\
    jStatus result <> "InProgress" /\
    map Designation (UpdateCollection Scripted.three_updates)
    = map (fun u => StringValue (jDesignation u)) (jUpdateCollection result).
Proof.
  intros s.
  edestruct (fetched_collection_decoded collection_url 3 Second s Scripted.three_updates)
    as (k & sk & resp & result & Hk & Hrun & _ & _ & Hc & _ & Hs & _ & Hm & _).
  - vm_compute. reflexivity.
  - exists k, sk, resp, result.
    split_and!; [exact Hk | exact Hrun | exact Hc | exact Hs | exact Hm].
Defined.

(** ** Event classes of the helpers *)

Section OnlyEvents.

Context {World : Type} {backend : Backend World}.

Lemma only_events_refl (P : Event -> Prop) (s : @St World) : only_events P s s.
Proof. exists []. by rewrite app_nil_r. Qed.

Lemma only_events_trans (P : Event -> Prop) (s1 s2 s3 : @St World) :
  only_events P s1 s2 -> only_events P s2 s3 -> only_events P s1 s3.
Proof.
  intros (e1 & H1 & F1) (e2 & H2 & F2). exists (e1 ++ e2).
  split; [by rewrite H2, H1, app_assoc | by apply Forall_app].
Qed.

#[local] Instance only_events_preorder (P : Event -> Prop) :
  PreOrder (@only_events World P).
Proof.
  split; [intros s; apply only_events_refl | intros ? ? ?; apply only_events_trans].
Qed.

Lemma only_events_weaken (P Q : Event -> Prop) {A} (c : Eff A) :
  (forall e, P e -> Q e) ->
  @preserves World (only_events P) A c -> preserves (only_events Q) c.
Proof.
  intros HPQ Hc s. destruct (Hc s) as (evs & Ht & Hf).
  exists evs. split; [done|]. eapply Forall_impl; eauto.
Qed.

Lemma only_emit (P : Event -> Prop) e :
  P e -> @preserves World (only_events P) _ (emit e).
Proof. intros He s. exists [e]. split; [done|]. by constructor. Qed.

Lemma only_call (P : Event -> Prop) {A} e (f : World -> A * World) :
  P e -> @preserves World (only_events P) _ (call e f).
Proof.
  intros He s. exists [e]. rewrite call_run. split; [done|]. by constructor.
Qed.

(** A computation that leaves the trace alone. *)
Lemma only_silent (P : Event -> Prop) {A} (c : Eff A) :
  (forall s, trace (snd (c s)) = trace s) ->
  @preserves World (only_events P) A c.
Proof. intros H s. exists []. by rewrite H, app_nil_r. Qed.

End OnlyEvents.

#[export] Existing Instance only_events_preorder.

(** Walks through a computation as [frame] does; the events at the
    leaves are checked against the class. *)
Ltac only_step :=
  match goal with
  | |- preserves ?R (ret ?a) => exact (preserves_ret R a)
  | |- preserves ?R (bind ?c ?k) => refine (preserves_bind R c k _ _); [ | intros ?]
  | |- preserves _ (match ?x with _ => _ end) => destruct x
  | |- preserves _ (if ?b then _ else _) => destruct b
  | |- preserves _ (let '(_, _) := ?x in _) => destruct x
  | |- preserves (only_events _) (emit _) => apply only_emit; solve [auto]
  | |- preserves (only_events _) (tflog _ _) => apply only_emit; solve [auto]
  | |- preserves (only_events _) (call _ _) => apply only_call; solve [auto]
  | |- preserves (only_events _) (Post _ _) => apply only_call; solve [auto]
  | |- preserves (only_events _) (Get _) => apply only_call; solve [auto]
  | |- preserves (only_events _) (Sleep _) => apply only_call; solve [auto]
  | |- preserves (only_events _) (AddError _ _) => apply only_silent; reflexivity
  | |- preserves (only_events _) (AddWarning _ _) => apply only_silent; reflexivity
  | |- preserves (only_events _) (AppendDiags _) => apply only_silent; reflexivity
  | |- preserves (only_events _) (State_Set _) => apply only_silent; reflexivity
  | |- preserves (only_events _) DiagsHasError => apply only_silent; reflexivity
  | |- preserves (only_events _) Now => apply only_silent; reflexivity
  | |- preserves (only_events _) _ => solve [eauto]
  end.

Ltac classify := repeat only_step.

Section HelperEvents.

Context {World : Type} {backend : Backend World}.

Variable P : Event -> Prop.
Hypothesis P_log : forall entry, P (EvLog entry).
Hypothesis P_fetchlog : forall location, P (EvFetchTaskLog location).

Local Abbreviation emits_only c := (@preserves World (only_events P) _ c).

Lemma only_tflog_Background_all entries : emits_only (tflog_Background_all entries).
Proof. intros s. rewrite tflog_Background_all_run. reflexivity. Qed.

Lemma only_CheckELCMLicense endpoint :
  P (EvGet endpoint) -> emits_only (CheckELCMLicense endpoint).
Proof. intros. unfold CheckELCMLicense. classify. Qed.

Lemma only_GetOnlineUpdateCollection endpoint :
  P (EvPost endpoint (PayloadMap ∅)) -> emits_only (GetOnlineUpdateCollection endpoint).
Proof. intros. unfold GetOnlineUpdateCollection. classify. Qed.

Lemma only_retry_loop endpoint retries delay n :
  P (EvPost endpoint (PayloadMap ∅)) -> P (EvSleep delay) ->
  emits_only (retry_loop endpoint retries delay n).
Proof.
  intros. pose proof (only_GetOnlineUpdateCollection endpoint).
  induction n; simpl; classify.
Qed.

Lemma only_GetOnlineUpdateCollectionWithRetry endpoint retries delay :
  P (EvPost endpoint (PayloadMap ∅)) -> P (EvSleep delay) ->
  emits_only (GetOnlineUpdateCollectionWithRetry endpoint retries delay).
Proof. apply only_retry_loop. Qed.

Lemma only_IsCollectionCacheValid endpoint :
  P (EvPost endpoint (PayloadMap ∅)) -> P (EvSleep (1 * Second)) ->
  emits_only (IsCollectionCacheValid endpoint).
Proof.
  intros. pose proof (only_GetOnlineUpdateCollectionWithRetry endpoint).
  unfold IsCollectionCacheValid. classify.
Qed.

Lemma only_TriggerOnlineUpdateCheck endpoint :
  P (EvPost endpoint check_payload) -> emits_only (TriggerOnlineUpdateCheck endpoint).
Proof. intros. unfold TriggerOnlineUpdateCheck. fold check_payload. classify. Qed.

Lemma only_CheckOnlineUpdateStatus location timeout isFsas :
  P (EvWaitTask location timeout) ->
  emits_only (CheckOnlineUpdateStatus location timeout isFsas).
Proof. intros. unfold CheckOnlineUpdateStatus. classify. Qed.

Lemma only_Create_collection isFsas endpoints :
  P (EvPost (collectionEndpoint endpoints) (PayloadMap ∅)) ->
  P (EvPost (checkEndpoint endpoints) check_payload) ->
  P (EvSleep (1 * Second)) ->
  P (EvSleep (5 * Second)) ->
  (forall location, P (EvWaitTask location DEFAULT_ONLINEUPDATE_TIMEOUT)) ->
  emits_only (Create_collection isFsas endpoints).
Proof.
  intros.
  pose proof (only_GetOnlineUpdateCollectionWithRetry (collectionEndpoint endpoints)).
  pose proof (only_IsCollectionCacheValid (collectionEndpoint endpoints)).
  pose proof (only_TriggerOnlineUpdateCheck (checkEndpoint endpoints)).
  pose proof only_CheckOnlineUpdateStatus.
  unfold Create_collection. classify.
Qed.

Lemma only_DeselectUpdates endpoint designations :
  (forall d, P (EvPost endpoint (deselect_payload d))) ->
  emits_only (DeselectUpdates endpoint designations).
Proof.
  intros. rewrite DeselectUpdates_is_loop.
  induction designations as [|d designations IH]; simpl; [classify|].
  fold (deselect_payload d). classify.
Qed.

Lemma only_TriggerOnlineUpdateExecute endpoint payload :
  P (EvPost endpoint (PayloadMap payload)) ->
  emits_only (TriggerOnlineUpdateExecute endpoint payload).
Proof. intros. unfold TriggerOnlineUpdateExecute. classify. Qed.

Lemma only_Create_tail a :
  (forall d, P (EvPost (modifyCollectionEndpoint (a_endpoints a)) (deselect_payload d))) ->
  (forall payload, P (EvPost (checkEndpoint (a_endpoints a)) (PayloadMap payload))) ->
  P (EvSleep (10 * Second)) ->
  (forall location, P (EvWaitTask location DEFAULT_ONLINEUPDATE_TIMEOUT)) ->
  emits_only (Create_tail a).
Proof.
  intros.
  pose proof only_tflog_Background_all.
  pose proof (only_DeselectUpdates (modifyCollectionEndpoint (a_endpoints a))).
  pose proof (only_TriggerOnlineUpdateExecute (checkEndpoint (a_endpoints a))).
  pose proof only_CheckOnlineUpdateStatus.
  unfold Create_tail, Create_prepare, Create_execute, Create_finish. classify.
Qed.

End HelperEvents.

(** ** How [Create] gets the collection *)

Section CollectionPhase.

Context {World : Type} {backend : Backend World}.

Implicit Types (s : @St World).

(** With a budget left, the loop starts with a fetch. *)
Lemma retry_loop_first endpoint retries delay n s :
  exists evs,
    trace (snd (retry_loop endpoint retries delay (S n) s))
    = trace s ++ EvPost endpoint (PayloadMap ∅) :: evs.
Proof.
  cbn [retry_loop]. rewrite bind_run.
  pose proof (GetOnlineUpdateCollection_trace endpoint s) as Hg.
  destruct (GetOnlineUpdateCollection endpoint s) as [[c| |err] s1]; cbn [fst snd] in *.
  - by exists [].
  - rewrite bind_run. pose proof (Sleep_trace delay s1) as Hs.
    destruct (retry_loop_events endpoint retries delay n (snd (Sleep delay s1)))
      as (evs & Ht & _).
    exists (EvSleep delay :: evs). by rewrite Ht, Hs, Hg, <- !app_assoc.
  - by exists [].
Qed.

(** The cache check is its fetch, followed by a look at the clock at
    most; it says yes only for a collection. *)
Lemma IsCollectionCacheValid_fetch endpoint s :
  let fetched := GetOnlineUpdateCollectionWithRetry endpoint 2 (1 * Second) s in
  let r := IsCollectionCacheValid endpoint s in
  snd r = snd fetched /\
  (fst r = true -> exists c, fst fetched = inl c).
Proof.
  intros fetched r. unfold r, fetched, IsCollectionCacheValid. rewrite bind_run.
  destruct (GetOnlineUpdateCollectionWithRetry endpoint 2 (1 * Second) s)
    as [[c|err] s1]; cbn [fst snd]; [|done].
  destruct (negb _ && negb _); [|done].
  destruct (time_Parse_RFC3339 _); [|done].
  rewrite bind_run. cbn [Now fst snd].
  destruct (_ <? _); cbn; eauto.
Qed.

(** [X15] When the cache check says yes, [Create] fetches the
    collection a second time and uses that one: everything it does is
    posting the empty body to the collection endpoint and sleeping one
    second, with two to five posts (at most two of the check, at most
    three of the second fetch) and fewer sleeps than posts.  It returns no collection exactly when the
    second fetch fails, and has then added an error. *)
Theorem Create_collection_cached isFsas endpoints s :
  fst (IsCollectionCacheValid (collectionEndpoint endpoints) s) = true ->
  let r := Create_collection isFsas endpoints s in
  let evs := events_since s (snd r) in
  let again :=
    GetOnlineUpdateCollectionWithRetry (collectionEndpoint endpoints) 3 (1 * Second)
      (snd (IsCollectionCacheValid (collectionEndpoint endpoints) s)) in
  Forall (fetch_event (collectionEndpoint endpoints) (1 * Second)) evs /\
  (2 <= length (posts_of evs) <= 5)%nat /\
  (length (sleeps_of evs) < length (posts_of evs))%nat /\
  (forall c, fst r = Some c <-> fst again = inl c) /\
  (fst r = None -> HasError (Diagnostics (snd r)) = true).
Proof.
  intros Hvalid r evs again.
  destruct (IsCollectionCacheValid_fetch (collectionEndpoint endpoints) s)
    as [Hsnd [c0 Hc0]]; [done|].
  unfold GetOnlineUpdateCollectionWithRetry in Hsnd, Hc0.
  change (Z.to_nat 2) with 2%nat in *.
  destruct (retry_loop_events (collectionEndpoint endpoints) 2 (1 * Second) 2 s)
    as (evs1 & Ht1 & Hf1 & Hp1 & Hs1 & Hok1 & _).
  destruct (retry_loop_first (collectionEndpoint endpoints) 2 (1 * Second) 1 s)
    as (rest1 & Hr1).
  rewrite Ht1 in Hr1. apply app_inv_head in Hr1. specialize (Hok1 _ Hc0).
  set (s1 := snd (IsCollectionCacheValid (collectionEndpoint endpoints) s)) in *.
  destruct (retry_loop_events (collectionEndpoint endpoints) 3 (1 * Second) 3 s1)
    as (evs2 & Ht2 & Hf2 & Hp2 & Hs2 & Hok2 & _).
  destruct (retry_loop_first (collectionEndpoint endpoints) 3 (1 * Second) 2 s1)
    as (rest2 & Hr2).
  rewrite Ht2 in Hr2. apply app_inv_head in Hr2.
  assert (Hrun : r = match fst again with
                     | inl c => (Some c, snd again)
                     | inr err =>
                         (None, snd (AddError "Failed to retrieve cached collection" err
                                       (snd again)))
                     end).
  { unfold r, Create_collection. rewrite bind_run, Hvalid, bind_run.
    fold s1. fold again. by destruct (fst again). }
  assert (Htr : trace (snd r) = trace s ++ evs1 ++ evs2).
  { rewrite Hrun. unfold again, GetOnlineUpdateCollectionWithRetry.
    change (Z.to_nat 3) with 3%nat. rewrite app_assoc, <- Ht1, <- Hsnd. fold s1.
    rewrite <- Ht2. by destruct (fst (retry_loop _ _ _ _ s1)). }
  unfold evs. rewrite (events_since_app _ _ _ Htr).
  rewrite posts_of_app, sleeps_of_app, !length_app.
  assert (1 <= length (posts_of evs1))%nat by (rewrite Hr1; cbn; lia).
  assert (1 <= length (posts_of evs2))%nat by (rewrite Hr2; cbn; lia).
  split_and!; try lia.
  - by apply Forall_app.
  - intros c. rewrite Hrun. destruct (fst again); cbn; split; congruence.
  - rewrite Hrun. destruct (fst again) as [c|err]; cbn [fst snd]; [done|].
    intros _. cbn. rewrite HasError_Append. apply orb_true_r.
Qed.

Lemma TriggerOnlineUpdateCheck_trace endpoint s :
  exists logs,
    trace (snd (TriggerOnlineUpdateCheck endpoint s))
    = trace s ++ EvPost endpoint check_payload :: logs /\
    Forall (fun e => exists entry, e = EvLog entry) logs.
Proof.
  unfold TriggerOnlineUpdateCheck, Post. fold check_payload.
  rewrite bind_run, call_run. cbn [fst snd].
  destruct (client_Post endpoint check_payload (world s)) as [[resp|err] w];
    cbn [fst snd]; [|by exists []].
  destruct (is_2xx_accepted (StatusCode resp)); cbn [negb]; [|by exists []].
  destruct (bool_decide (HeaderLocation resp = "")); [|by exists []].
  eexists [_]. cbn. rewrite <- app_assoc. split; [done|]. repeat constructor. eauto.
Qed.

Lemma CheckOnlineUpdateStatus_events location timeout isFsas s :
  exists evs,
    trace (snd (CheckOnlineUpdateStatus location timeout isFsas s)) = trace s ++ evs /\
    (evs = [EvWaitTask location timeout] \/
     evs = [EvWaitTask location timeout; EvFetchTaskLog location]).
Proof.
  unfold CheckOnlineUpdateStatus. rewrite bind_run, call_run. cbn [fst snd].
  destruct (WaitForRedfishTaskEnd location timeout (world s)) as [[ok err] w];
    cbn [fst snd].
  destruct (bool_decide (err <> None) || negb ok); [|eexists; split; [done|by left]].
  rewrite bind_run, call_run. cbn [fst snd world].
  destruct (FetchRedfishTaskLog location isFsas w) as [[log bad] w']; cbn [fst snd].
  eexists. split; [|by right]. destruct bad; cbn; by rewrite <- app_assoc.
Qed.

(** The fetch that follows a check, as [Create] runs it. *)
Lemma fetch_after_check endpoint summary s :
  let r := bind (GetOnlineUpdateCollectionWithRetry endpoint 12 (5 * Second))
             (fun r => match r with
                       | inr err => bind (AddError summary err) (fun _ => ret None)
                       | inl collection => ret (Some collection)
                       end) s in
  exists evs,
    trace (snd r) = trace s ++ evs /\
    Forall (check_follow_up endpoint) evs /\
    (length (posts_of evs) <= 12)%nat /\
    (fst r = None -> HasError (Diagnostics (snd r)) = true).
Proof.
  intros r. unfold r, GetOnlineUpdateCollectionWithRetry.
  change (Z.to_nat 12) with 12%nat. rewrite bind_run.
  destruct (retry_loop_events endpoint 12 (5 * Second) 12 s)
    as (evs & Ht & Hf & Hp & _).
  exists evs. destruct (retry_loop endpoint 12 (5 * Second) 12 s) as [[c|err] s1];
    cbn [fst snd] in *.
  all: split_and!; try done.
  all: try (eapply Forall_impl; [exact Hf|]; by intros e [-> | ->]).
  intros _. cbn. rewrite HasError_Append. apply orb_true_r.
Qed.

(** [X16] When the cache check says no, [Create] posts the check
    request to the check endpoint, once.  Before it there is only the
    cache check (at most two fetches, one second apart); after it there
    is the wait for the task with the fixed timeout, or a sleep of five
    seconds when the reply named no task, and the fetch of the
    collection: at most twelve posts of the empty body, five seconds
    apart.  When no collection is returned an error has been added. *)
Theorem Create_collection_uncached isFsas endpoints s :
  fst (IsCollectionCacheValid (collectionEndpoint endpoints) s) = false ->
  let r := Create_collection isFsas endpoints s in
  exists before after,
    events_since s (snd r)
    = before ++ EvPost (checkEndpoint endpoints) check_payload :: after /\
    Forall (fetch_event (collectionEndpoint endpoints) (1 * Second)) before /\
    (length (posts_of before) <= 2)%nat /\
    Forall (check_follow_up (collectionEndpoint endpoints)) after /\
    (length (posts_of after) <= 12)%nat /\
    (fst r = None -> HasError (Diagnostics (snd r)) = true).
Proof.
  intros Hinvalid r.
  destruct (IsCollectionCacheValid_fetch (collectionEndpoint endpoints) s) as [Hsnd _].
  unfold GetOnlineUpdateCollectionWithRetry in Hsnd. change (Z.to_nat 2) with 2%nat in *.
  destruct (retry_loop_events (collectionEndpoint endpoints) 2 (1 * Second) 2 s)
    as (before & Ht1 & Hf1 & Hp1 & _).
  rewrite <- Hsnd in Ht1. exists before.
  unfold r, Create_collection. rewrite bind_run, Hinvalid, bind_run.
  set (s1 := snd (IsCollectionCacheValid (collectionEndpoint endpoints) s)) in *.
  destruct (TriggerOnlineUpdateCheck_trace (checkEndpoint endpoints) s1)
    as (logs & Ht2 & Hlogs).
  assert (Hlogs' : Forall (check_follow_up (collectionEndpoint endpoints)) logs).
  { eapply Forall_impl; [exact Hlogs|]. by intros e [entry ->]. }
  assert (Hnoposts : posts_of logs = []).
  { clear -Hlogs. induction Hlogs as [|e logs [entry ->] _ IH]; [done|]. exact IH. }
  destruct (TriggerOnlineUpdateCheck (checkEndpoint endpoints) s1)
    as [[location [e|]] s2]; cbn [fst snd] in *.
  { exists logs. split_and!; try done.
    - apply events_since_app. cbn. by rewrite Ht2, Ht1, <- app_assoc.
    - rewrite Hnoposts. cbn. lia.
    - intros _. cbn. rewrite HasError_Append. apply orb_true_r. }
  rewrite bind_run.
  destruct (bool_decide (location = "")); cbn [negb].
  - rewrite bind_run. cbn [ret fst snd].
    pose proof (Sleep_trace (5 * Second) s2) as Hs.
    destruct (fetch_after_check (collectionEndpoint endpoints)
                "Collection Retrieval Error after new check"
                (snd (Sleep (5 * Second) s2)))
      as (evs & Ht3 & Hf3 & Hp3 & Herr).
    exists (logs ++ EvSleep (5 * Second) :: evs). split_and!; try done.
    + apply events_since_app. rewrite Ht3, Hs, Ht2, Ht1.
      by rewrite <- !app_assoc.
    + apply Forall_app. split; [done|]. by constructor.
    + rewrite posts_of_app, Hnoposts. exact Hp3.
  - rewrite bind_run.
    destruct (CheckOnlineUpdateStatus_events location DEFAULT_ONLINEUPDATE_TIMEOUT isFsas s2)
      as (waited & Ht3 & Hw).
    assert (Hfw : Forall (check_follow_up (collectionEndpoint endpoints)) waited)
      by (destruct Hw as [-> | ->]; by repeat constructor).
    assert (Hpw : posts_of waited = []) by (by destruct Hw as [-> | ->]).
    destruct (CheckOnlineUpdateStatus location DEFAULT_ONLINEUPDATE_TIMEOUT isFsas s2)
      as [[e|] s3]; cbn [fst snd] in *.
    + exists (logs ++ waited). split_and!; try done.
      * apply events_since_app. cbn. rewrite Ht3, Ht2, Ht1. by rewrite <- !app_assoc.
      * by apply Forall_app.
      * rewrite posts_of_app, Hnoposts, Hpw. cbn. lia.
      * intros _. cbn. rewrite HasError_Append. apply orb_true_r.
    + cbn [ret fst snd].
      destruct (fetch_after_check (collectionEndpoint endpoints)
                  "Collection Retrieval Error after new check" s3)
        as (evs & Ht4 & Hf4 & Hp4 & Herr).
      exists (logs ++ waited ++ evs). split_and!; try done.
      * apply events_since_app. rewrite Ht4, Ht3, Ht2, Ht1.
        by rewrite <- !app_assoc.
      * apply Forall_app. split; [done|]. by apply Forall_app.
      * rewrite !posts_of_app, Hnoposts, Hpw. exact Hp4.
Qed.

End CollectionPhase.

Lemma Create_collection_cached_witness :
  let s := Scripted.start [busy; with_updates; with_updates] [] [] in
  let r := Create_collection true (GetOnlineUpdateEndpoints true) s in
  (2 <= length (posts_of (events_since s (snd r))) <= 5)%nat.
Proof.
  intros s r.
  refine (proj1 (proj2 (Create_collection_cached true (GetOnlineUpdateEndpoints true) s _))).
  vm_compute. reflexivity.
Defined.

Lemma Create_collection_uncached_witness :
  let s := Scripted.start [refused_post; Scripted.reply 202 "/task/1" ""; with_updates]
             [] [(true, None)] in
  let r := Create_collection true (GetOnlineUpdateEndpoints true) s in
  exists before after,
    events_since s (snd r)
    = before ++ EvPost check_url check_payload :: after /\
    (length (posts_of after) <= 12)%nat.
Proof.
  intros s r.
  edestruct (Create_collection_uncached true (GetOnlineUpdateEndpoints true) s)
    as (before & after & He & _ & _ & _ & Hp & _).
  - vm_compute. reflexivity.
  - exists before, after. split; [exact He | exact Hp].
Defined.

(** ** The end of [Create] *)

Section ExecutePhase.

Context {World : Type} {backend : Backend World}.

Implicit Types (s : @St World) (a : Acquired).

(** [X17] After an execute call that succeeded, [Create] waits for the
    task exactly when the plan's operation time reads "Immediately":
    for any other value (also the empty string of a null or unknown
    one) it is done at once, in the state the call left; for
    "Immediately" it does what [CheckOnlineUpdateStatus] does on the
    returned location with the fixed timeout, goes on exactly when
    that reports no error, and adds an error otherwise. *)
Theorem Create_execute_waits_iff plan isFsas endpoints collection sel desel payload
    s location s1 :
  (0 <? length sel)%nat || List_IsNull (UpdateList plan) = true ->
  TriggerOnlineUpdateExecute (checkEndpoint endpoints) payload s = ((location, None), s1) ->
  let r := Create_execute plan isFsas endpoints collection sel desel payload s in
  let waited := CheckOnlineUpdateStatus location DEFAULT_ONLINEUPDATE_TIMEOUT isFsas s1 in
  (ValueString (ExecuteOnlineUpdOperationTime plan) <> "Immediately" -> r = (true, s1)) /\
  (ValueString (ExecuteOnlineUpdOperationTime plan) = "Immediately" ->
   (fst r = true <-> fst waited = None) /\
   (fst r = true -> snd r = snd waited) /\
   (fst r = false -> HasError (Diagnostics (snd r)) = true) /\
   trace (snd r) = trace (snd waited) /\
   world (snd r) = world (snd waited)).
Proof.
  intros Hdo Htrig r waited. unfold r, Create_execute.
  rewrite Hdo, bind_run, Htrig. cbn [fst snd].
  assert (Hloc : location <> "").
  { eapply TriggerOnlineUpdateExecute_location. by rewrite Htrig. }
  split.
  - intros Hop. by rewrite bool_decide_eq_false_2.
  - intros Hop. rewrite bool_decide_eq_true_2 by done.
    rewrite (bool_decide_eq_false_2 _ Hloc). cbn [negb]. rewrite bind_run.
    fold waited. destruct waited as [[e|] s2]; cbn [fst snd ret].
    + cbn. split_and!; try done. rewrite HasError_Append. intros _. apply orb_true_r.
    + split_and!; done.
Qed.

End ExecutePhase.

Lemma Create_execute_waits_iff_witness :
  let s := Scripted.start [Scripted.reply 202 "/task/7" ""] [] [(true, None)] in
  let r := Create_execute (Scripted.plan ListNull (StringValue "Once") (StringValue "tomorrow"))
             true (GetOnlineUpdateEndpoints true) Scripted.three_updates [] [] ∅ s in
  fst r = true /\ events_since s (snd r) = [EvPost check_url (PayloadMap ∅)].
Proof.
  intros s r.
  edestruct (Create_execute_waits_iff
               (Scripted.plan ListNull (StringValue "Once") (StringValue "tomorrow"))
               true (GetOnlineUpdateEndpoints true) Scripted.three_updates [] [] ∅ s)
    as [Hother _].
  - reflexivity.
  - vm_compute. reflexivity.
  - unfold r. rewrite Hother by (vm_compute; discriminate). vm_compute. done.
Defined.

(** ** The shape of a run of [Create] *)

Section CreateRun.

Context {World : Type} {backend : Backend World}.

Implicit Types (s : @St World) (a : Acquired).

Lemma Create_head_run plan diags s :
  let s0 := snd (AppendDiags diags (snd (emit create_starts s))) in
  Create_head (plan, diags) s =
  if HasError (Diagnostics s0) then ((Returned, [], None), s0)
  else
    match Server plan with
    | [] => ((Panicked, [], None), s0)
    | server0 :: _ =>
        let endpoint := ValueString (Endpoint server0) in
        let connected :=
          call EvConnect (ConnectTargetSystem (Server plan))
            (snd (emit (EvLock endpoint resource_lock) s0)) in
        match fst connected with
        | Some e =>
            ((Returned, [DeferUnlock endpoint resource_lock], None),
             snd (AddError "Service Connection Error" e (snd connected)))
        | None =>
            let r := Create_licensed plan (snd connected) in
            ((Returned, [DeferLogout; DeferUnlock endpoint resource_lock], fst r), snd r)
        end
    end.
Proof.
  intros s0. unfold Create_head. rewrite !bind_run.
  change (snd (AppendDiags diags (snd (tflog LInfo "resource-online-update: create starts" s))))
    with s0.
  cbn [DiagsHasError fst snd].
  destruct (HasError (Diagnostics s0)); [done|].
  destruct (Server plan) as [|server0 servers] eqn:Hsrv; [done|].
  rewrite !bind_run. cbn zeta. fold resource_lock.
  destruct (call EvConnect _ _) as [[e|] sC]; cbn [fst snd]; [done|].
  unfold Create_licensed. rewrite !bind_run.
  destruct (call EvIsFsasCheck IsFsasCheck sC) as [[isFsas [e|]] s1]; cbn [fst snd]; [done|].
  rewrite !bind_run.
  destruct (CheckELCMLicense (GetLicenseEndpoint isFsas) s1) as [[e|] s2];
    cbn [fst snd]; [done|].
  rewrite !bind_run.
  by destruct (Create_collection isFsas (GetOnlineUpdateEndpoints isFsas) s2) as [[c|] s3].
Qed.

Lemma Create_run plan diags s :
  let s0 := snd (AppendDiags diags (snd (emit create_starts s))) in
  Create (plan, diags) s =
  if HasError (Diagnostics s0) then (Returned, s0)
  else
    match Server plan with
    | [] => (Panicked, s0)
    | server0 :: _ =>
        let endpoint := ValueString (Endpoint server0) in
        let connected :=
          call EvConnect (ConnectTargetSystem (Server plan))
            (snd (emit (EvLock endpoint resource_lock) s0)) in
        (Returned,
         snd (emit (EvUnlock endpoint resource_lock)
                (match fst connected with
                 | Some e => snd (AddError "Service Connection Error" e (snd connected))
                 | None =>
                     snd (call EvLogout (fun w => (tt, api_Logout w))
                            (snd (Create_session plan (snd connected))))
                 end)))
    end.
Proof.
  intros s0. pose proof (Create_head_run plan diags s) as Hh. cbn zeta in Hh. fold s0 in Hh.
  destruct (HasError (Diagnostics s0)).
  { by rewrite (Create_unfold _ _ _ _ _ _ Hh). }
  destruct (Server plan) as [|server0 servers].
  { by rewrite (Create_unfold _ _ _ _ _ _ Hh). }
  cbn zeta.
  destruct (call EvConnect _ _) as [[e|] sC]; cbn [fst snd] in *.
  { by rewrite (Create_unfold _ _ _ _ _ _ Hh). }
  rewrite (Create_unfold _ _ _ _ _ _ Hh). unfold Create_session. rewrite bind_run.
  cbn [run_deferred run_deferred_call]. rewrite !bind_run. by cbn [ret fst snd].
Qed.

End CreateRun.

(** ** Errors and the state *)

Section Loud.

Context {World : Type} {backend : Backend World}.

Implicit Types (s : @St World) (a : Acquired).

#[local] Instance same_errors_preorder : PreOrder (@same_errors World).
Proof.
  split.
  - by intros s.
  - intros s1 s2 s3 [H1 H2] [H3 H4]. split; congruence.
Qed.

Lemma same_errors_quiet {A} (c : Eff A) :
  @preserves World same_response A c -> preserves same_errors c.
Proof. intros H s. destruct (H s) as [HD HS]. split; [done|]. by rewrite HD. Qed.

Lemma same_errors_AddWarning summary detail :
  @preserves World same_errors _ (AddWarning summary detail).
Proof.
  intros s. split; [done|]. cbn. rewrite HasError_Append. apply orb_false_r.
Qed.

Lemma HasError_AppendAll ds new :
  HasError (Diagnostics_AppendAll ds new) = HasError ds || HasError new.
Proof.
  unfold Diagnostics_AppendAll. revert ds.
  induction new as [|d new IH]; intros ds; cbn [fold_left].
  - by rewrite orb_false_r.
  - rewrite IH, HasError_Append. cbn. by rewrite orb_assoc.
Qed.

Lemma same_errors_AppendDiags_nil :
  @preserves World same_errors _ (AppendDiags []).
Proof. by intros s. Qed.

Lemma loud_ret {A} (ok : A -> bool) (r : A) :
  ok r = true -> @fails_loudly World A ok (ret r).
Proof. intros H s. cbn. by rewrite H. Qed.

Lemma loud_error {A} (ok : A -> bool) summary detail (r : A) :
  ok r = false ->
  @fails_loudly World A ok (bind (AddError summary detail) (fun _ => ret r)).
Proof.
  intros H s. cbn. rewrite H, HasError_Append. split; [done|]. apply orb_true_r.
Qed.

Lemma loud_bind_quiet {A B} (ok : B -> bool) (c : Eff A) (k : A -> Eff B) :
  @preserves World same_errors A c ->
  (forall r, fails_loudly ok (k r)) ->
  fails_loudly ok (bind c k).
Proof.
  intros Hc Hk s. rewrite bind_run. destruct (Hc s) as [HS HE].
  destruct (Hk (fst (c s)) (snd (c s))) as [HS' HE'].
  rewrite HS', HE', HS, HE. done.
Qed.

Lemma loud_bind {A B} (ok1 : A -> bool) (ok2 : B -> bool)
    (c : Eff A) (k : A -> Eff B) (r : B) :
  @fails_loudly World A ok1 c ->
  (forall x, ok1 x = true -> fails_loudly ok2 (k x)) ->
  (forall x, ok1 x = false -> k x = ret r) ->
  ok2 r = false ->
  fails_loudly ok2 (bind c k).
Proof.
  intros Hc Hk Hstop Hr s. rewrite bind_run. destruct (Hc s) as [HS HE].
  destruct (ok1 (fst (c s))) eqn:Hok.
  - destruct (Hk _ Hok (snd (c s))) as [HS' HE']. rewrite HS', HE', HS, HE. done.
  - rewrite (Hstop _ Hok). cbn. by rewrite Hr.
Qed.

End Loud.

#[export] Existing Instance same_errors_preorder.

#[export] Hint Resolve same_errors_AddWarning same_errors_AppendDiags_nil : eff.

Ltac calm :=
  solve [ apply same_errors_quiet; solve [eauto with eff | frame] | frame ].

Ltac loud_step :=
  match goal with
  | |- fails_loudly _ (ret _) => apply loud_ret; reflexivity
  | |- fails_loudly _ (bind (AddError _ _) (fun _ => ret _)) =>
      apply loud_error; reflexivity
  | |- fails_loudly _ (bind ?c ?k) => apply loud_bind_quiet; [calm | intros ?]
  | |- fails_loudly _ (match ?x with _ => _ end) => destruct x
  | |- fails_loudly _ (if ?b then _ else _) => destruct b
  | |- fails_loudly _ (let '(_, _) := ?x in _) => destruct x
  | |- fails_loudly _ _ => solve [eauto]
  end.

Ltac loud := repeat loud_step.

Section CreateOutcome.

Context {World : Type} {backend : Backend World}.

Implicit Types (s : @St World) (a : Acquired).

Lemma loud_Create_collection isFsas endpoints :
  fails_loudly went_on (Create_collection isFsas endpoints).
Proof.
  unfold Create_collection. loud.
  eapply (loud_bind (fun ok : bool => ok)); [loud | intros ? -> | by intros ? -> | done].
  loud.
Qed.

Lemma loud_Create_licensed plan :
  fails_loudly went_on (Create_licensed plan).
Proof.
  unfold Create_licensed. loud.
  apply (loud_bind went_on went_on _ _ None); [apply loud_Create_collection | | | done].
  - intros [c|] [=]. loud.
  - by intros [c|] [=].
Qed.

Lemma quiet_TriggerOnlineUpdateExecute endpoint payload :
  @preserves World same_response _ (TriggerOnlineUpdateExecute endpoint payload).
Proof. unfold TriggerOnlineUpdateExecute. frame. Qed.

Lemma loud_Create_prepare a : fails_loudly went_on (Create_prepare a).
Proof. unfold Create_prepare. loud. Qed.

Lemma loud_Create_execute plan isFsas endpoints collection sel desel payload :
  fails_loudly (fun ok : bool => ok)
    (Create_execute plan isFsas endpoints collection sel desel payload).
Proof.
  pose proof quiet_TriggerOnlineUpdateExecute.
  unfold Create_execute. loud.
Qed.

(** The rest of [Create] either sets the state, adding no error, or
    adds an error and leaves the state alone. *)
Lemma Create_tail_outcome a s :
  let s' := snd (Create_tail a s) in
  (State s' = Some (with_Id (a_plan a) (StringValue (checkEndpoint (a_endpoints a)))) /\
   HasError (Diagnostics s') = HasError (Diagnostics s)) \/
  (State s' = State s /\ HasError (Diagnostics s') = true).
Proof.
  unfold Create_tail. destruct (length _ =? 0)%nat.
  { left. rewrite !bind_run.
    by cbn [State_Set AppendDiags tflog emit fst snd State Diagnostics
            Diagnostics_AppendAll fold_left]. }
  rewrite bind_run. destruct (loud_Create_prepare a s) as [HS1 HE1].
  destruct (Create_prepare a s) as [[[[sel desel] payload]|] s1]; cbn [fst snd went_on] in *.
  2: { right. by cbn. }
  rewrite bind_run.
  destruct (loud_Create_execute (a_plan a) (a_isFsas a) (a_endpoints a) (a_collection a)
              sel desel payload s1) as [HS2 HE2].
  destruct (Create_execute _ _ _ _ _ _ _ s1) as [[] s2]; cbn [fst snd] in *.
  - left. unfold Create_finish. rewrite !bind_run.
    cbn [State_Set AppendDiags tflog emit fst snd State Diagnostics
         Diagnostics_AppendAll fold_left].
    split; [done|]. by rewrite HE2, HE1.
  - right. cbn [ret snd]. split; congruence.
Qed.

End CreateOutcome.

Section SessionEvents.

Context {World : Type} {backend : Backend World}.

Variable P : Event -> Prop.
Hypothesis P_log : forall entry, P (EvLog entry).
Hypothesis P_fetchlog : forall location, P (EvFetchTaskLog location).
Hypothesis P_vendor : P EvIsFsasCheck.
Hypothesis P_get : forall endpoint, P (EvGet endpoint).
Hypothesis P_post : forall endpoint payload, P (EvPost endpoint payload).
Hypothesis P_sleep : forall d, P (EvSleep d).
Hypothesis P_wait : forall location timeout, P (EvWaitTask location timeout).

Lemma only_Create_session plan :
  @preserves World (only_events P) _ (Create_session plan).
Proof.
  pose proof (only_CheckELCMLicense P).
  pose proof (only_Create_collection P P_log P_fetchlog).
  pose proof (only_Create_tail P P_log P_fetchlog).
  unfold Create_session, Create_licensed. classify.
Qed.

End SessionEvents.

Section CreateShape.

Context {World : Type} {backend : Backend World}.

Implicit Types (s : @St World) (a : Acquired).

(** [X18] [Create] panics exactly when the plan was read without an
    error and has no server block: the endpoint of the first server is
    taken before anything is locked or called.  All such a run has done
    is log its start and append the diagnostics of the plan. *)
Theorem Create_panics_iff plan diags s :
  let r := Create (plan, diags) s in
  (fst r = Panicked <->
   HasError (Diagnostics_AppendAll (Diagnostics s) diags) = false /\ Server plan = []) /\
  (fst r = Panicked ->
   events_since s (snd r) = [create_starts] /\
   world (snd r) = world s /\
   State (snd r) = State s /\
   Diagnostics (snd r) = Diagnostics_AppendAll (Diagnostics s) diags).
Proof.
  intros r. unfold r. rewrite Create_run. cbn zeta.
  cbn [AppendDiags emit fst snd Diagnostics].
  destruct (HasError (Diagnostics_AppendAll (Diagnostics s) diags)).
  { cbn [fst]. split; [|done]. split; [done|]. by intros [? _]. }
  destruct (Server plan) as [|server0 servers]; cbn [fst snd].
  - split; [done|]. intros _. split_and!; try done. by apply events_since_app.
  - split; [|done]. split; [done|]. by intros [_ ?].
Qed.

Lemma Create_session_grows plan s :
  exists body, trace (snd (Create_session plan s)) = trace s ++ body.
Proof.
  destruct (only_Create_session (fun _ => True)) with (plan := plan) (s := s)
    as (body & Ht & _); try done.
  by exists body.
Qed.

(** A run of [Create], around what it does while logged in: the state
    in which the session starts, and what is added after it. *)
Lemma Create_trace plan diags s :
  let final := snd (Create (plan, diags) s) in
  let evs := events_since s final in
  if HasError (Diagnostics_AppendAll (Diagnostics s) diags) then evs = [create_starts]
  else
    match Server plan with
    | [] => evs = [create_starts]
    | server0 :: _ =>
        let endpoint := ValueString (Endpoint server0) in
        let connected := ConnectTargetSystem (Server plan) (world s) in
        match fst connected with
        | Some _ =>
            evs = [create_starts; EvLock endpoint resource_lock; EvConnect;
                   EvUnlock endpoint resource_lock]
        | None =>
            let sC :=
              {| world := snd connected;
                 trace := trace s ++ [create_starts; EvLock endpoint resource_lock; EvConnect];
                 Diagnostics := Diagnostics_AppendAll (Diagnostics s) diags;
                 State := State s |} in
            evs = [create_starts; EvLock endpoint resource_lock; EvConnect]
                  ++ events_since sC (snd (Create_session plan sC))
                  ++ [EvLogout; EvUnlock endpoint resource_lock] /\
            State final = State (snd (Create_session plan sC)) /\
            Diagnostics final = Diagnostics (snd (Create_session plan sC))
        end
    end.
Proof.
  intros final evs. unfold evs, final. rewrite Create_run. cbn zeta.
  cbn [AppendDiags emit fst snd Diagnostics].
  destruct (HasError (Diagnostics_AppendAll (Diagnostics s) diags)).
  { by apply events_since_app. }
  destruct (Server plan) as [|server0 servers] eqn:Hsrv.
  { by apply events_since_app. }
  rewrite call_run. cbn [fst snd world].
  destruct (ConnectTargetSystem (server0 :: servers) (world s)) as [[e|] w]; cbn [fst snd].
  { apply events_since_app. cbn. by rewrite <- !app_assoc. }
  match goal with |- context [Create_session plan ?s0] => set (s1 := s0) end.
  set (sC := {| world := w;
                trace := trace s ++ [create_starts;
                                     EvLock (ValueString (Endpoint server0)) resource_lock;
                                     EvConnect];
                Diagnostics := Diagnostics_AppendAll (Diagnostics s) diags;
                State := State s |}).
  assert (Hs1 : s1 = sC).
  { unfold s1, sC. cbn [trace Diagnostics State]. by rewrite <- !app_assoc. }
  clearbody s1. subst s1.
  destruct (Create_session_grows plan sC) as (body & Ht).
  rewrite (events_since_app _ _ _ Ht). rewrite call_run. cbn [fst snd emit State Diagnostics].
  split; [|done].
  apply events_since_app. cbn [trace]. rewrite Ht. unfold sC. cbn [trace].
  by rewrite <- !app_assoc.
Qed.

(** [X19] [Create] releases what it took, in reverse order.  A run
    that stops at the plan locks nothing.  Otherwise it locks the
    endpoint of the first server and connects; when the connection
    fails it unlocks and is done; when it succeeds the run ends with
    the logout followed by the unlock of that endpoint, and nothing in
    between locks, unlocks, connects or logs out. *)
Theorem Create_releases plan diags s :
  let evs := events_since s (snd (Create (plan, diags) s)) in
  if HasError (Diagnostics_AppendAll (Diagnostics s) diags) then evs = [create_starts]
  else
    match Server plan with
    | [] => evs = [create_starts]
    | server0 :: _ =>
        let endpoint := ValueString (Endpoint server0) in
        match fst (ConnectTargetSystem (Server plan) (world s)) with
        | Some _ =>
            evs = [create_starts; EvLock endpoint resource_lock; EvConnect;
                   EvUnlock endpoint resource_lock]
        | None =>
            exists body,
              evs = [create_starts; EvLock endpoint resource_lock; EvConnect]
                    ++ body ++ [EvLogout; EvUnlock endpoint resource_lock] /\
              Forall (fun e => ~ session_event e) body
        end
    end.
Proof.
  intros evs. pose proof (Create_trace plan diags s) as H. cbn zeta in H. fold evs in H.
  destruct (HasError _); [done|].
  destruct (Server plan) as [|server0 servers]; [done|]. cbn zeta.
  destruct (fst (ConnectTargetSystem _ _)); [done|].
  destruct H as (-> & _ & _).
  match goal with |- context [Create_session plan ?s0] => set (sC := s0) end.
  destruct (only_Create_session (fun e => ~ session_event e)
              (fun _ H => H) (fun _ H => H) (fun H => H) (fun _ H => H)
              (fun _ _ H => H) (fun _ H => H) (fun _ _ H => H) plan sC)
    as (body & Ht & Hbody).
  exists body. by rewrite (events_since_app _ _ _ Ht).
Qed.

Lemma Create_licensed_acquired plan s a s' :
  Create_licensed plan s = (Some a, s') ->
  a_plan a = plan /\
  a_isFsas a = fst (fst (IsFsasCheck (world s))) /\
  a_endpoints a = GetOnlineUpdateEndpoints (a_isFsas a).
Proof.
  unfold Create_licensed. rewrite !bind_run, call_run. cbn [fst snd].
  destruct (IsFsasCheck (world s)) as [[isFsas [e|]] w]; cbn [fst snd]; [done|].
  rewrite !bind_run.
  destruct (CheckELCMLicense (GetLicenseEndpoint isFsas) _) as [[e|] s2];
    cbn [fst snd]; [done|].
  rewrite !bind_run.
  destruct (Create_collection isFsas (GetOnlineUpdateEndpoints isFsas) s2) as [[c|] s3];
    cbn [fst snd]; [|done].
  by intros [= <- <-].
Qed.

Lemma Create_session_outcome plan s :
  let s' := snd (Create_session plan s) in
  let isFsas := fst (fst (IsFsasCheck (world s))) in
  (State s' = Some (with_Id plan (StringValue (checkEndpoint (GetOnlineUpdateEndpoints isFsas)))) /\
   HasError (Diagnostics s') = HasError (Diagnostics s)) \/
  (State s' = State s /\ HasError (Diagnostics s') = true).
Proof.
  unfold Create_session. rewrite bind_run.
  destruct (loud_Create_licensed plan s) as [HS HE].
  destruct (Create_licensed plan s) as [[a|] s1] eqn:Hl; cbn [fst snd went_on] in *.
  - destruct (Create_licensed_acquired _ _ _ _ Hl) as (Hp & Hv & Hep).
    destruct (Create_tail_outcome a s1) as [[HS' HE'] | [HS' HE']].
    + left. rewrite <- Hv, <- Hp at 1. rewrite <- Hep. split; congruence.
    + right. split; congruence.
  - right. by cbn.
Qed.

(** [X20] With a server block in the plan, and starting from a response
    without error or state, [Create] sets the state exactly when it
    ends without an error.  In the state it sets, the id is the check
    endpoint of the vendor variant that the vendor check reported
    after the connection, and every other attribute is that of the
    plan. *)
Theorem Create_sets_state_iff plan diags s :
  HasError (Diagnostics s) = false ->
  State s = None ->
  Server plan <> [] ->
  let r := Create (plan, diags) s in
  let isFsas :=
    fst (fst (IsFsasCheck (snd (ConnectTargetSystem (Server plan) (world s))))) in
  (HasError (Diagnostics (snd r)) = false <-> State (snd r) <> None) /\
  (forall st, State (snd r) = Some st ->
     Id st = StringValue (checkEndpoint (GetOnlineUpdateEndpoints isFsas)) /\
     Server st = Server plan /\
     UpdateList st = UpdateList plan /\
     ExecuteOnlineUpdOperationTime st = ExecuteOnlineUpdOperationTime plan /\
     ExecuteOnlineUpdScheduleTime st = ExecuteOnlineUpdScheduleTime plan).
Proof.
  intros Hclean Hnone Hsrv r isFsas. unfold r.
  pose proof (Create_trace plan diags s) as H. cbn zeta in H.
  pose proof (Create_run plan diags s) as Hrun. cbn zeta in Hrun.
  cbn [AppendDiags emit fst snd Diagnostics] in Hrun.
  destruct (HasError (Diagnostics_AppendAll (Diagnostics s) diags)) eqn:Hplan.
  { rewrite Hrun. cbn [snd Diagnostics State]. rewrite Hplan, Hnone.
    split; [split; done | done]. }
  destruct (Server plan) as [|server0 servers] eqn:Hserver; [done|].
  destruct (fst (ConnectTargetSystem (server0 :: servers) (world s))) as [e|] eqn:Hconn.
  { rewrite Hrun, call_run. cbn [fst snd world]. rewrite Hconn.
    cbn [emit AddError snd Diagnostics State]. rewrite HasError_Append, Hnone.
    cbn [is_error]. rewrite orb_true_r. split; [split; done | done]. }
  clear Hrun. destruct H as (_ & -> & ->).
  match goal with |- context [Create_session plan ?s0] => set (sC := s0) end.
  destruct (Create_session_outcome plan sC) as [(HS & HE) | [HS HE]].
  - rewrite HS, HE. cbn [sC Diagnostics]. rewrite Hplan.
    split; [split; done|]. intros st Hst.
    assert (Heq : st = with_Id plan
                         (StringValue (checkEndpoint
                            (GetOnlineUpdateEndpoints (fst (fst (IsFsasCheck (world sC))))))))
      by (apply (inj Some); by rewrite Hst).
    rewrite Heq. split_and!; try reflexivity. exact Hserver.
  - rewrite HS, HE. cbn [sC State]. rewrite Hnone. split; [split; done | done].
Qed.

Lemma update_events_after_license plan isFsas :
  let endpoints := GetOnlineUpdateEndpoints isFsas in
  @preserves World (only_events (update_event endpoints)) _
    (bind (Create_collection isFsas endpoints)
       (fun c => match c with
                 | Some collection =>
                     Create_tail {| a_plan := plan; a_isFsas := isFsas;
                                    a_endpoints := endpoints;
                                    a_collection := collection |}
                 | None => ret tt
                 end)).
Proof.
  intros endpoints.
  assert (P_log : forall entry, update_event endpoints (EvLog entry)) by done.
  assert (P_fetchlog : forall location, update_event endpoints (EvFetchTaskLog location))
    by done.
  refine (preserves_bind _ _ _ _ _).
  - apply only_Create_collection; try done.
    + by left.
    + right. left. split; [done|]. by eexists.
  - intros [collection|]; [|exact (preserves_ret _ _)].
    apply only_Create_tail; try done; cbn [a_endpoints].
    + intros d. right. right. split; [done|]. by eexists.
    + intros body. right. left. split; [done|]. by eexists.
Qed.

Lemma Create_session_licensed plan s :
  let vendor := call EvIsFsasCheck IsFsasCheck s in
  let isFsas := fst (fst vendor) in
  let license := CheckELCMLicense (GetLicenseEndpoint isFsas) (snd vendor) in
  snd (fst vendor) = None ->
  fst license = None ->
  Create_session plan s =
  bind (Create_collection isFsas (GetOnlineUpdateEndpoints isFsas))
    (fun c => match c with
              | Some collection =>
                  Create_tail {| a_plan := plan; a_isFsas := isFsas;
                                 a_endpoints := GetOnlineUpdateEndpoints isFsas;
                                 a_collection := collection |}
              | None => ret tt
              end) (snd license).
Proof.
  intros vendor isFsas license. unfold license, isFsas, vendor.
  unfold Create_session, Create_licensed. rewrite !bind_run.
  destruct (call EvIsFsasCheck IsFsasCheck s) as [[v [e|]] s1]; cbn [fst snd]; [done|].
  intros _. rewrite !bind_run.
  destruct (CheckELCMLicense (GetLicenseEndpoint v) s1) as [[e|] s2]; cbn [fst snd]; [done|].
  intros _. rewrite !bind_run.
  by destruct (Create_collection v (GetOnlineUpdateEndpoints v) s2) as [[c|] s3].
Qed.

Lemma CheckELCMLicense_trace endpoint s :
  trace (snd (CheckELCMLicense endpoint s)) = trace s ++ [EvGet endpoint].
Proof.
  unfold CheckELCMLicense, Get. rewrite bind_run, call_run. cbn [fst snd].
  destruct (client_Get _ _) as [[resp|err] w']; cbn [fst snd]; [|done].
  by repeat case_match.
Qed.

Lemma Create_session_unlicensed plan s :
  let vendor := call EvIsFsasCheck IsFsasCheck s in
  let isFsas := fst (fst vendor) in
  let license := CheckELCMLicense (GetLicenseEndpoint isFsas) (snd vendor) in
  snd (fst vendor) <> None \/ fst license <> None ->
  posts_of (events_since s (snd (Create_session plan s))) = [].
Proof.
  intros vendor isFsas license. unfold license, isFsas, vendor.
  unfold Create_session, Create_licensed. rewrite !bind_run, call_run. cbn [fst snd].
  destruct (IsFsasCheck (world s)) as [[v [e|]] w]; cbn [fst snd].
  { intros _. by since. }
  intros [?|Hlic]; [done|]. rewrite !bind_run.
  match type of Hlic with context [CheckELCMLicense ?ep ?s1] =>
    pose proof (CheckELCMLicense_trace ep s1) as Ht;
    destruct (CheckELCMLicense ep s1) as [[e|] s2]; cbn [fst snd] in *; [|done]
  end.
  erewrite events_since_app; [|cbn; rewrite Ht; cbn; rewrite <- app_assoc; reflexivity].
  done.
Qed.

(** What [Create] posts while logged in. *)
Lemma Create_session_posts plan s :
  let evs := events_since s (snd (Create_session plan s)) in
  posts_of evs = [] \/
  exists isFsas wV after,
    IsFsasCheck (world s) = ((isFsas, None), wV) /\
    fst (CheckELCMLicense (GetLicenseEndpoint isFsas)
           {| world := wV; trace := trace s ++ [EvIsFsasCheck];
              Diagnostics := Diagnostics s; State := State s |}) = None /\
    evs = EvIsFsasCheck :: EvGet (GetLicenseEndpoint isFsas) :: after /\
    Forall (update_event (GetOnlineUpdateEndpoints isFsas)) after.
Proof.
  intros evs. unfold evs.
  pose proof (Create_session_unlicensed plan s) as Hno.
  pose proof (Create_session_licensed plan s) as Hyes.
  cbn zeta in Hno, Hyes. rewrite call_run in Hno, Hyes. cbn [fst snd] in Hno, Hyes.
  destruct (IsFsasCheck (world s)) as [[isFsas [e|]] wV]; cbn [fst snd] in *.
  { left. apply Hno. by left. }
  set (sL := {| world := wV; trace := trace s ++ [EvIsFsasCheck];
                Diagnostics := Diagnostics s; State := State s |}) in *.
  destruct (fst (CheckELCMLicense (GetLicenseEndpoint isFsas) sL)) as [e|] eqn:Hl.
  { left. apply Hno. by right. }
  right. rewrite (Hyes eq_refl eq_refl).
  destruct (update_events_after_license plan isFsas
              (snd (CheckELCMLicense (GetLicenseEndpoint isFsas) sL)))
    as (after & Ht & Hafter).
  exists isFsas, wV, after. split_and!; try done.
  apply events_since_app.
  rewrite Ht, CheckELCMLicense_trace. unfold sL. cbn [trace]. by rewrite <- !app_assoc.
Qed.

(** [X21] [Create] posts nothing unless it has connected, the vendor
    check that follows has succeeded, and the license check, a GET to
    the license endpoint of the reported variant in the state the
    vendor check left, has passed.  After that GET, all that follows
    until the logout is a POST of the empty body to the collection
    endpoint of that variant, a POST of a map to its check endpoint, a
    POST that deselects one designation to its modification endpoint,
    a sleep, a wait for a task with the fixed timeout, or a log
    entry. *)
Theorem Create_posts_after_license plan diags s :
  let evs := events_since s (snd (Create (plan, diags) s)) in
  posts_of evs = [] \/
  exists server0 isFsas wV after,
    let endpoint := ValueString (Endpoint server0) in
    let connected := ConnectTargetSystem (Server plan) (world s) in
    let before :=
      [create_starts; EvLock endpoint resource_lock; EvConnect; EvIsFsasCheck] in
    head (Server plan) = Some server0 /\
    fst connected = None /\
    IsFsasCheck (snd connected) = ((isFsas, None), wV) /\
    fst (CheckELCMLicense (GetLicenseEndpoint isFsas)
           {| world := wV; trace := trace s ++ before;
              Diagnostics := Diagnostics_AppendAll (Diagnostics s) diags;
              State := State s |}) = None /\
    evs = before ++ EvGet (GetLicenseEndpoint isFsas)
                 :: after ++ [EvLogout; EvUnlock endpoint resource_lock] /\
    Forall (update_event (GetOnlineUpdateEndpoints isFsas)) after.
Proof.
  intros evs. pose proof (Create_trace plan diags s) as H. cbn zeta in H. fold evs in H.
  destruct (HasError _); [left; by rewrite H|].
  destruct (Server plan) as [|server0 servers] eqn:Hsrv; [left; by rewrite H|].
  destruct (fst (ConnectTargetSystem (server0 :: servers) (world s))) eqn:Hconn;
    [left; by rewrite H|].
  destruct H as (-> & _ & _).
  match goal with |- context [Create_session plan ?s0] => set (sC := s0) end.
  destruct (Create_session_posts plan sC)
    as [Hno | (isFsas & wV & after & Hv & Hlic & -> & Hafter)].
  - left. rewrite !posts_of_app, Hno. done.
  - right. exists server0, isFsas, wV, after. cbn zeta.
    unfold sC in Hv, Hlic. cbn [world trace Diagnostics State] in Hv, Hlic.
    rewrite <- app_assoc in Hlic.
    split_and!; try done.
Qed.

End CreateShape.

Lemma Create_sets_state_iff_witness :
  let r := Create (null_plan, []) no_updates_start in
  (HasError (Diagnostics (snd r)) = false <-> State (snd r) <> None) /\
  (forall st, State (snd r) = Some st -> Id st = StringValue check_url).
Proof.
  intros r.
  destruct (Create_sets_state_iff null_plan [] no_updates_start) as [Hiff Hst].
  - vm_compute. reflexivity.
  - reflexivity.
  - vm_compute. discriminate.
  - split; [exact Hiff|]. intros st Hsome. exact (proj1 (Hst st Hsome)).
Defined.

(** ** The data source *)

Section DataSourceRead.

Context {World : Type} {backend : Backend World}.

Implicit Types (s : @St World).

Lemma loud_Read_collection isFsas endpoints :
  fails_loudly went_on (DataSource.Read_collection isFsas endpoints).
Proof.
  unfold DataSource.Read_collection. loud.
  eapply (loud_bind (fun ok : bool => ok)); [loud | intros ? -> | by intros ? -> | done].
  loud.
Qed.

Lemma loud_Read_session data :
  fails_loudly went_on (DataSource.Read_session data).
Proof.
  unfold DataSource.Read_session. loud.
  apply (loud_bind went_on went_on _ _ None); [apply loud_Read_collection | | | done].
  - intros [c|] [=]. loud.
  - by intros [c|] [=].
Qed.

Lemma Read_session_result data s result s' :
  DataSource.Read_session data s = (Some result, s') ->
  let vendor := IsFsasCheck (world s) in
  let isFsas := fst (fst vendor) in
  let licensed :=
    CheckELCMLicense (GetLicenseEndpoint isFsas)
      {| world := snd vendor; trace := trace s ++ [EvIsFsasCheck];
         Diagnostics := Diagnostics s; State := State s |} in
  snd (fst vendor) = None /\
  fst licensed = None /\
  DataSource.Id result = StringValue (checkEndpoint (GetOnlineUpdateEndpoints isFsas)) /\
  DataSource.Server result = DataSource.Server data /\
  fst (DataSource.Read_collection isFsas (GetOnlineUpdateEndpoints isFsas) (snd licensed))
  = Some (DataSource.Check result).
Proof.
  unfold DataSource.Read_session. rewrite !bind_run, call_run. cbn [fst snd].
  destruct (IsFsasCheck (world s)) as [[isFsas [e|]] w]; cbn [fst snd]; [done|].
  rewrite !bind_run.
  destruct (CheckELCMLicense (GetLicenseEndpoint isFsas) _) as [[e|] s2];
    cbn [fst snd]; [done|].
  rewrite !bind_run.
  destruct (DataSource.Read_collection isFsas (GetOnlineUpdateEndpoints isFsas) s2)
    as [[c|] s3]; cbn [fst snd]; [|done].
  rewrite !bind_run. cbn [ret fst snd]. intros [= <- <-].
  split_and!; try done. by destruct c.
Qed.

(** [X22] Starting from a response without error, the data source's
    [Read] returns a state exactly when it ends without an error, and
    never touches the state of the resource.  A state it returns comes
    from a run that connected, in which the vendor check and then the
    license check succeeded: its id is the check endpoint of the
    reported variant, its server block that of the configuration, and
    its collection the one that the fetch of lines 136 to 164 returned
    in the state the license check left. *)
Theorem DataSource_Read_sets_state_iff data diags s :
  HasError (Diagnostics s) = false ->
  let r := DataSource.Read (data, diags) s in
  let connected := ConnectTargetSystem (DataSource.Server data) (world s) in
  let vendor := IsFsasCheck (snd connected) in
  let isFsas := fst (fst vendor) in
  let licensed :=
    CheckELCMLicense (GetLicenseEndpoint isFsas)
      {| world := snd vendor;
         trace := trace s ++ [DataSource.read_starts; EvConnect; EvIsFsasCheck];
         Diagnostics := Diagnostics_AppendAll (Diagnostics s) diags;
         State := State s |} in
  (HasError (Diagnostics (snd r)) = false <-> fst r <> None) /\
  State (snd r) = State s /\
  (forall result, fst r = Some result ->
     fst connected = None /\
     snd (fst vendor) = None /\
     fst licensed = None /\
     DataSource.Id result = StringValue (checkEndpoint (GetOnlineUpdateEndpoints isFsas)) /\
     DataSource.Server result = DataSource.Server data /\
     fst (DataSource.Read_collection isFsas (GetOnlineUpdateEndpoints isFsas) (snd licensed))
     = Some (DataSource.Check result)).
Proof.
  intros Hclean r connected vendor isFsas licensed.
  unfold licensed, isFsas, vendor, connected, r, DataSource.Read. rewrite !bind_run.
  cbn [tflog emit AppendDiags DiagsHasError fst snd Diagnostics State].
  destruct (HasError (Diagnostics_AppendAll (Diagnostics s) diags)) eqn:Hplan.
  { cbn [ret fst snd Diagnostics State]. rewrite Hplan. split_and!; try done. }
  rewrite bind_run, call_run. cbn [fst snd world].
  destruct (ConnectTargetSystem (DataSource.Server data) (world s)) as [[e|] w];
    cbn [fst snd].
  { rewrite bind_run. cbn [AddError ret fst snd Diagnostics State].
    rewrite HasError_Append. cbn [is_error]. rewrite orb_true_r. split_and!; try done. }
  rewrite !bind_run, call_run. cbn [ret fst snd State Diagnostics].
  match goal with |- context [DataSource.Read_session data ?s0] => set (s1 := s0) end.
  set (sC := {| world := w; trace := trace s ++ [DataSource.read_starts; EvConnect];
                Diagnostics := Diagnostics_AppendAll (Diagnostics s) diags;
                State := State s |}).
  assert (Hs1 : s1 = sC).
  { unfold s1, sC. cbn [trace]. by rewrite <- !app_assoc. }
  clearbody s1. subst s1.
  destruct (loud_Read_session data sC) as [HS HE]. rewrite HS, HE.
  cbn [sC State Diagnostics]. rewrite Hplan.
  destruct (DataSource.Read_session data sC) as [[result|] s2] eqn:Hr;
    cbn [fst snd went_on].
  - split_and!; try done. intros ? [= <-].
    destruct (Read_session_result _ _ _ _ Hr) as (Hv & Hl & Hid & Hsrv & Hc).
    cbn [sC world trace Diagnostics State] in Hv, Hl, Hid, Hc.
    rewrite <- app_assoc in Hl, Hc. split_and!; done.
  - split_and!; try done.
Qed.

Lemma only_Read_collection (P : Event -> Prop) isFsas endpoints :
  (forall entry, P (EvLog entry)) ->
  (forall location, P (EvFetchTaskLog location)) ->
  P (EvPost (collectionEndpoint endpoints) (PayloadMap ∅)) ->
  P (EvPost (checkEndpoint endpoints) check_payload) ->
  P (EvSleep (1 * Second)) ->
  P (EvSleep (5 * Second)) ->
  (forall location, P (EvWaitTask location DEFAULT_ONLINEUPDATE_TIMEOUT)) ->
  @preserves World (only_events P) _ (DataSource.Read_collection isFsas endpoints).
Proof.
  intros P_log P_fetchlog ? ? ? ? ?.
  pose proof (only_GetOnlineUpdateCollectionWithRetry P).
  pose proof (only_IsCollectionCacheValid P).
  pose proof (only_TriggerOnlineUpdateCheck P).
  pose proof (only_CheckOnlineUpdateStatus P).
  unfold DataSource.Read_collection. classify.
Qed.

Lemma only_Read_session data :
  @preserves World (only_events (fun e => reading_event e /\ ~ session_event e)) _
    (DataSource.Read_session data).
Proof.
  set (P := fun e => reading_event e /\ ~ session_event e).
  assert (P_log : forall entry, P (EvLog entry)) by (split; [done | by intros H]).
  assert (P_fetchlog : forall location, P (EvFetchTaskLog location))
    by (split; [done | by intros H]).
  assert (P_vendor : P EvIsFsasCheck) by (split; [done | by intros H]).
  assert (P_get : forall endpoint, P (EvGet endpoint)) by (split; [done | by intros H]).
  assert (P_sleep : forall d, P (EvSleep d)) by (split; [done | by intros H]).
  assert (P_wait : forall location timeout, P (EvWaitTask location timeout))
    by (split; [done | by intros H]).
  assert (P_fetch : forall endpoint, P (EvPost endpoint (PayloadMap ∅)))
    by (split; [by left | by intros H]).
  assert (P_check : forall endpoint, P (EvPost endpoint check_payload))
    by (split; [by right | by intros H]).
  pose proof (only_CheckELCMLicense P).
  pose proof (only_Read_collection P).
  unfold DataSource.Read_session. classify.
Qed.

(** [X23] The data source only reads.  Every POST of a run of [Read]
    carries the empty body of a collection fetch or the body of the
    check request: nothing is deselected and no update is executed.  A
    run that connects ends with the logout, and logs out or connects
    at no other time; a run that does not connect never logs out; no
    run takes the lock of the resource. *)
Theorem DataSource_Read_only_reads data diags s :
  let evs := events_since s (snd (DataSource.Read (data, diags) s)) in
  Forall reading_event evs /\
  if HasError (Diagnostics_AppendAll (Diagnostics s) diags)
  then evs = [DataSource.read_starts]
  else
    match fst (ConnectTargetSystem (DataSource.Server data) (world s)) with
    | Some _ => evs = [DataSource.read_starts; EvConnect]
    | None =>
        exists body,
          evs = [DataSource.read_starts; EvConnect] ++ body ++ [EvLogout] /\
          Forall (fun e => ~ session_event e) body
    end.
Proof.
  intros evs. unfold evs, DataSource.Read. rewrite !bind_run.
  cbn [tflog emit AppendDiags DiagsHasError fst snd Diagnostics State].
  destruct (HasError (Diagnostics_AppendAll (Diagnostics s) diags)).
  { erewrite events_since_app; [|reflexivity]. split; [by repeat constructor | done]. }
  rewrite bind_run, call_run. cbn [fst snd world].
  destruct (ConnectTargetSystem (DataSource.Server data) (world s)) as [[e|] w];
    cbn [fst snd].
  { erewrite events_since_app;
      [|rewrite bind_run; cbn; rewrite <- !app_assoc; reflexivity].
    split; [by repeat constructor | done]. }
  rewrite !bind_run, call_run. cbn [ret fst snd trace].
  match goal with |- context [DataSource.Read_session data ?s0] => set (sC := s0) end.
  assert (HsC : trace sC = trace s ++ [DataSource.read_starts; EvConnect]).
  { unfold sC. cbn [trace]. by rewrite <- !app_assoc. }
  clearbody sC.
  destruct (only_Read_session data sC) as (body & Ht & Hbody).
  erewrite events_since_app; [|rewrite Ht, HsC, <- !app_assoc; reflexivity].
  split.
  - repeat constructor. apply Forall_app. split; [|by repeat constructor].
    eapply Forall_impl; [exact Hbody|]. by intros e [? _].
  - exists body. split; [done|]. eapply Forall_impl; [exact Hbody|]. by intros e [_ ?].
Qed.

End DataSourceRead.

Lemma DataSource_Read_sets_state_iff_witness :
  let r := DataSource.Read (DataSource.config "https://irmc.example", [])
             (Scripted.start [with_updates; with_updates] [licensed] []) in
  (HasError (Diagnostics (snd r)) = false <-> fst r <> None) /\
  (forall result, fst r = Some result ->
     DataSource.Id result = StringValue check_url).
Proof.
  intros r.
  destruct (DataSource_Read_sets_state_iff
              (DataSource.config "https://irmc.example") []
              (Scripted.start [with_updates; with_updates] [licensed] []))
    as (Hiff & _ & Hres).
  - vm_compute. reflexivity.
  - split; [exact Hiff|]. intros result Hsome.
    destruct (Hres result Hsome) as (_ & _ & _ & Hid & _). exact Hid.
Defined.
